(** * PySEBAL CSV input layer and timeseries batch drivers

    A shallow embedding of [SEBAL/Run_CSV.py], [SEBAL/pysebal_csv.py] and
    [run_timeseries.py]: the CSV cell lookup with its column-letter
    aliases, the mock spreadsheet objects, the wrapper that patches the
    model module, the two batch loops and the command line entry point.
    The SEBAL model itself ([pysebal_py3.SEBALcode]) is external and is a
    parameter of everything that calls it.

    Text is a [string] with one [ascii] per character, read as the code
    point of the character: the embedding speaks of text up to U+00FF. *)

From Stdlib Require Import ZArith Ascii String List Bool Lia.
From Stdlib Require Import Floats.SpecFloat.
From stdpp Require Import base option list gmap strings pretty.
Import ListNotations.

Local Open Scope string_scope.
Local Open Scope list_scope.
Local Open Scope Z_scope.

(** ** Python values, exceptions and results *)

(** An instance of Python's [Exception]: its class name and the text that
    [str(e)] gives.  These are the errors of the program, and what
    [except Exception] and a bare [except] both catch; a request to end
    the interpreter ([SystemExit], [KeyboardInterrupt]) ends the process
    and is not part of the embedding. *)
Record exn := Exn { exn_class : string; exn_msg : string }.

Definition str_exn (e : exn) : string := exn_msg e.

Definition IndexError (m : string) : exn := Exn "IndexError" m.
Definition KeyError (m : string) : exn := Exn "KeyError" m.
Definition ValueError (m : string) : exn := Exn "ValueError" m.
Definition OverflowError (m : string) : exn := Exn "OverflowError" m.
Definition TypeError (m : string) : exn := Exn "TypeError" m.
Definition ZeroDivisionError : exn := Exn "ZeroDivisionError" "division by zero".

(** A computation either returns or raises. *)
Inductive result (A : Type) : Type :=
| Ok (a : A)
| Raise (e : exn).
Arguments Ok {A} a.
Arguments Raise {A} e.

(** A scalar held in a pandas cell after [read_csv]: text, an integer, a
    binary64 float (an empty field is read as the float NaN) or a bool. *)
Inductive value : Type :=
| VStr (s : string)
| VInt (z : Z)
| VFloat (f : spec_float)
| VBool (b : bool).

Definition is_nan (f : spec_float) : bool :=
  match f with S754_nan => true | _ => false end.

(** The float nearest to an integer: a literal with an integral value
    such as [25.0], [float(z)], and the cast of an int64 to float64. *)
Definition float_lit (z : Z) : spec_float := binary_normalize 53 1024 z 0 false.

(** [pd.notna] on a scalar. *)
Definition notna (v : value) : bool :=
  match v with
  | VFloat f => negb (is_nan f)
  | _ => true
  end.

(** Python sequence indexing [l[i]]: a negative index counts from the end,
    [None] stands for the [IndexError] of an index out of bounds. *)
Definition py_index {A : Type} (l : list A) (i : Z) : option A :=
  let n := Z.of_nat (length l) in
  if (0 <=? i) && (i <? n) then l !! Z.to_nat i
  else if (- n <=? i) && (i <? 0) then l !! Z.to_nat (n + i)
  else None.

(** [range(a, b)]. *)
Definition py_range (a b : Z) : list Z :=
  map (fun k => a + Z.of_nat k) (seq 0 (Z.to_nat (b - a))).

(** [ord(c)] for a character: its code point. *)
Definition ord (c : ascii) : Z := Z.of_N (N_of_ascii c).

(** [c.upper()] for a one-character string, as the code points of the
    string it returns.  Up to U+00FF the letters a-z and the accented
    small letters move down by 32, the micro sign becomes the Greek
    capital mu, [y] with diaeresis becomes U+0178, and the sharp s
    becomes the two letters [SS]; every other character stays. *)
Definition upper (c : ascii) : list Z :=
  let n := ord c in
  if ((97 <=? n) && (n <=? 122))
     || ((224 <=? n) && (n <=? 254) && negb (n =? 247)) then [n - 32]
  else if n =? 181 then [924]
  else if n =? 223 then [83; 83]
  else if n =? 255 then [376]
  else [n].

(** [ord(s)] for a string given by its code points: only a string of
    length one has a code point. *)
Definition ord_str (s : list Z) : result Z :=
  match s with
  | [n] => Ok n
  | _ =>
      Raise (TypeError ("ord() expected a character, but string of length "
                        +:+ pretty (length s) +:+ " found"))
  end.

(** [int(s)]: blanks around, a sign, decimal digits with single
    underscores between them, and no more than 4300 digits, the limit
    that the interpreter sets unless told otherwise.  [None] stands for
    [ValueError].  The blanks that [int] strips are the six of ASCII and,
    past them, U+0085 and U+00A0. *)
Definition is_space (c : ascii) : bool :=
  let n := N_of_ascii c in
  ((n =? 32) || ((9 <=? n) && (n <=? 13)) || (n =? 133) || (n =? 160))%N.

Definition digit_of (c : ascii) : option Z :=
  let n := N_of_ascii c in
  if ((48 <=? n) && (n <=? 57))%N then Some (Z.of_N (n - 48)) else None.

Fixpoint parse_digits (s : list ascii) (acc : Z) (after_digit : bool) : option Z :=
  match s with
  | [] => if after_digit then Some acc else None
  | c :: s' =>
      match digit_of c with
      | Some d => parse_digits s' (10 * acc + d) true
      | None =>
          if Ascii.eqb c "_" && after_digit then parse_digits s' acc false
          else None
      end
  end.

Fixpoint drop_spaces (s : list ascii) : list ascii :=
  match s with
  | c :: s' => if is_space c then drop_spaces s' else s
  | [] => []
  end.

Definition strip (s : list ascii) : list ascii :=
  rev (drop_spaces (rev (drop_spaces s))).

Definition max_str_digits : nat := 4300.

Definition py_int (s : string) : option Z :=
  let s := strip (list_ascii_of_string s) in
  if (max_str_digits <? length (omap digit_of s))%nat then None
  else
    match s with
    | c :: s' =>
        if Ascii.eqb c "-" then Z.opp <$> parse_digits s' 0 false
        else if Ascii.eqb c "+" then parse_digits s' 0 false
        else parse_digits (c :: s') 0 false
    | [] => None
    end.

(** ** The data frame *)

(** What [pd.read_csv] returns: the header and the data rows in file
    order, every row as long as the header.  The integers are those of
    an int64 column. *)
Record DataFrame := {
  columns : list string;
  rows : list (list value)
}.

Definition len_df (df : DataFrame) : Z := Z.of_nat (length (rows df)).

(** The dtype of a column after [read_csv]: 64-bit integers, binary64
    floats, bools, or [object] for text and for whatever is mixed. *)
Inductive dtype : Type := int64 | float64 | bool_ | object.

#[global] Instance dtype_eq_dec : EqDecision dtype.
Proof. solve_decision. Defined.

Definition dtype_of (v : value) : dtype :=
  match v with
  | VStr _ => object
  | VInt _ => int64
  | VFloat _ => float64
  | VBool _ => bool_
  end.

(** The dtype of the column at position [j]: the one its cells share,
    [object] when they differ. *)
Definition column_dtype (df : DataFrame) (j : nat) : dtype :=
  match omap (fun r => r !! j) (rows df) with
  | v :: vs =>
      if forallb (fun w => bool_decide (dtype_of w = dtype_of v)) vs
      then dtype_of v else object
  | [] => object
  end.

Definition dtypes (df : DataFrame) : list dtype :=
  map (column_dtype df) (seq 0 (length (columns df))).

Definition is_numeric (d : dtype) : bool :=
  match d with
  | int64 | float64 => true
  | _ => false
  end.

(** The one dtype that pandas gives to values taken across columns:
    their dtype if they agree, [float64] for a mix of integers and
    floats, [object] for any other mix (bools do not mix with numbers). *)
Definition find_common_type (ds : list dtype) : dtype :=
  match ds with
  | d :: ds' =>
      if forallb (fun d' => bool_decide (d' = d)) ds' then d
      else if forallb is_numeric ds then float64
      else object
  | [] => object
  end.

(** A cell brought to a dtype: an integer becomes the nearest float in a
    [float64] row, nothing else changes. *)
Definition astype (d : dtype) (v : value) : value :=
  match d, v with
  | float64, VInt z => VFloat (float_lit z)
  | _, _ => v
  end.

(** A row as a pandas [Series]: labels and values side by side. *)
Record Series := {
  s_index : list string;
  s_values : list value
}.

(** A data row as the [Series] that [df.iloc[i]] and [df.iterrows()] hand
    out: a [Series] has one dtype, so the cells arrive in the common
    type of the columns. *)
Definition row_series (df : DataFrame) (r : list value) : Series :=
  {| s_index := columns df;
     s_values := map (astype (find_common_type (dtypes df))) r |}.

(** [df.iloc[i]]. *)
Definition iloc (df : DataFrame) (i : Z) : result Series :=
  match py_index (rows df) i with
  | Some r => Ok (row_series df r)
  | None => Raise (IndexError "single positional indexer is out-of-bounds")
  end.

Fixpoint series_lookup (index : list string) (vals : list value) (key : string)
  : option value :=
  match index, vals with
  | k :: index', v :: vals' =>
      if decide (k = key) then Some v else series_lookup index' vals' key
  | _, _ => None
  end.

(** [row[key]] *)
Definition series_getitem (s : Series) (key : string) : result value :=
  match series_lookup (s_index s) (s_values s) key with
  | Some v => Ok v
  | None => Raise (KeyError key)
  end.

(** [row.get(key, default)] *)
Definition series_get (s : Series) (key : string) (default : value) : value :=
  match series_lookup (s_index s) (s_values s) key with
  | Some v => v
  | None => default
  end.

Definition in_columns (name : string) (df : DataFrame) : bool :=
  bool_decide (name ∈ columns df).

(** ** Run_CSV.py: CSVInputHandler *)

(** [self.data] is [None] when [load_csv] could not read the file. *)
Record CSVInputHandler := {
  csv_file_path : string;
  data : option DataFrame
}.

Definition get_row_count (self : CSVInputHandler) : Z :=
  match data self with
  | Some df => len_df df
  | None => 0
  end.

Definition col_mapping : gmap string string :=
  list_to_map
    [("A", "Date_Acquired"); ("B", "input_folder"); ("C", "output_folder");
     ("D", "Image_Type"); ("E", "DEM_fileName"); ("F", "Name_Landsat_Image");
     ("G", "Landsat_nr"); ("H", "Thermal_Bands"); ("I", "tcoldmin");
     ("J", "tcoldmax"); ("K", "ndvihot_low"); ("L", "ndvihot_high");
     ("M", "ndvicold_low"); ("N", "ndvicold_high");
     ("O", "Hot_Pixel_Constant"); ("P", "Cold_Pixel_Constant")].

Definition meteo_mapping : gmap string string :=
  list_to_map
    [("A", "Date_Acquired"); ("B", "Temp_inst"); ("C", "Temp_24");
     ("D", "RH_inst"); ("E", "RH_24"); ("F", "zx"); ("G", "Wind_inst");
     ("H", "Wind_24"); ("I", "Method_Radiation_24"); ("J", "Rs_24");
     ("K", "Transm_24"); ("L", "Method_Radiation_inst"); ("M", "Rs_in_inst");
     ("N", "Transm_inst")].

(** The table in force for a sheet: [col_mapping.update(meteo_mapping)]
    under ['Meteo_Input'], the general table under every other name. *)
Definition sheet_mapping (sheet_name : string) : gmap string string :=
  if decide (sheet_name = "Meteo_Input") then meteo_mapping ∪ col_mapping
  else col_mapping.

(** Lines 94-103: the column name for a letter.  [Ok None] is the early
    [return None]; [ord] raises a [TypeError] when [upper] gives more than
    one character, and [self.data.columns[col_index]] an [IndexError] for
    a negative index below minus the column count.  Both are outside the
    [try] of [get_value]. *)
Definition column_name (df : DataFrame) (sheet_name : string) (col_letter : ascii)
  : result (option string) :=
  match sheet_mapping sheet_name !! String col_letter EmptyString with
  | Some col_name => Ok (Some col_name)
  | None =>
      match ord_str (upper col_letter) with
      | Raise e => Raise e
      | Ok n =>
          let col_index := n - ord "A" in
          if col_index <? Z.of_nat (length (columns df)) then
            match py_index (columns df) col_index with
            | Some col_name => Ok (Some col_name)
            | None =>
                Raise (IndexError
                         ("index " +:+ pretty col_index
                          +:+ " is out of bounds for axis 0 with size "
                          +:+ pretty (length (columns df))))
            end
          else Ok None
      end
  end.

(** Lines 106-115: the guarded read of the cell.  Falling out of the [if]s
    and the swallowed exception both end in the final [return None]. *)
Definition read_cell (df : DataFrame) (col_name : string) (row_index : Z)
  : option value :=
  let body : result (option value) :=
    if in_columns col_name df then
      let row_idx := row_index - 2 in
      if (0 <=? row_idx) && (row_idx <? len_df df) then
        match iloc df row_idx with
        | Ok row =>
            match series_getitem row col_name with
            | Ok v => Ok (if notna v then Some v else None)
            | Raise e => Raise e
            end
        | Raise e => Raise e
        end
      else Ok None
    else Ok None in
  match body with
  | Ok r => r
  | Raise _ => None
  end.

Definition get_value (self : CSVInputHandler) (sheet_name cell_ref : string)
  (row_index : Z) : result (option value) :=
  match data self with
  | None => Ok None
  | Some df =>
      match cell_ref with
      | EmptyString => Raise (IndexError "string index out of range")
      | String col_letter _ =>
          match column_name df sheet_name col_letter with
          | Raise e => Raise e
          | Ok None => Ok None
          | Ok (Some col_name) => Ok (read_cell df col_name row_index)
          end
      end
  end.

(** The mock spreadsheet classes.  [ws_row_index] is the attribute
    [row_index] that [SEBALcode_CSV_wrapper] assigns on a worksheet from
    outside; a worksheet has none until then. *)
Record MockWorksheet := {
  ws_sheet_name : string;
  ws_csv_handler : CSVInputHandler;
  ws_row_index : option Z
}.

Record MockWorkbook := {
  wb_csv_handler : CSVInputHandler;
  sheets : gmap string MockWorksheet
}.

Record MockCell := {
  cell_sheet_name : string;
  cell_ref : string;
  cell_csv_handler : CSVInputHandler;
  _value : option value;
  row_index : Z
}.

Definition MockWorksheet_init (sheet_name : string) (csv_handler : CSVInputHandler)
  : MockWorksheet :=
  {| ws_sheet_name := sheet_name; ws_csv_handler := csv_handler;
     ws_row_index := None |}.

Definition MockWorkbook_init (csv_handler : CSVInputHandler) : MockWorkbook :=
  {| wb_csv_handler := csv_handler;
     sheets := list_to_map
       [("General_Input", MockWorksheet_init "General_Input" csv_handler);
        ("Meteo_Input", MockWorksheet_init "Meteo_Input" csv_handler);
        ("Landsat_Input", MockWorksheet_init "Landsat_Input" csv_handler);
        ("Soil_Input", MockWorksheet_init "Soil_Input" csv_handler)] |}.

(** [MockWorkbook.__getitem__] *)
Definition MockWorkbook_getitem (self : MockWorkbook) (sheet_name : string)
  : MockWorksheet :=
  default (MockWorksheet_init sheet_name (wb_csv_handler self))
          (sheets self !! sheet_name).

Definition MockCell_init (sheet_name cell_ref : string) (csv_handler : CSVInputHandler)
  : MockCell :=
  {| cell_sheet_name := sheet_name; cell_ref := cell_ref;
     cell_csv_handler := csv_handler; _value := None; row_index := 2 |}.

(** [MockWorksheet.__getitem__] *)
Definition MockWorksheet_getitem (self : MockWorksheet) (cell_ref : string)
  : MockCell :=
  MockCell_init (ws_sheet_name self) cell_ref (ws_csv_handler self).

Definition set_row_index (self : MockCell) (row_index : Z) : MockCell :=
  {| cell_sheet_name := cell_sheet_name self; cell_ref := cell_ref self;
     cell_csv_handler := cell_csv_handler self; _value := _value self;
     row_index := row_index |}.

(** The property [MockCell.value]: the value read, and the cell with its
    cache filled. *)
Definition MockCell_value (self : MockCell) : result (option value) * MockCell :=
  match _value self with
  | Some v => (Ok (Some v), self)
  | None =>
      match get_value (cell_csv_handler self) (cell_sheet_name self)
                      (cell_ref self) (row_index self) with
      | Ok v =>
          (Ok v,
           {| cell_sheet_name := cell_sheet_name self; cell_ref := cell_ref self;
              cell_csv_handler := cell_csv_handler self; _value := v;
              row_index := row_index self |})
      | Raise e => (Raise e, self)
      end
  end.

(** What the model reads with [wb[sheet_name][cell_ref].value]. *)
Definition workbook_cell_value (wb : MockWorkbook) (sheet_name cell_ref : string)
  : result (option value) :=
  fst (MockCell_value (MockWorksheet_getitem (MockWorkbook_getitem wb sheet_name) cell_ref)).

(** ** pysebal_csv.py: the rows as dictionaries *)

(** [row.to_dict()]: the pairs of the [Series] go into a dictionary one
    after the other, so the last value of a label stays. *)
Definition to_dict (s : Series) : gmap string value :=
  list_to_map (rev (zip (s_index s) (s_values s))).

(** The rows of [df.iterrows()], in file order. *)
Definition iterrows (df : DataFrame) : list Series :=
  map (row_series df) (rows df).

(** The list that [read_csv_input] builds from the frame: the dictionary
    of every row of [df.iterrows()]. *)
Definition runs_data_of (df : DataFrame) : list (gmap string value) :=
  map to_dict (iterrows df).

(** ** The interpreter state *)

(** Objects that can sit in the module attribute [pysebal_py3.load_workbook]
    or come back from the model.  [PyMockLoader l] is the closure
    [mock_load_workbook]; it holds a reference to the [mock_wb] object. *)
Inductive pyobj : Type :=
| PyNone
| PyVal (v : value)
| PyFunction (qualname : string)
| PyMockLoader (wb : nat).

(** Truth value of an object, as tested by [if obj:]. *)
Definition truthy (o : pyobj) : bool :=
  match o with
  | PyNone => false
  | PyVal (VStr s) => negb (bool_decide (s = ""))
  | PyVal (VInt z) => negb (z =? 0)
  | PyVal (VFloat f) => match f with S754_zero _ => false | _ => true end
  | PyVal (VBool b) => b
  | PyFunction _ => true
  | PyMockLoader _ => true
  end.

(** Everything the model can see and change: the file system as
    [pd.read_csv] and [os.path.exists] see it, the attribute [load_workbook]
    of the module [pysebal_py3] ([None]: the module has no such attribute),
    the mock workbook objects, and the rest ([ext]). *)
Record World (X : Type) := {
  files : string -> result DataFrame;
  path_exists : string -> bool;
  load_workbook : option pyobj;
  heap : gmap nat MockWorkbook;
  ext : X
}.
Arguments files {X} w path : rename.
Arguments path_exists {X} w path : rename.
Arguments load_workbook {X} w : rename.
Arguments heap {X} w : rename.
Arguments ext {X} w : rename.

Inductive Status := Success | Failed.

(** One entry of the list [results] of [run_timeseries_processing]. *)
Record RunOutcome := {
  o_run_number : Z;
  o_date : value;
  o_image : value;
  o_output_folder : value;
  o_status : Status;
  o_error : option string
}.

(** The lines written to standard output that carry data.  Separator
    lines and fixed banners are left out, and so is the traceback, which
    goes to standard error. *)
Inductive msg : Type :=
| LoadedCSV (n : Z)
| ErrorLoadingCSV (e : string)
| CouldNotLoadCSV
| MissingColumns (missing_columns : list string)
| ValidationPassed (n : Z)
| ErrorReadingCSV (e : string)
| InputFile (csv_file : string)
| ProcessingRange (start_row end_row runs : Z)
| ProcessingRun (row_number total_rows : Z)
| RunInfo (date image : option value)
| RunOutput (output_folder : value)
| RunCompleted (row_number : Z)
| RunFailed (row_number : Z) (e : string)
| TotalRuns (n : Z)
| SuccessfulRuns (n : Z)
| FailedRuns (n : Z)
| SuccessRate (successful total : Z)
| Detail (o : RunOutcome)
| Usage
| FileNotFound (csv_file : string)
| NotAnInteger (arg : string)
| CompletedSuccessfully
| ProcessingFailed.

(** The state threaded through the harness: the world, the log of the
    calls made to [pysebal_py3.SEBALcode] and standard output. *)
Record St (X : Type) := {
  world : World X;
  calls : list (Z * string);
  stdout : list msg
}.
Arguments world {X} st : rename.
Arguments calls {X} st : rename.
Arguments stdout {X} st : rename.

Section Harness.

Context {X : Type}.

(** The external model [pysebal_py3.SEBALcode(row, path)]: it returns an
    object or raises, and may change the world. *)
Variable SEBALcode : Z -> string -> World X -> result pyobj * World X.

Definition print (m : msg) (st : St X) : St X :=
  {| world := world st; calls := calls st; stdout := stdout st ++ [m] |}.

Definition set_world (w : World X) (st : St X) : St X :=
  {| world := w; calls := calls st; stdout := stdout st |}.

Definition call_SEBALcode (row : Z) (path : string) (st : St X)
  : result pyobj * St X :=
  let '(r, w) := SEBALcode row path (world st) in
  (r, {| world := w; calls := calls st ++ [(row, path)]; stdout := stdout st |}).

(** [CSVInputHandler(csv_file_path)]: the constructor runs [load_csv]. *)
Definition CSVInputHandler_init (csv_file_path : string) (st : St X)
  : CSVInputHandler * St X :=
  match files (world st) csv_file_path with
  | Ok df =>
      ({| csv_file_path := csv_file_path; data := Some df |},
       print (LoadedCSV (len_df df)) st)
  | Raise e =>
      ({| csv_file_path := csv_file_path; data := None |},
       print (ErrorLoadingCSV (str_exn e)) st)
  end.

Definition set_load_workbook (f : pyobj) (w : World X) : World X :=
  {| files := files w; path_exists := path_exists w; load_workbook := Some f;
     heap := heap w; ext := ext w |}.

Definition set_heap (h : gmap nat MockWorkbook) (w : World X) : World X :=
  {| files := files w; path_exists := path_exists w;
     load_workbook := load_workbook w; heap := h; ext := ext w |}.

(** A reference not yet in use. *)
Definition fresh_loc (h : gmap nat MockWorkbook) : nat := fresh (dom h).

Definition with_row_index (row : Z) (sheet : MockWorksheet) : MockWorksheet :=
  {| ws_sheet_name := ws_sheet_name sheet; ws_csv_handler := ws_csv_handler sheet;
     ws_row_index := Some row |}.

(** Lines 196-198: [sheet.row_index = row_number + 1] on every sheet of
    the workbook. *)
Definition update_row_indexes (row_number : Z) (wb : MockWorkbook) : MockWorkbook :=
  {| wb_csv_handler := wb_csv_handler wb;
     sheets := with_row_index (row_number + 1) <$> sheets wb |}.

Definition SEBALcode_CSV_wrapper (row_number : Z) (csv_file_path : string) (st : St X)
  : result pyobj * St X :=
  let '(csv_handler, st) := CSVInputHandler_init csv_file_path st in
  match data csv_handler with
  | None => (Ok (PyVal (VBool false)), print CouldNotLoadCSV st)
  | Some _ =>
      let mock_wb := fresh_loc (heap (world st)) in
      let st := set_world (set_heap (<[mock_wb := MockWorkbook_init csv_handler]>
                                       (heap (world st))) (world st)) st in
      let original_load_workbook :=
        match load_workbook (world st) with
        | Some f => f
        | None => PyNone
        end in
      let st := set_world (set_load_workbook (PyMockLoader mock_wb) (world st)) st in
      let st := set_world (set_heap (alter (update_row_indexes row_number) mock_wb
                                       (heap (world st))) (world st)) st in
      (* try *)
      let '(result, st) := call_SEBALcode (row_number + 1) csv_file_path st in
      (* finally *)
      let st :=
        if truthy original_load_workbook
        then set_world (set_load_workbook original_load_workbook (world st)) st
        else st in
      (result, st)
  end.

(** [get_value] as called on a handler inside a [try]: the value, or the
    exception for the enclosing handler. *)
Definition run_info (csv_handler : CSVInputHandler) (row_num : Z)
  : result (option value * option value) :=
  match get_value csv_handler "General_Input" "A" (row_num + 2) with
  | Raise e => Raise e
  | Ok date_acquired =>
      match get_value csv_handler "General_Input" "F" (row_num + 2) with
      | Raise e => Raise e
      | Ok image_name => Ok (date_acquired, image_name)
      end
  end.

(** One turn of the loop of [run_timeseries_CSV] (lines 244-267) on the
    counters [(successful_runs, failed_runs)]. *)
Definition run_timeseries_CSV_row (csv_handler : CSVInputHandler)
  (csv_file_path : string) (total_rows : Z)
  (acc : (Z * Z) * St X) (row_num : Z) : (Z * Z) * St X :=
  let '((successful_runs, failed_runs), st) := acc in
  let handler (e : exn) (st : St X) :=
    ((successful_runs, failed_runs + 1), print (RunFailed (row_num + 1) (str_exn e)) st) in
  let st := print (ProcessingRun (row_num + 1) total_rows) st in
  match run_info csv_handler row_num with
  | Raise e => handler e st
  | Ok (date_acquired, image_name) =>
      let st := print (RunInfo date_acquired image_name) st in
      match SEBALcode_CSV_wrapper row_num csv_file_path st with
      | (Raise e, st) => handler e st
      | (Ok _, st) =>
          ((successful_runs + 1, failed_runs), print (RunCompleted (row_num + 1)) st)
      end
  end.

(** [run_timeseries_CSV]: the function returns [None]; the counters are
    given back with the state so that they can be spoken about. *)
Definition run_timeseries_CSV (csv_file_path : string) (start_row : Z)
  (end_row : option Z) (st : St X) : (Z * Z) * St X :=
  let '(csv_handler, st) := CSVInputHandler_init csv_file_path st in
  match data csv_handler with
  | None => ((0, 0), print CouldNotLoadCSV st)
  | Some _ =>
      let total_rows := get_row_count csv_handler in
      let end_row := match end_row with None => total_rows | Some e => e end in
      let end_row := Z.min end_row total_rows in
      let st := print (ProcessingRange start_row end_row (end_row - start_row + 1)) st in
      let '((successful_runs, failed_runs), st) :=
        fold_left (run_timeseries_CSV_row csv_handler csv_file_path total_rows)
                  (py_range (start_row - 1) end_row) ((0, 0), st) in
      let st := print (SuccessfulRuns successful_runs) st in
      let st := print (FailedRuns failed_runs) st in
      let st := print (TotalRuns (successful_runs + failed_runs)) st in
      ((successful_runs, failed_runs), st)
  end.

(** *** pysebal_csv.py *)

Definition read_csv_input (csv_file_path : string) (st : St X)
  : option (list (gmap string value)) * St X :=
  match files (world st) csv_file_path with
  | Ok df => (Some (runs_data_of df), st)
  | Raise e => (None, print (ErrorReadingCSV (str_exn e)) st)
  end.

(** *** run_timeseries.py *)

Definition required_columns : list string :=
  ["input_folder"; "output_folder"; "Image_Type"; "DEM_fileName";
   "Name_Landsat_Image"; "Date_Acquired"].

Definition validate_csv_input (csv_file : string) (st : St X)
  : (bool * option DataFrame) * St X :=
  match files (world st) csv_file with
  | Ok df =>
      let missing_columns := filter (fun col => col ∉ columns df) required_columns in
      match missing_columns with
      | _ :: _ => ((false, None), print (MissingColumns missing_columns) st)
      | [] => ((true, Some df), print (ValidationPassed (len_df df)) st)
      end
  | Raise e => ((false, None), print (ErrorReadingCSV (str_exn e)) st)
  end.

(** The local variables of [run_timeseries_processing] that the loop
    changes.  The three names bound inside the [try] are unbound ([None])
    until a turn of the loop gets past [df.iloc[i]]; the handler looks them
    up with ['date_acquired' in locals()]. *)
Record Locals := {
  successful_runs : Z;
  failed_runs : Z;
  results : list RunOutcome;
  date_acquired : option value;
  image_name : option value;
  output_folder : option value
}.

Definition Locals_init : Locals :=
  {| successful_runs := 0; failed_runs := 0; results := [];
     date_acquired := None; image_name := None; output_folder := None |}.

(** Lines 122-136: the [except Exception as e] clause. *)
Definition run_failed (row_number : Z) (e : exn) (l : Locals) (st : St X)
  : Locals * St X :=
  let st := print (RunFailed row_number (str_exn e)) st in
  ({| successful_runs := successful_runs l;
      failed_runs := failed_runs l + 1;
      results := results l ++
        [{| o_run_number := row_number;
            o_date := default (VStr "Unknown") (date_acquired l);
            o_image := default (VStr "Unknown") (image_name l);
            o_output_folder := default (VStr "Unknown") (output_folder l);
            o_status := Failed;
            o_error := Some (str_exn e) |}];
      date_acquired := date_acquired l;
      image_name := image_name l;
      output_folder := output_folder l |}, st).

(** Lines 88-136: one turn of the loop, for the 0-based index [i]. *)
Definition run_timeseries_row (df : DataFrame) (csv_file : string) (total_rows : Z)
  (acc : Locals * St X) (i : Z) : Locals * St X :=
  let '(l, st) := acc in
  let row_number := i + 1 in
  let excel_row := i + 2 in
  match iloc df i with
  | Raise e => run_failed row_number e l st
  | Ok row_data =>
      let date := series_get row_data "Date_Acquired" (VStr "Unknown") in
      let image := series_get row_data "Name_Landsat_Image" (VStr "Unknown") in
      let folder := series_get row_data "output_folder" (VStr "Unknown") in
      let l := {| successful_runs := successful_runs l;
                  failed_runs := failed_runs l;
                  results := results l;
                  date_acquired := Some date;
                  image_name := Some image;
                  output_folder := Some folder |} in
      let st := print (ProcessingRun row_number total_rows) st in
      let st := print (RunInfo (Some date) (Some image)) st in
      let st := print (RunOutput folder) st in
      match call_SEBALcode excel_row csv_file st with
      | (Raise e, st) => run_failed row_number e l st
      | (Ok _, st) =>
          let st := print (RunCompleted row_number) st in
          ({| successful_runs := successful_runs l + 1;
              failed_runs := failed_runs l;
              results := results l ++
                [{| o_run_number := row_number; o_date := date; o_image := image;
                    o_output_folder := folder; o_status := Success;
                    o_error := None |}];
              date_acquired := date_acquired l;
              image_name := image_name l;
              output_folder := output_folder l |}, st)
      end
  end.

(** Lines 70-74: the end of the range, never past the last row. *)
Definition clamp_end_row (total_rows : Z) (end_row : option Z) : Z :=
  match end_row with
  | None => total_rows
  | Some e => Z.min e total_rows
  end.

(** Lines 69-136: the range and the loop over it. *)
Definition run_timeseries_rows (df : DataFrame) (csv_file : string) (start_row : Z)
  (end_row : option Z) (st : St X) : Locals * St X :=
  let total_rows := len_df df in
  let end_row := clamp_end_row total_rows end_row in
  let start_idx := start_row - 1 in
  let end_idx := end_row in
  let st := print (ProcessingRange start_row end_row (end_idx - start_idx)) st in
  fold_left (run_timeseries_row df csv_file total_rows)
            (py_range start_idx end_idx) (Locals_init, st).

(** Lines 138-158: the summary and the returned flag.  The success rate
    divides by the number of runs. *)
Definition run_timeseries_summary (l : Locals) (st : St X) : result bool * St X :=
  let st := print (TotalRuns (successful_runs l + failed_runs l)) st in
  let st := print (SuccessfulRuns (successful_runs l)) st in
  let st := print (FailedRuns (failed_runs l)) st in
  if successful_runs l + failed_runs l =? 0 then (Raise ZeroDivisionError, st)
  else
    let st := print (SuccessRate (successful_runs l)
                                 (successful_runs l + failed_runs l)) st in
    let st := fold_left (fun st o => print (Detail o) st) (results l) st in
    (Ok (0 <? successful_runs l), st).

Definition run_timeseries_processing (csv_file : string) (start_row : Z)
  (end_row : option Z) (st : St X) : result bool * St X :=
  let st := print (InputFile csv_file) st in
  let '((is_valid, df), st) := validate_csv_input csv_file st in
  if negb is_valid then (Ok false, st)
  else
    match df with
    | None => (Raise (Exn "TypeError" "object of type 'NoneType' has no len()"), st)
    | Some df =>
        let '(l, st) := run_timeseries_rows df csv_file start_row end_row st in
        run_timeseries_summary l st
    end.

(** Lines 190-198 and 191, 200-205 of [main]: the optional arguments.
    [None] is the [ValueError] of [int]. *)
Definition start_row_arg (argv : list string) : option Z :=
  match argv !! 2%nat with
  | Some a => py_int a
  | None => Some 1
  end.

Definition end_row_arg (argv : list string) : option (option Z) :=
  match argv !! 3%nat with
  | Some a => Some <$> py_int a
  | None => Some None
  end.

(** [main]: the exit status of the process.  An exception that nothing
    catches ends the interpreter with status 1. *)
Definition main (argv : list string) (st : St X) : Z * St X :=
  match argv !! 1%nat with
  | None => (1, print Usage st)
  | Some csv_file =>
      if negb (path_exists (world st) csv_file)
      then (1, print (FileNotFound csv_file) st)
      else
        match start_row_arg argv with
        | None => (1, print (NotAnInteger "start_row") st)
        | Some start_row =>
            match end_row_arg argv with
            | None => (1, print (NotAnInteger "end_row") st)
            | Some end_row =>
                match run_timeseries_processing csv_file start_row end_row st with
                | (Ok true, st) => (0, print CompletedSuccessfully st)
                | (Ok false, st) => (1, print ProcessingFailed st)
                | (Raise _, st) => (1, st)
                end
            end
        end
  end.

End Harness.

(** ** pysebal_csv.py: the meteorological inputs *)

(** A meteorological input after the [try: float(...) except: str(...)]
    blocks: a constant ([..._kind_of_data = 0]) or the name of a map
    ([..._kind_of_data = 1]). *)
Inductive met_input : Type :=
| Constant (x : spec_float)
| MapName (name : string).

Definition kind_of_data (m : met_input) : Z :=
  match m with
  | Constant _ => 0
  | MapName _ => 1
  end.

Section SEBALcode_CSV.

(** Python's [float(s)] on text ([None]: [ValueError]) and [str(x)] on a
    float. *)
Variable float_of_str : string -> option spec_float.
Variable str_of_float : spec_float -> string.

Definition py_float (v : value) : result spec_float :=
  match v with
  | VFloat f => Ok f
  | VInt z =>
      match float_lit z with
      | S754_infinity _ => Raise (OverflowError "int too large to convert to float")
      | f => Ok f
      end
  | VBool b => Ok (float_lit (if b then 1 else 0))
  | VStr s =>
      match float_of_str s with
      | Some f => Ok f
      | None => Raise (ValueError "could not convert string to float")
      end
  end.

Definition py_str (v : value) : string :=
  match v with
  | VStr s => s
  | VInt z => pretty z
  | VFloat f => str_of_float f
  | VBool b => if b then "True" else "False"
  end.

(** [csv_run_data.get(key, dflt)] *)
Definition dict_get (csv_run_data : gmap string value) (key : string) (dflt : value)
  : value :=
  default dflt (csv_run_data !! key).

(** The block that lines 118-172 repeat for each field. *)
Definition read_met_input (csv_run_data : gmap string value) (key : string)
  (dflt : spec_float) : met_input :=
  match py_float (dict_get csv_run_data key (VFloat dflt)) with
  | Ok x => Constant x
  | Raise _ => MapName (py_str (dict_get csv_run_data key (VStr "")))
  end.

(** Lines 118-125 and 127-134. *)
Definition Temp_inst (csv_run_data : gmap string value) : met_input :=
  read_met_input csv_run_data "Temp_inst" (float_lit 25).

Definition Temp_24 (csv_run_data : gmap string value) : met_input :=
  read_met_input csv_run_data "Temp_24" (float_lit 22).

End SEBALcode_CSV.

(** ** The other entry points *)

(** One entry of the list that [process_timeseries_CSV] returns.
    [r_error] is [None] when the dictionary has no key ['error']. *)
Record RunResult := {
  r_run_number : Z;
  r_date : value;
  r_image : value;
  r_success : pyobj;
  r_error : option string;
  r_output_folder : value
}.

(** [if start_date] on a date that is a string or [None]. *)
Definition date_given (d : option string) : option string :=
  match d with
  | Some s => if bool_decide (s = "") then None else Some s
  | None => None
  end.

(** [date_acquired < bound] and [date_acquired > bound] for a string
    [bound]: strings compare character by character; a cell that is not
    text does not compare with a string. *)
Definition value_lt_str (v : value) (bound : string) : result bool :=
  match v with
  | VStr s => Ok (String.ltb s bound)
  | _ => Raise (Exn "TypeError" "'<' not supported between instances")
  end.

Definition value_gt_str (v : value) (bound : string) : result bool :=
  match v with
  | VStr s => Ok (String.ltb bound s)
  | _ => Raise (Exn "TypeError" "'>' not supported between instances")
  end.

(** Lines 266-276 of pysebal_csv.py: the loop that fills [filtered_runs]. *)
Fixpoint filter_by_date (start_date end_date : option string)
  (runs_data : list (gmap string value)) : result (list (gmap string value)) :=
  match runs_data with
  | [] => Ok []
  | run_data :: rest =>
      let date_acquired := default (VStr "") (run_data !! "Date_Acquired") in
      let keep_rest (keep : bool) :=
        match filter_by_date start_date end_date rest with
        | Ok l => Ok (if keep then run_data :: l else l)
        | Raise e => Raise e
        end in
      match (match date_given start_date with
             | Some s => value_lt_str date_acquired s
             | None => Ok false
             end) with
      | Raise e => Raise e
      | Ok true => keep_rest false
      | Ok false =>
          match (match date_given end_date with
                 | Some s => value_gt_str date_acquired s
                 | None => Ok false
                 end) with
          | Raise e => Raise e
          | Ok true => keep_rest false
          | Ok false => keep_rest true
          end
      end
  end.

Section Scripts.

Context {X : Type}.

(** [pysebal_py3.SEBALcode], and [SEBALcode_CSV] of pysebal_csv.py, which
    makes the output folder and reads its parameters before it returns:
    here any function of the run dictionary and the world. *)
Variable SEBALcode : Z -> string -> World X -> result pyobj * World X.
Variable SEBALcode_CSV : gmap string value -> World X -> result pyobj * World X.

(** Lines 281-307 of pysebal_csv.py: the loop over [enumerate(runs_data, 1)],
    from position [i] on.  Of its prints only those that [msg] has a line
    for are kept. *)
Fixpoint process_runs (total : Z) (runs_data : list (gmap string value)) (i : Z)
  (acc : list RunResult * St X) : list RunResult * St X :=
  match runs_data with
  | [] => acc
  | run_data :: rest =>
      let '(results, st) := acc in
      let get (key : string) (dflt : string) :=
        default (VStr dflt) (run_data !! key) in
      let st := print (ProcessingRun i total) st in
      let st := print (RunInfo (Some (get "Date_Acquired" "Unknown"))
                               (Some (get "Name_Landsat_Image" "Unknown"))) st in
      let '(r, w) := SEBALcode_CSV run_data (world st) in
      let st := set_world w st in
      process_runs total rest (i + 1)
        match r with
        | Ok result =>
            (results ++
               [{| r_run_number := i;
                   r_date := get "Date_Acquired" "";
                   r_image := get "Name_Landsat_Image" "";
                   r_success := result;
                   r_error := None;
                   r_output_folder := get "output_folder" "" |}],
             print (RunCompleted i) st)
        | Raise e =>
            (results ++
               [{| r_run_number := i;
                   r_date := get "Date_Acquired" "";
                   r_image := get "Name_Landsat_Image" "";
                   r_success := PyVal (VBool false);
                   r_error := Some (str_exn e);
                   r_output_folder := get "output_folder" "" |}],
             print (RunFailed i (str_exn e)) st)
        end
  end.

(** [process_timeseries_CSV]: [Ok None] is the returned [None] of an
    unreadable file; the [TypeError] of the date filter is not caught. *)
Definition process_timeseries_CSV (csv_file_path : string)
  (start_date end_date : option string) (st : St X)
  : result (option (list RunResult)) * St X :=
  let '(runs_data, st) := read_csv_input csv_file_path st in
  match runs_data with
  | None => (Ok None, st)
  | Some runs_data =>
      let filtered :=
        match date_given start_date, date_given end_date with
        | None, None => Ok runs_data
        | _, _ => filter_by_date start_date end_date runs_data
        end in
      match filtered with
      | Raise e => (Raise e, st)
      | Ok runs_data =>
          let '(results, st) :=
            process_runs (Z.of_nat (length runs_data)) runs_data 1 ([], st) in
          let st := print (SuccessfulRuns
                             (Z.of_nat (length (filter (fun r => truthy (r_success r) = true)
                                                       results)))) st in
          let st := print (FailedRuns
                             (Z.of_nat (length (filter (fun r => truthy (r_success r) = false)
                                                       results)))) st in
          (Ok (Some results), st)
      end
  end.

(** Run_py3.py: the loop over [range(st, en + 1)] with its bare [except],
    for the user inputs [inputCSV], [st] and [en] (2 and 2 in the file).
    The prints of the script are left out. *)
Definition Run_py3_line (inputCSV : string) (state : St X) (number : Z) : St X :=
  snd (call_SEBALcode SEBALcode number inputCSV state).

Definition Run_py3 (inputCSV : string) (st en : Z) (state : St X) : St X :=
  fold_left (Run_py3_line inputCSV) (py_range st (en + 1)) state.

(** The command line of Run_CSV.py (lines 276-298): the exit status.
    [int] is not guarded there, its [ValueError] ends the process with
    status 1; a script that reaches its end exits with 0. *)
Definition Run_CSV_main (argv : list string) (st : St X) : Z * St X :=
  match argv !! 1%nat with
  | None => (1, print Usage st)
  | Some csv_file =>
      if negb (path_exists (world st) csv_file)
      then (1, print (FileNotFound csv_file) st)
      else
        match start_row_arg argv with
        | None => (1, st)
        | Some start_row =>
            match end_row_arg argv with
            | None => (1, st)
            | Some end_row =>
                let st := print (InputFile csv_file) st in
                (0, snd (run_timeseries_CSV SEBALcode csv_file start_row end_row st))
            end
        end
  end.

End Scripts.

(** ** Sample data *)

Definition sample_columns : list string :=
  ["Date_Acquired"; "input_folder"; "output_folder"; "Image_Type";
   "DEM_fileName"; "Name_Landsat_Image"; "Temp_inst"].

Definition sample_row (date image input_folder : string) : list value :=
  [VStr date; VStr input_folder; VStr "/data/out"; VInt 1;
   VStr "/data/dem.tif"; VStr image; VFloat S754_nan].

Definition table2 : DataFrame :=
  {| columns := sample_columns;
     rows := [sample_row "2025-01-01" "LC08_A" "/data/in";
              sample_row "2025-01-17" "LC08_B" "/data/in2"] |}.

Definition table5 : DataFrame :=
  {| columns := sample_columns;
     rows := [sample_row "2025-01-01" "LC08_A" "/data/in";
              sample_row "2025-01-17" "LC08_B" "/data/in2";
              sample_row "2025-02-02" "LC08_C" "/data/in3";
              sample_row "2025-02-18" "LC08_D" "/data/in4";
              sample_row "2025-03-06" "LC08_E" "/data/in5"] |}.

(** A table without the column [output_folder]. *)
Definition table_no_output : DataFrame :=
  {| columns := ["Date_Acquired"; "input_folder"; "Image_Type"; "DEM_fileName";
                 "Name_Landsat_Image"];
     rows := [[VStr "2025-01-01"; VStr "/data/in"; VInt 1; VStr "/data/dem.tif";
               VStr "LC08_A"]] |}.

(** A world in which every path holds the table [df] and the module
    attribute [load_workbook] is [lw]. *)
Definition world_of (df : DataFrame) (lw : option pyobj) : World unit :=
  {| files := fun _ => Ok df; path_exists := fun _ => true;
     load_workbook := lw; heap := ∅; ext := tt |}.

Definition St_init (w : World unit) : St unit :=
  {| world := w; calls := []; stdout := [] |}.

(** Three models: one that always returns, one that always raises, one
    that raises on display row 4 only. *)
Definition model_ok (row : Z) (path : string) (w : World unit)
  : result pyobj * World unit :=
  (Ok (PyVal (VBool true)), w).

Definition model_raises (row : Z) (path : string) (w : World unit)
  : result pyobj * World unit :=
  (Raise (Exn "RuntimeError" "no thermal band"), w).

Definition model_raises_on_4 (row : Z) (path : string) (w : World unit)
  : result pyobj * World unit :=
  if row =? 4 then (Raise (Exn "RuntimeError" "no thermal band"), w)
  else (Ok (PyVal (VBool true)), w).

(** A table whose second row has no date. *)
Definition table_empty_date : DataFrame :=
  {| columns := sample_columns;
     rows := [sample_row "2025-01-01" "LC08_A" "/data/in";
              [VFloat S754_nan; VStr "/data/in2"; VStr "/data/out"; VInt 1;
               VStr "/data/dem.tif"; VStr "LC08_B"; VFloat S754_nan]] |}.

(** A table of numbers only: a column of integers and a column of
    floats.  The first integer is [2^53 + 1], which no float holds. *)
Definition table_numeric : DataFrame :=
  {| columns := ["Landsat_nr"; "Temp_inst"];
     rows := [[VInt 9007199254740993; VFloat (float_lit 25)];
              [VInt 8; VFloat S754_nan]] |}.

(** A [SEBALcode_CSV] that always returns [True]. *)
Definition csv_model_ok (run_data : gmap string value) (w : World unit)
  : result pyobj * World unit :=
  (Ok (PyVal (VBool true)), w).

(** A model that reports failure by returning [False], without raising. *)
Definition model_returns_False (row : Z) (path : string) (w : World unit)
  : result pyobj * World unit :=
  (Ok (PyVal (VBool false)), w).

(** A world in which no file can be read. *)
Definition world_unreadable : World unit :=
  {| files := fun _ => Raise (Exn "FileNotFoundError" "No such file or directory");
     path_exists := fun _ => false; load_workbook := None; heap := ∅; ext := tt |}.

(** A model that does what the spreadsheet reader of the model does with
    the input folder: it loads the workbook through the module attribute
    and returns [wb['General_Input']['B%d' % row].value]. *)
Definition model_reads_B (row : Z) (path : string) (w : World unit)
  : result pyobj * World unit :=
  match load_workbook w with
  | Some (PyMockLoader l) =>
      match heap w !! l with
      | Some wb =>
          match workbook_cell_value wb "General_Input" ("B" +:+ pretty row) with
          | Ok (Some v) => (Ok (PyVal v), w)
          | Ok None => (Ok PyNone, w)
          | Raise e => (Raise e, w)
          end
      | None => (Raise (Exn "RuntimeError" "no workbook"), w)
      end
  | _ => (Raise (Exn "TypeError" "load_workbook is not callable"), w)
  end.

(** ** Vocabulary of the statements *)

(** An ASCII letter, a lowercase ASCII letter, and the position of a
    letter in the alphabet counted from 0, the same for [a] and [A]. *)
Definition is_letter (c : ascii) : bool :=
  let n := N_of_ascii c in
  (((65 <=? n) && (n <=? 90)) || ((97 <=? n) && (n <=? 122)))%N.

Definition is_lower (c : ascii) : bool :=
  let n := N_of_ascii c in ((97 <=? n) && (n <=? 122))%N.

Definition letter_position (c : ascii) : nat :=
  Z.to_nat (if is_lower c then ord c - ord "a" else ord c - ord "A").

(** The character U+00DF, the sharp s. *)
Definition sharp_s : ascii := ascii_of_N 223.

#[global] Instance Status_eq_dec : EqDecision Status.
Proof. solve_decision. Defined.

(** How many entries of a report carry a status. *)
Definition count_status (s : Status) (rs : list RunOutcome) : Z :=
  Z.of_nat (length (filter (fun o => o_status o = s) rs)).

(** The cell of a run dictionary that [process_timeseries_CSV] compares
    and records, and whether it lies within the given dates, bounds
    included, in the order of strings. *)
Definition date_of (run_data : gmap string value) : value :=
  default (VStr "") (run_data !! "Date_Acquired").

Definition in_dates (start_date end_date : option string)
  (run_data : gmap string value) : bool :=
  match date_of run_data with
  | VStr s =>
      negb (match date_given start_date with
            | Some b => String.ltb s b
            | None => false
            end)
      && negb (match date_given end_date with
               | Some b => String.ltb b s
               | None => false
               end)
  | _ => false
  end.

(** The identifying fields that an entry of [process_timeseries_CSV]
    takes from its run dictionary. *)
Definition identity_of (run_data : gmap string value) : value * value * value :=
  (default (VStr "") (run_data !! "Date_Acquired"),
   default (VStr "") (run_data !! "Name_Landsat_Image"),
   default (VStr "") (run_data !! "output_folder")).

Definition r_identity (r : RunResult) : value * value * value :=
  (r_date r, r_image r, r_output_folder r).

(** The state in which [run_timeseries_processing] enters its loop. *)
Definition validated {X : Type} (csv_file : string) (df : DataFrame) (st : St X)
  : St X :=
  print (ValidationPassed (len_df df)) (print (InputFile csv_file) st).

(** The entry that the handler appends for index [i] and exception [e]
    once the row has been read. *)
Definition failed_outcome (row_data : Series) (i : Z) (e : exn) : RunOutcome :=
  {| o_run_number := i + 1;
     o_date := series_get row_data "Date_Acquired" (VStr "Unknown");
     o_image := series_get row_data "Name_Landsat_Image" (VStr "Unknown");
     o_output_folder := series_get row_data "output_folder" (VStr "Unknown");
     o_status := Failed;
     o_error := Some (str_exn e) |}.

(** The 1-based rows whose processing standard output announces. *)
Definition started_rows (out : list msg) : list Z :=
  omap (fun m => match m with ProcessingRun r _ => Some r | _ => None end) out.

(** How often standard output says that the file could not be loaded. *)
Definition load_failures (out : list msg) : nat :=
  length (omap (fun m => match m with CouldNotLoadCSV => Some tt | _ => None end) out).

(** The file at [path] can be read in the world [w]. *)
Definition readable {X : Type} (path : string) (w : World X) : Prop :=
  exists df, files w path = Ok df.

(** * Properties *)

(** ** Auxiliary facts on Python sequences *)

Lemma py_index_nonneg {A : Type} (l : list A) (i : Z) :
  0 <= i -> py_index l i = l !! Z.to_nat i.
Proof.
  intros Hi. unfold py_index.
  destruct (Z.ltb_spec i (Z.of_nat (length l))) as [Hlt | Hge].
  - replace (0 <=? i) with true by (symmetry; apply Z.leb_le; lia). reflexivity.
  - replace (i <? 0) with false by (symmetry; apply Z.ltb_ge; lia).
    rewrite !andb_false_r. symmetry. apply lookup_ge_None. lia.
Qed.

Lemma py_range_nil (a b : Z) : b <= a -> py_range a b = [].
Proof.
  intros H. unfold py_range. replace (Z.to_nat (b - a)) with 0%nat by lia.
  reflexivity.
Qed.

Lemma py_range_cons (a b : Z) : a < b -> py_range a b = a :: py_range (a + 1) b.
Proof.
  intros H. unfold py_range.
  replace (Z.to_nat (b - a)) with (S (Z.to_nat (b - (a + 1)))) by lia.
  cbn [seq map]. f_equal; [lia |].
  rewrite <- seq_shift, map_map. apply map_ext. intros k. lia.
Qed.

Lemma py_range_length (a b : Z) : length (py_range a b) = Z.to_nat (b - a).
Proof. unfold py_range. by rewrite length_map, length_seq. Qed.

Lemma map_seq_shift (a b : Z) (d s n : nat) :
  b = a + Z.of_nat d ->
  map (fun k => a + Z.of_nat k) (seq (d + s) n) =
  map (fun k => b + Z.of_nat k) (seq s n).
Proof.
  intros ->. revert s. induction n as [| n IH]; intros s; [reflexivity |].
  cbn [seq map]. f_equal; [lia |].
  rewrite <- IH. f_equal. f_equal. lia.
Qed.

Lemma py_range_app (a b c : Z) :
  a <= b -> b <= c -> py_range a c = py_range a b ++ py_range b c.
Proof.
  intros Hab Hbc. unfold py_range.
  replace (Z.to_nat (c - a)) with (Z.to_nat (b - a) + Z.to_nat (c - b))%nat by lia.
  rewrite seq_app, map_app. f_equal.
  rewrite Nat.add_0_l, <- (Nat.add_0_r (Z.to_nat (b - a))).
  apply map_seq_shift. lia.
Qed.

Lemma py_range_split (a b i : Z) :
  a <= i < b -> py_range a b = py_range a i ++ i :: py_range (i + 1) b.
Proof.
  intros H. rewrite (py_range_app a i b) by lia.
  by rewrite (py_range_cons i b) by lia.
Qed.

Lemma elem_of_py_range (a b i : Z) : i ∈ py_range a b <-> a <= i < b.
Proof.
  unfold py_range. rewrite list_elem_of_fmap. split.
  - intros (k & -> & Hk). apply list_elem_of_In, in_seq in Hk. lia.
  - intros H. exists (Z.to_nat (i - a)). split; [lia |].
    apply list_elem_of_In, in_seq. lia.
Qed.

Lemma series_lookup_elem_of (index : list string) (vals : list value) key v :
  series_lookup index vals key = Some v -> key ∈ index.
Proof.
  revert vals. induction index as [| k index IH]; intros [| w vals] H;
    try discriminate.
  cbn in H. destruct (decide (k = key)) as [-> | Hne].
  - apply list_elem_of_here.
  - apply list_elem_of_further. eauto.
Qed.

(** ** Alias resolution ([CSVInputHandler.get_value]) *)

Lemma sheet_mapping_general (sheet_name : string) :
  sheet_name <> "Meteo_Input" -> sheet_mapping sheet_name = col_mapping.
Proof. intros H. unfold sheet_mapping. by destruct (decide _). Qed.

(** [upper] and [ord] on the characters of a reference: a letter gives
    the code point of its capital, a character before ['A'] its own, and
    the sharp s alone has no code point after [upper]. *)
Lemma ord_str_upper_letter (c : ascii) :
  is_letter c = true ->
  ord_str (upper c) = Ok (ord "A" + Z.of_nat (letter_position c)).
Proof.
  destruct c as [[] [] [] [] [] [] [] []]; vm_compute;
    (discriminate || reflexivity).
Qed.

Lemma letter_position_bound (c : ascii) :
  is_letter c = true -> (letter_position c <= 25)%nat.
Proof.
  destruct c as [[] [] [] [] [] [] [] []]; vm_compute;
    (discriminate || (intros _; lia)).
Qed.

Lemma ord_str_upper_below_A (c : ascii) :
  ord c < ord "A" -> ord_str (upper c) = Ok (ord c).
Proof.
  destruct c as [[] [] [] [] [] [] [] []]; vm_compute;
    (discriminate || reflexivity).
Qed.

Lemma ord_str_upper_from_A (c : ascii) :
  ord "A" <= ord c ->
  (c = sharp_s /\
   ord_str (upper c)
     = Raise (TypeError "ord() expected a character, but string of length 2 found"))
  \/ (c <> sharp_s /\ exists n, ord_str (upper c) = Ok n /\ ord "A" <= n).
Proof.
  destruct c as [[] [] [] [] [] [] [] []]; intros H;
    first [ exfalso; vm_compute in H; by apply H
          | left; split; reflexivity
          | right; split; [discriminate |]; eexists; split; [reflexivity |];
            vm_compute; discriminate ].
Qed.

Lemma sheet_mapping_capital (sheet_name : string) (c : ascii) name :
  sheet_mapping sheet_name !! String c EmptyString = Some name ->
  ord "A" <= ord c <= ord "P".
Proof.
  unfold sheet_mapping.
  destruct (decide (sheet_name = "Meteo_Input")) as [_ | _];
    destruct c as [[] [] [] [] [] [] [] []]; vm_compute;
    first [discriminate | intros _; split; discriminate].
Qed.

(** A letter that the table of the sheet maps resolves to the mapped
    name whatever the data. *)
Lemma column_name_mapped (df : DataFrame) (sheet_name : string) (c : ascii) name :
  sheet_mapping sheet_name !! String c EmptyString = Some name ->
  column_name df sheet_name c = Ok (Some name).
Proof. intros H. unfold column_name. by rewrite H. Qed.

(** A letter outside the table resolves to the column at its position. *)
Lemma column_name_positional (df : DataFrame) (sheet_name : string) (c : ascii) :
  is_letter c = true ->
  sheet_mapping sheet_name !! String c EmptyString = None ->
  column_name df sheet_name c = Ok (columns df !! letter_position c).
Proof.
  intros Hc Hnone. unfold column_name. rewrite Hnone.
  rewrite (ord_str_upper_letter c Hc). cbv zeta.
  replace (ord "A" + Z.of_nat (letter_position c) - ord "A")
    with (Z.of_nat (letter_position c)) by lia.
  destruct (Z.ltb_spec (Z.of_nat (letter_position c))
                       (Z.of_nat (length (columns df)))) as [Hlt | Hge].
  - rewrite py_index_nonneg, Nat2Z.id by lia.
    destruct (columns df !! letter_position c) as [name |] eqn:E; [done |].
    apply lookup_ge_None in E. lia.
  - symmetry. f_equal. apply lookup_ge_None. lia.
Qed.

(** What a cell becomes in the row that holds it. *)
Lemma series_lookup_map (f : value -> value) (index : list string)
  (vals : list value) (key : string) :
  series_lookup index (map f vals) key = f <$> series_lookup index vals key.
Proof.
  revert vals. induction index as [| k index IH]; intros [| v vals];
    cbn [series_lookup map]; try done.
  destruct (decide (k = key)); [done | apply IH].
Qed.

Lemma astype_VStr (d : dtype) (s : string) : astype d (VStr s) = VStr s.
Proof. by destruct d. Qed.

Lemma astype_VFloat (d : dtype) (f : spec_float) : astype d (VFloat f) = VFloat f.
Proof. by destruct d. Qed.

Lemma astype_isna (d : dtype) (v : value) : notna v = false -> astype d v = v.
Proof. destruct v; try discriminate. intros _. apply astype_VFloat. Qed.

(** A display row from 2 on that the table has: the cell of the column
    in the row at index [row_index - 2], as the row holds it. *)
Lemma read_cell_at (df : DataFrame) (name : string) (row_index : Z) r v :
  2 <= row_index ->
  rows df !! Z.to_nat (row_index - 2) = Some r ->
  series_lookup (columns df) r name = Some v ->
  read_cell df name row_index =
    (let w := astype (find_common_type (dtypes df)) v in
     if notna w then Some w else None).
Proof.
  intros Hrow Hr Hv. unfold read_cell, in_columns.
  rewrite bool_decide_eq_true_2 by (eapply series_lookup_elem_of; eauto).
  pose proof (lookup_lt_Some _ _ _ Hr) as Hlt.
  unfold len_df, iloc. cbv zeta.
  replace (0 <=? row_index - 2) with true by (symmetry; apply Z.leb_le; lia).
  replace (row_index - 2 <? Z.of_nat (length (rows df))) with true
    by (symmetry; apply Z.ltb_lt; lia).
  cbn [andb]. rewrite py_index_nonneg by lia. rewrite Hr.
  unfold series_getitem, row_series. cbn [s_index s_values].
  by rewrite series_lookup_map, Hv.
Qed.

Lemma read_cell_first_row (df : DataFrame) (name : string) row0 more s :
  rows df = row0 :: more ->
  series_lookup (columns df) row0 name = Some (VStr s) ->
  read_cell df name 2 = Some (VStr s).
Proof.
  intros Hrows Hv.
  rewrite (read_cell_at df name 2 row0 (VStr s)); [| lia | by rewrite Hrows | done].
  cbv zeta. by rewrite astype_VStr.
Qed.

(** C7: alias lookup is a fixed table per sheet ([B] is [input_folder]
    under the general table and [Temp_inst] under [Meteo_Input], whatever
    the data); [get_value] for cell [B], display row 2, on a table whose
    first data row has [input_folder = "/data/in"] returns ["/data/in"];
    a letter that the table does not hold resolves to the column at the
    letter's position, and to [None], without an exception, when that
    position is past the last column. *)
Theorem C7_alias_resolution :
  (forall sheet_name, sheet_name <> "Meteo_Input" ->
     sheet_mapping sheet_name !! "B" = Some "input_folder") /\
  sheet_mapping "Meteo_Input" !! "B" = Some "Temp_inst" /\
  (forall df sheet_name c name,
     sheet_mapping sheet_name !! String c EmptyString = Some name ->
     column_name df sheet_name c = Ok (Some name)) /\
  (forall self df sheet_name rest row0 more,
     data self = Some df ->
     sheet_name <> "Meteo_Input" ->
     rows df = row0 :: more ->
     series_lookup (columns df) row0 "input_folder" = Some (VStr "/data/in") ->
     get_value self sheet_name (String "B" rest) 2 = Ok (Some (VStr "/data/in"))) /\
  (forall self df sheet_name c rest row_index,
     data self = Some df ->
     is_letter c = true ->
     sheet_mapping sheet_name !! String c EmptyString = None ->
     get_value self sheet_name (String c rest) row_index =
       match columns df !! letter_position c with
       | Some col_name => Ok (read_cell df col_name row_index)
       | None => Ok None
       end) /\
  (forall self df sheet_name c rest row_index,
     data self = Some df ->
     is_letter c = true ->
     sheet_mapping sheet_name !! String c EmptyString = None ->
     (length (columns df) <= letter_position c)%nat ->
     get_value self sheet_name (String c rest) row_index = Ok None).
Proof.
  split; [| split; [| split; [| split; [| split]]]].
  - intros sheet_name H. rewrite sheet_mapping_general by done. reflexivity.
  - reflexivity.
  - apply column_name_mapped.
  - intros self df sheet_name rest row0 more Hdata Hsheet Hrows Hv.
    unfold get_value. rewrite Hdata.
    rewrite (column_name_mapped df sheet_name "B" "input_folder")
      by (rewrite sheet_mapping_general by done; reflexivity).
    by rewrite (read_cell_first_row df _ row0 more _ Hrows Hv).
  - intros self df sheet_name c rest row_index Hdata Hc Hnone.
    unfold get_value. rewrite Hdata, column_name_positional by done.
    by destruct (columns df !! letter_position c).
  - intros self df sheet_name c rest row_index Hdata Hc Hnone Hlen.
    unfold get_value. rewrite Hdata, column_name_positional by done.
    by rewrite (proj2 (lookup_ge_None _ _) Hlen).
Qed.

(** The sample table: cell [B] of the first data row under the general
    sheet, and the letter [Q], which is in no table and past its seven
    columns. *)
Lemma C7_alias_resolution_witness :
  get_value {| csv_file_path := "in.csv"; data := Some table2 |}
            "General_Input" "B2" 2 = Ok (Some (VStr "/data/in")) /\
  get_value {| csv_file_path := "in.csv"; data := Some table2 |}
            "General_Input" "Q2" 2 = Ok None.
Proof.
  destruct C7_alias_resolution as (_ & _ & _ & HB & _ & HQ). split.
  - apply (HB _ table2 "General_Input" "2"
              (sample_row "2025-01-01" "LC08_A" "/data/in")
              [sample_row "2025-01-17" "LC08_B" "/data/in2"]);
      [reflexivity | discriminate | reflexivity | reflexivity].
  - apply (HQ _ table2); [reflexivity | reflexivity | reflexivity |].
    vm_compute. lia.
Defined.

(** ** Empty cells *)

Lemma read_cell_notna (df : DataFrame) (name : string) (row_index : Z) v :
  read_cell df name row_index = Some v -> notna v = true.
Proof.
  unfold read_cell.
  destruct (in_columns name df); [| discriminate].
  cbv zeta. destruct (_ && _); [| discriminate].
  destruct (iloc df (row_index - 2)) as [row | e]; [| discriminate].
  destruct (series_getitem row name) as [w | e]; [| discriminate].
  destruct (notna w) eqn:E; [| discriminate]. congruence.
Qed.

Lemma get_value_notna (self : CSVInputHandler) (sheet_name cell_ref : string)
  (row_index : Z) v :
  get_value self sheet_name cell_ref row_index = Ok (Some v) -> notna v = true.
Proof.
  unfold get_value. destruct (data self) as [df |]; [| discriminate].
  destruct cell_ref as [| c rest]; [discriminate |].
  destruct (column_name df sheet_name c) as [[name |] | e]; try discriminate.
  intros [= H]. eapply read_cell_notna; eauto.
Qed.

Section ReadMetInput.

Variable float_of_str : string -> option spec_float.
Variable str_of_float : spec_float -> string.

(** [float(nan)] is [nan]: an empty cell goes through the [try] branch. *)
Lemma read_met_input_nan (csv_run_data : gmap string value) (key : string) dflt :
  csv_run_data !! key = Some (VFloat S754_nan) ->
  read_met_input float_of_str str_of_float csv_run_data key dflt = Constant S754_nan.
Proof. intros H. unfold read_met_input, dict_get. by rewrite H. Qed.

End ReadMetInput.

(** C8, as stated, fails on [SEBALcode_CSV]: the [Temp_inst] cell of the
    first row of the sample table is empty, and the row's dictionary
    gives [Temp_inst] as the numeric constant NaN, with [kind_of_data = 0],
    whatever [float] and [str] do on text; nothing marks it absent. *)
Lemma C8_counterexample :
  exists d,
    runs_data_of table2 !! 0%nat = Some d /\
    d !! "Temp_inst" = Some (VFloat S754_nan) /\
    forall float_of_str str_of_float,
      Temp_inst float_of_str str_of_float d = Constant S754_nan /\
      kind_of_data (Temp_inst float_of_str str_of_float d) = 0.
Proof.
  eexists. split; [reflexivity |]. split; [reflexivity |].
  intros fos sof. unfold Temp_inst.
  rewrite (read_met_input_nan fos sof _ "Temp_inst" (float_lit 25)) by reflexivity.
  split; reflexivity.
Qed.

(** C8 (amended): [get_value] never hands out a NaN: the cell of an
    empty field comes back as [None], not as zero and not as an empty
    string.  [SEBALcode_CSV] has no such step: an empty cell passes
    [float] and stays the constant NaN, with [kind_of_data = 0]. *)
Theorem C8_empty_cells :
  (forall self sheet_name cell_ref row_index v,
     get_value self sheet_name cell_ref row_index = Ok (Some v) ->
     notna v = true) /\
  (forall self df sheet_name c rest col_name row_index r v,
     data self = Some df ->
     column_name df sheet_name c = Ok (Some col_name) ->
     2 <= row_index ->
     rows df !! Z.to_nat (row_index - 2) = Some r ->
     series_lookup (columns df) r col_name = Some v ->
     notna v = false ->
     get_value self sheet_name (String c rest) row_index = Ok None) /\
  (forall float_of_str str_of_float (csv_run_data : gmap string value) key dflt,
     csv_run_data !! key = Some (VFloat S754_nan) ->
     read_met_input float_of_str str_of_float csv_run_data key dflt
       = Constant S754_nan /\
     kind_of_data (read_met_input float_of_str str_of_float csv_run_data key dflt)
       = 0).
Proof.
  split; [| split].
  - apply get_value_notna.
  - intros self df sheet_name c rest col_name row_index r v
      Hdata Hcol Hrow Hr Hv Hna.
    unfold get_value. rewrite Hdata, Hcol.
    rewrite (read_cell_at df col_name row_index r v Hrow Hr Hv). cbv zeta.
    by rewrite (astype_isna _ v Hna), Hna.
  - intros fos sof d key dflt H.
    by rewrite (read_met_input_nan fos sof d key dflt H).
Qed.

(** The empty [Temp_inst] cell of the sample table, read through the
    meteorological sheet and read by [SEBALcode_CSV]. *)
Lemma C8_empty_cells_witness :
  get_value {| csv_file_path := "in.csv"; data := Some table2 |}
            "Meteo_Input" "B2" 2 = Ok None /\
  Temp_inst (fun _ => None) (fun _ => EmptyString)
            (to_dict {| s_index := sample_columns;
                        s_values := sample_row "2025-01-01" "LC08_A" "/data/in" |})
    = Constant S754_nan.
Proof.
  destruct C8_empty_cells as (_ & Hget & Hmet). split.
  - apply (Hget _ table2 "Meteo_Input" "B"%char "2" "Temp_inst" 2
             (sample_row "2025-01-01" "LC08_A" "/data/in") (VFloat S754_nan));
      first [reflexivity | lia].
  - apply (Hmet _ _ _ "Temp_inst"). reflexivity.
Defined.

(** ** The batch loop of [run_timeseries_processing] *)

Section Loop.

Context {X : Type}.
Variable SEBALcode : Z -> string -> World X -> result pyobj * World X.
Variables (df : DataFrame) (csv_file : string).

Abbreviation step := (run_timeseries_row SEBALcode df csv_file (len_df df)).

Lemma iloc_in_table (i : Z) :
  0 <= i < len_df df ->
  exists r, rows df !! Z.to_nat i = Some r /\ iloc df i = Ok (row_series df r).
Proof.
  intros Hi. unfold iloc. rewrite py_index_nonneg by lia.
  destruct (rows df !! Z.to_nat i) as [r |] eqn:E; [eauto |].
  apply lookup_ge_None in E. unfold len_df in Hi. lia.
Qed.

(** The model raises: the handler counts the failure and appends the
    entry with the text of the exception; the model was called once,
    with display row [i + 2]. *)
Lemma run_timeseries_row_raise (l : Locals) (st : St X) (i : Z) (e : exn) :
  0 <= i < len_df df ->
  fst (SEBALcode (i + 2) csv_file (world st)) = Raise e ->
  exists row_data l' st',
    iloc df i = Ok row_data /\
    step (l, st) i = (l', st') /\
    successful_runs l' = successful_runs l /\
    failed_runs l' = failed_runs l + 1 /\
    results l' = results l ++ [failed_outcome row_data i e] /\
    calls st' = calls st ++ [(i + 2, csv_file)] /\
    world st' = snd (SEBALcode (i + 2) csv_file (world st)).
Proof.
  intros Hi He. destruct (iloc_in_table i Hi) as (r & _ & Hr).
  unfold run_timeseries_row. rewrite Hr.
  unfold call_SEBALcode. cbn [print world calls stdout].
  destruct (SEBALcode (i + 2) csv_file (world st)) as [res w] eqn:E.
  cbn [fst snd] in *. subst res.
  eexists _, _, _. split; [reflexivity |]. split; [reflexivity |].
  cbn. auto.
Qed.

(** Every turn appends exactly one entry, numbered [i + 1], and counts it
    on one side. *)
Lemma run_timeseries_row_appends (l : Locals) (st : St X) (i : Z) :
  exists o,
    results (fst (step (l, st) i)) = results l ++ [o] /\
    o_run_number o = i + 1 /\
    successful_runs (fst (step (l, st) i))
      = successful_runs l + (if decide (o_status o = Success) then 1 else 0) /\
    failed_runs (fst (step (l, st) i))
      = failed_runs l + (if decide (o_status o = Failed) then 1 else 0).
Proof.
  unfold run_timeseries_row.
  destruct (iloc df i) as [row_data | e].
  - destruct (call_SEBALcode _ _ _ _) as [[res | e] st'];
      (eexists; cbn; split; [reflexivity |]; cbn;
       repeat split; repeat case_decide; first [congruence | lia]).
  - eexists. cbn. split; [reflexivity |]. cbn.
    repeat split; repeat case_decide; first [congruence | lia].
Qed.

(** The world after a turn depends on the world before it alone. *)
Lemma run_timeseries_row_world (l : Locals) (st : St X) (i : Z) :
  world (snd (step (l, st) i)) =
    match iloc df i with
    | Ok _ => snd (SEBALcode (i + 2) csv_file (world st))
    | Raise _ => world st
    end.
Proof.
  unfold run_timeseries_row.
  destruct (iloc df i) as [row_data | e]; [| reflexivity].
  unfold call_SEBALcode. cbn [print world calls stdout].
  by destruct (SEBALcode (i + 2) csv_file (world st)) as [[res | e] w].
Qed.

Lemma fold_rows_world (L : list Z) (l1 l2 : Locals) (st1 st2 : St X) :
  world st1 = world st2 ->
  world (snd (fold_left step L (l1, st1))) = world (snd (fold_left step L (l2, st2))).
Proof.
  revert l1 l2 st1 st2. induction L as [| i L IH]; intros l1 l2 st1 st2 Hw;
    [done |].
  cbn [fold_left].
  destruct (step (l1, st1) i) as [l1' st1'] eqn:E1.
  destruct (step (l2, st2) i) as [l2' st2'] eqn:E2.
  apply IH.
  pose proof (run_timeseries_row_world l1 st1 i) as H1.
  pose proof (run_timeseries_row_world l2 st2 i) as H2.
  rewrite E1 in H1. rewrite E2 in H2. cbn [snd] in *.
  rewrite H1, H2, Hw. reflexivity.
Qed.

(** The report after the loop over [L]: what was there, then one entry
    per index of [L], in order. *)
Lemma fold_rows_results (L : list Z) (l : Locals) (st : St X) :
  exists tail,
    results (fst (fold_left step L (l, st))) = results l ++ tail /\
    map o_run_number tail = map (fun i => i + 1) L /\
    successful_runs (fst (fold_left step L (l, st)))
      = successful_runs l + count_status Success tail /\
    failed_runs (fst (fold_left step L (l, st)))
      = failed_runs l + count_status Failed tail.
Proof.
  revert l st. induction L as [| i L IH]; intros l st.
  - exists []. cbn. rewrite app_nil_r. unfold count_status. cbn.
    repeat split; lia.
  - cbn [fold_left].
    destruct (run_timeseries_row_appends l st i) as (o & Hres & Hnum & Hs & Hf).
    destruct (step (l, st) i) as [l' st'] eqn:E. cbn [fst] in *.
    destruct (IH l' st') as (tail & Htail & Hnums & Hs' & Hf').
    exists (o :: tail). rewrite Htail, Hres, <- app_assoc. split; [done |].
    split; [cbn; congruence |].
    rewrite Hs', Hf', Hs, Hf. unfold count_status.
    rewrite !filter_cons.
    destruct (o_status o);
      repeat (destruct (decide _); try congruence); cbn [length]; split; lia.
Qed.

End Loop.

(** ** Validation, summary and the wrapper *)

Lemma filter_nil_iff {A : Type} (P : A -> Prop) `{!forall x, Decision (P x)}
  (l : list A) :
  filter P l = [] <-> forall x, x ∈ l -> ~ P x.
Proof.
  induction l as [| a l IH].
  - split; [intros _ x Hx; by apply not_elem_of_nil in Hx | done].
  - rewrite filter_cons. destruct (decide (P a)) as [Ha | Ha].
    + split; [discriminate |]. intros Hall. exfalso.
      apply (Hall a); [apply list_elem_of_here | done].
    + rewrite IH. split.
      * intros Hall x Hx. apply elem_of_cons in Hx as [-> | Hx]; auto.
      * intros Hall x Hx. apply Hall. by apply list_elem_of_further.
Qed.

Lemma count_status_total (rs : list RunOutcome) :
  count_status Success rs + count_status Failed rs = Z.of_nat (length rs).
Proof.
  unfold count_status. induction rs as [| o rs IH]; [reflexivity |].
  rewrite !filter_cons.
  destruct (o_status o); repeat (case_decide; try congruence);
    cbn [length]; lia.
Qed.

Lemma count_status_elem_of (s : Status) (rs : list RunOutcome) (o : RunOutcome) :
  o ∈ rs -> o_status o = s -> 0 < count_status s rs.
Proof.
  intros Ho Hs. unfold count_status.
  assert (o ∈ filter (fun o => o_status o = s) rs) as Hin
    by (apply list_elem_of_filter; auto).
  destruct (filter _ rs); [by apply not_elem_of_nil in Hin | cbn; lia].
Qed.

Lemma count_status_pos (s : Status) (rs : list RunOutcome) :
  0 < count_status s rs -> exists o, o ∈ rs /\ o_status o = s.
Proof.
  unfold count_status. intros H.
  destruct (filter (fun o => o_status o = s) rs) as [| o tl] eqn:E;
    [cbn in H; lia |].
  assert (o ∈ filter (fun o => o_status o = s) rs) as Hin
    by (rewrite E; apply list_elem_of_here).
  apply list_elem_of_filter in Hin as [Hs Hin]. eauto.
Qed.

Section Driver.

Context {X : Type}.
Variable SEBALcode : Z -> string -> World X -> result pyobj * World X.

Lemma validate_csv_input_ok (csv_file : string) (df : DataFrame) (st : St X) :
  files (world st) csv_file = Ok df ->
  required_columns ⊆ columns df ->
  validate_csv_input csv_file st
    = ((true, Some df), print (ValidationPassed (len_df df)) st).
Proof.
  intros Hf Hall. unfold validate_csv_input. rewrite Hf.
  replace (filter (fun col => col ∉ columns df) required_columns)
    with (@nil string); [done |].
  symmetry. apply filter_nil_iff. intros x Hx Hn. by apply Hn, Hall.
Qed.

Lemma validate_csv_input_missing (csv_file : string) (df : DataFrame) (st : St X) :
  files (world st) csv_file = Ok df ->
  ~ required_columns ⊆ columns df ->
  filter (fun col => col ∉ columns df) required_columns <> [] /\
  validate_csv_input csv_file st
    = ((false, None),
       print (MissingColumns
                (filter (fun col => col ∉ columns df) required_columns)) st).
Proof.
  intros Hf Hmiss. unfold validate_csv_input. rewrite Hf.
  destruct (filter (fun col => col ∉ columns df) required_columns)
    as [| c tl] eqn:E; [| done].
  exfalso. apply Hmiss. intros x Hx.
  pose proof (proj1 (filter_nil_iff _ _) E x Hx) as Hnn.
  destruct (decide (x ∈ columns df)) as [| Hn]; [done | by destruct Hnn].
Qed.

Lemma run_timeseries_processing_valid (csv_file : string) (df : DataFrame)
  (start_row : Z) (end_row : option Z) (st : St X) :
  files (world st) csv_file = Ok df ->
  required_columns ⊆ columns df ->
  run_timeseries_processing SEBALcode csv_file start_row end_row st =
    run_timeseries_summary
      (fst (run_timeseries_rows SEBALcode df csv_file start_row end_row
              (validated csv_file df st)))
      (snd (run_timeseries_rows SEBALcode df csv_file start_row end_row
              (validated csv_file df st))).
Proof.
  intros Hf Hall. unfold run_timeseries_processing.
  rewrite (validate_csv_input_ok csv_file df) by done.
  cbn [negb]. unfold validated.
  by destruct (run_timeseries_rows _ _ _ _ _ _).
Qed.

Lemma stdout_print_details (rs : list RunOutcome) (st : St X) :
  stdout (fold_left (fun st o => print (Detail o) st) rs st)
    = stdout st ++ map Detail rs.
Proof.
  revert st. induction rs as [| o rs IH]; intros st; cbn [fold_left map].
  - by rewrite app_nil_r.
  - rewrite IH. cbn [print stdout]. by rewrite <- app_assoc.
Qed.

Lemma calls_print_details (rs : list RunOutcome) (st : St X) :
  calls (fold_left (fun st o => print (Detail o) st) rs st) = calls st /\
  world (fold_left (fun st o => print (Detail o) st) rs st) = world st.
Proof.
  revert st. induction rs as [| o rs IH]; intros st; cbn [fold_left]; [done |].
  destruct (IH (print (Detail o) st)) as [-> ->]. done.
Qed.

(** With at least one run counted the summary returns, and the flag it
    returns says whether a run succeeded. *)
Lemma run_timeseries_summary_returns (l : Locals) (st : St X) :
  successful_runs l + failed_runs l <> 0 ->
  fst (run_timeseries_summary l st) = Ok (0 <? successful_runs l) /\
  stdout (snd (run_timeseries_summary l st)) =
    stdout st ++
    [TotalRuns (successful_runs l + failed_runs l);
     SuccessfulRuns (successful_runs l); FailedRuns (failed_runs l);
     SuccessRate (successful_runs l) (successful_runs l + failed_runs l)]
    ++ map Detail (results l).
Proof.
  intros Hne. unfold run_timeseries_summary.
  destruct (Z.eqb_spec (successful_runs l + failed_runs l) 0) as [| _]; [done |].
  cbn [fst snd]. split; [done |].
  rewrite stdout_print_details. cbn [print stdout].
  by rewrite <- !app_assoc.
Qed.

(** With no run counted the success rate divides by zero. *)
Lemma run_timeseries_summary_raises (l : Locals) (st : St X) :
  successful_runs l + failed_runs l = 0 ->
  fst (run_timeseries_summary l st) = Raise ZeroDivisionError /\
  calls (snd (run_timeseries_summary l st)) = calls st.
Proof.
  intros H0. unfold run_timeseries_summary. rewrite H0. done.
Qed.

(** The wrapper when the file can be read: the model is called once, with
    display row [row_number + 1], in a world whose [load_workbook] is
    the mock loader of a workbook whose sheets carry that row index;
    afterwards the old attribute is put back if it is truthy. *)
Lemma SEBALcode_CSV_wrapper_loaded (row_number : Z) (csv_file_path : string)
  (st : St X) (df : DataFrame) :
  files (world st) csv_file_path = Ok df ->
  exists w l,
    load_workbook w = Some (PyMockLoader l) /\
    heap w !! l = Some (update_row_indexes row_number
                          (MockWorkbook_init
                             {| csv_file_path := csv_file_path; data := Some df |})) /\
    SEBALcode_CSV_wrapper SEBALcode row_number csv_file_path st =
      (fst (SEBALcode (row_number + 1) csv_file_path w),
       {| world :=
            (let w' := snd (SEBALcode (row_number + 1) csv_file_path w) in
             match load_workbook (world st) with
             | Some original =>
                 if truthy original then set_load_workbook original w' else w'
             | None => w'
             end);
          calls := calls st ++ [(row_number + 1, csv_file_path)];
          stdout := stdout st ++ [LoadedCSV (len_df df)] |}).
Proof.
  intros Hf. unfold SEBALcode_CSV_wrapper, CSVInputHandler_init. rewrite Hf.
  cbv [data print world calls stdout set_world set_heap set_load_workbook
       heap load_workbook files path_exists ext call_SEBALcode].
  fold (world st). fold (calls st). fold (stdout st).
  fold (heap (world st)). fold (files (world st)).
  fold (path_exists (world st)). fold (ext (world st)).
  fold (load_workbook (world st)).
  set (l := fresh_loc (heap (world st))).
  set (h := alter (update_row_indexes row_number) l
              (<[l:=MockWorkbook_init
                      {| csv_file_path := csv_file_path; data := Some df |}]>
                 (heap (world st)))).
  set (w := {| files := files (world st); path_exists := path_exists (world st);
               load_workbook := Some (PyMockLoader l); heap := h;
               ext := ext (world st) |}).
  exists w, l. split; [reflexivity |]. split.
  { subst w h. cbn [heap]. rewrite lookup_alter. case_decide; [| done].
    by rewrite lookup_insert_eq. }
  destruct (SEBALcode (row_number + 1) csv_file_path w) as [res w'] eqn:E.
  cbn [fst snd].
  destruct (load_workbook (world st)) as [original |]; [| done].
  by destruct (truthy original).
Qed.

Lemma SEBALcode_CSV_wrapper_not_loaded (row_number : Z) (csv_file_path : string)
  (st : St X) (e : exn) :
  files (world st) csv_file_path = Raise e ->
  SEBALcode_CSV_wrapper SEBALcode row_number csv_file_path st =
    (Ok (PyVal (VBool false)),
     print CouldNotLoadCSV (print (ErrorLoadingCSV (str_exn e)) st)).
Proof.
  intros Hf. unfold SEBALcode_CSV_wrapper, CSVInputHandler_init. by rewrite Hf.
Qed.

Lemma run_info_returns (csv_handler : CSVInputHandler) (row_num : Z) :
  exists date_acquired image_name,
    run_info csv_handler row_num = Ok (date_acquired, image_name).
Proof.
  unfold run_info, get_value. destruct (data csv_handler) as [df |]; [| eauto].
  rewrite (column_name_mapped df "General_Input" "A" "Date_Acquired")
    by reflexivity.
  rewrite (column_name_mapped df "General_Input" "F" "Name_Landsat_Image")
    by reflexivity.
  eauto.
Qed.

End Driver.

(** ** Per-run errors (C1) *)

Lemma clamp_end_row_le (total_rows : Z) (end_row : option Z) :
  clamp_end_row total_rows end_row <= total_rows.
Proof. destruct end_row; cbn; lia. Qed.

Section Errors.

Context {X : Type}.
Variable SEBALcode : Z -> string -> World X -> result pyobj * World X.

(** The report of the loop: one entry per index of the range, numbered
    from [start_row] on, and counters that agree with it. *)
Lemma run_timeseries_rows_report (df : DataFrame) (csv_file : string)
  (start_row : Z) (end_row : option Z) (st : St X) :
  let l := fst (run_timeseries_rows SEBALcode df csv_file start_row end_row st) in
  map o_run_number (results l)
    = map (fun i => i + 1)
          (py_range (start_row - 1) (clamp_end_row (len_df df) end_row)) /\
  successful_runs l = count_status Success (results l) /\
  failed_runs l = count_status Failed (results l).
Proof.
  unfold run_timeseries_rows. cbv zeta.
  destruct (fold_rows_results SEBALcode df csv_file
              (py_range (start_row - 1) (clamp_end_row (len_df df) end_row))
              Locals_init
              (print (ProcessingRange start_row
                        (clamp_end_row (len_df df) end_row)
                        (clamp_end_row (len_df df) end_row - (start_row - 1))) st))
    as (tail & Hres & Hnum & Hs & Hf).
  rewrite Hres, Hs, Hf. cbn [Locals_init results successful_runs failed_runs app].
  split; [done | split; lia].
Qed.

Lemma run_timeseries_rows_raise (df : DataFrame) (csv_file : string)
  (start_row : Z) (end_row : option Z) (st0 st : St X) (i : Z) (e : exn) :
  world st0 = world st ->
  start_row - 1 <= i < clamp_end_row (len_df df) end_row ->
  0 <= i ->
  fst (SEBALcode (i + 2) csv_file
         (world (snd (run_timeseries_rows SEBALcode df csv_file start_row
                        (Some i) st)))) = Raise e ->
  exists row_data,
    iloc df i = Ok row_data /\
    results (fst (run_timeseries_rows SEBALcode df csv_file start_row end_row st0))
      !! Z.to_nat (i - (start_row - 1)) = Some (failed_outcome row_data i e).
Proof.
  intros Hw Hi H0 He.
  pose proof (clamp_end_row_le (len_df df) end_row) as Hle.
  unfold run_timeseries_rows in *. cbv zeta in *.
  replace (clamp_end_row (len_df df) (Some i)) with i in He by (cbn; lia).
  rewrite (py_range_split (start_row - 1) (clamp_end_row (len_df df) end_row) i)
    by done.
  rewrite fold_left_app. cbn [fold_left].
  match goal with
  | |- context [fold_left ?f (py_range (start_row - 1) i) (Locals_init, ?s0)] =>
      destruct (fold_left f (py_range (start_row - 1) i) (Locals_init, s0))
        as [l1 st1] eqn:E1;
      pose proof (fold_rows_results SEBALcode df csv_file
                    (py_range (start_row - 1) i) Locals_init s0)
        as (t1 & Ht1 & Hn1 & _);
      pose proof (fold_rows_world SEBALcode df csv_file
                    (py_range (start_row - 1) i) Locals_init Locals_init s0
                    (print (ProcessingRange start_row i (i - (start_row - 1))) st)
                    Hw) as Hw1
  end.
  rewrite E1 in Ht1, Hw1. cbn [fst snd Locals_init results app] in Ht1, Hw1.
  rewrite <- Hw1 in He.
  destruct (run_timeseries_row_raise SEBALcode df csv_file l1 st1 i e)
    as (row_data & l2 & st2 & Hrow & Hstep & _ & _ & Hres & _); [lia | done |].
  rewrite Hstep.
  destruct (fold_rows_results SEBALcode df csv_file
              (py_range (i + 1) (clamp_end_row (len_df df) end_row)) l2 st2)
    as (tail & Htail & _).
  exists row_data. split; [done |].
  rewrite Htail, Hres, Ht1, <- app_assoc. cbn [app].
  apply list_lookup_middle.
  rewrite <- (length_map o_run_number t1), Hn1, length_map, py_range_length.
  f_equal; lia.
Qed.

(** In [run_timeseries_CSV] a raising model is counted as a failed run
    and its text is printed; the loop goes on with the next row. *)
Lemma run_timeseries_CSV_row_raise (csv_handler : CSVInputHandler)
  (csv_file_path : string) (total_rows s f : Z) (st : St X) (row_num : Z)
  (df : DataFrame) (e : exn) :
  files (world st) csv_file_path = Ok df ->
  (forall w, fst (SEBALcode (row_num + 1) csv_file_path w) = Raise e) ->
  exists st',
    run_timeseries_CSV_row SEBALcode csv_handler csv_file_path total_rows
      ((s, f), st) row_num = ((s, f + 1), st') /\
    last (stdout st') = Some (RunFailed (row_num + 1) (str_exn e)).
Proof.
  intros Hf He. unfold run_timeseries_CSV_row.
  destruct (run_info_returns csv_handler row_num) as (d & im & ->).
  match goal with
  | |- context [SEBALcode_CSV_wrapper _ _ _ ?s0] =>
      destruct (SEBALcode_CSV_wrapper_loaded SEBALcode row_num csv_file_path s0 df)
        as (w & l & _ & _ & ->); [done |]
  end.
  rewrite He. eexists. split; [reflexivity |].
  cbn [print stdout]. apply last_snoc.
Qed.

(** C1: when the model raises for an index of the table inside the
    requested range, [run_timeseries_processing] catches the exception,
    appends, at the place of that index, a [Failed] entry that carries
    the text of the exception and the identity of the row, still runs
    every index of the range, and returns to its caller; the entry and
    the failure count are in the printed report.  [run_timeseries_CSV]
    counts the failure, prints the text and goes on. *)
Theorem C1_run_errors_are_caught :
  (forall csv_file df start_row end_row (st : St X) i e,
     files (world st) csv_file = Ok df ->
     required_columns ⊆ columns df ->
     start_row - 1 <= i < clamp_end_row (len_df df) end_row ->
     0 <= i ->
     fst (SEBALcode (i + 2) csv_file
            (world (snd (run_timeseries_rows SEBALcode df csv_file start_row
                           (Some i) st)))) = Raise e ->
     let l := fst (run_timeseries_rows SEBALcode df csv_file start_row end_row
                     (validated csv_file df st)) in
     let out := run_timeseries_processing SEBALcode csv_file start_row end_row st in
     exists row_data,
       iloc df i = Ok row_data /\
       results l !! Z.to_nat (i - (start_row - 1))
         = Some (failed_outcome row_data i e) /\
       map o_run_number (results l)
         = map (fun k => k + 1)
               (py_range (start_row - 1) (clamp_end_row (len_df df) end_row)) /\
       fst out = Ok (0 <? successful_runs l) /\
       Detail (failed_outcome row_data i e) ∈ stdout (snd out) /\
       FailedRuns (failed_runs l) ∈ stdout (snd out) /\
       0 < failed_runs l) /\
  (forall csv_handler csv_file_path total_rows s f (st : St X) row_num df e rest,
     files (world st) csv_file_path = Ok df ->
     (forall w, fst (SEBALcode (row_num + 1) csv_file_path w) = Raise e) ->
     exists st',
       run_timeseries_CSV_row SEBALcode csv_handler csv_file_path total_rows
         ((s, f), st) row_num = ((s, f + 1), st') /\
       last (stdout st') = Some (RunFailed (row_num + 1) (str_exn e)) /\
       fold_left (run_timeseries_CSV_row SEBALcode csv_handler csv_file_path
                    total_rows) (row_num :: rest) ((s, f), st)
         = fold_left (run_timeseries_CSV_row SEBALcode csv_handler csv_file_path
                        total_rows) rest ((s, f + 1), st')).
Proof.
  split.
  - intros csv_file df start_row end_row st i e Hf Hall Hi H0 He l out.
    destruct (run_timeseries_rows_raise df csv_file start_row end_row
                (validated csv_file df st) st i e)
      as (row_data & Hrow & Hlook); [done | done | done | done |].
    fold l in Hlook.
    pose proof (run_timeseries_rows_report df csv_file start_row end_row
                  (validated csv_file df st)) as (Hnum & Hs & Hfl).
    fold l in Hnum, Hs, Hfl.
    assert (failed_outcome row_data i e ∈ results l) as Hin
      by (eapply list_elem_of_lookup_2; eauto).
    assert (0 < failed_runs l) as Hpos
      by (rewrite Hfl; eapply count_status_elem_of; eauto).
    assert (0 <= successful_runs l) as Hnn
      by (rewrite Hs; unfold count_status; lia).
    subst out. rewrite (run_timeseries_processing_valid _ csv_file df) by done.
    fold l.
    destruct (run_timeseries_summary_returns l
                (snd (run_timeseries_rows SEBALcode df csv_file start_row end_row
                        (validated csv_file df st)))) as [Hret Hout]; [lia |].
    exists row_data. rewrite Hret, Hout.
    repeat split; try done.
    + apply elem_of_app. right. apply elem_of_app. right.
      apply list_elem_of_fmap. eauto.
    + apply elem_of_app. right. apply elem_of_app. left.
      do 2 apply list_elem_of_further. apply list_elem_of_here.
  - intros csv_handler csv_file_path total_rows s f st row_num df e rest Hf He.
    destruct (run_timeseries_CSV_row_raise csv_handler csv_file_path total_rows
                s f st row_num df e Hf He) as (st' & Hrow & Hlast).
    exists st'. cbn [fold_left]. by rewrite Hrow.
Qed.

End Errors.

Lemma sample_columns_required : required_columns ⊆ sample_columns.
Proof.
  intros col Hcol. unfold required_columns in Hcol. unfold sample_columns.
  repeat (apply elem_of_cons in Hcol as [-> | Hcol]; [set_solver |]).
  by apply not_elem_of_nil in Hcol.
Qed.

(** The model raises on the third of the five rows of the sample table
    (index 2, display row 4). *)
Lemma C1_run_errors_are_caught_witness :
  let e := Exn "RuntimeError" "no thermal band" in
  let st := St_init (world_of table5 None) in
  let l := fst (run_timeseries_rows model_raises_on_4 table5 "in.csv" 1 None
                  (validated "in.csv" table5 st)) in
  let out := run_timeseries_processing model_raises_on_4 "in.csv" 1 None st in
  exists row_data,
    iloc table5 2 = Ok row_data /\
    results l !! Z.to_nat (2 - (1 - 1)) = Some (failed_outcome row_data 2 e) /\
    map o_run_number (results l)
      = map (fun k => k + 1) (py_range (1 - 1) (clamp_end_row (len_df table5) None)) /\
    fst out = Ok (0 <? successful_runs l) /\
    Detail (failed_outcome row_data 2 e) ∈ stdout (snd out) /\
    FailedRuns (failed_runs l) ∈ stdout (snd out) /\
    0 < failed_runs l.
Proof.
  apply (proj1 (C1_run_errors_are_caught model_raises_on_4)
           "in.csv" table5 1 None (St_init (world_of table5 None)) 2
           (Exn "RuntimeError" "no thermal band")).
  - reflexivity.
  - exact sample_columns_required.
  - vm_compute. split; [discriminate | reflexivity].
  - lia.
  - reflexivity.
Defined.

(** The model raises on row 3 of 5: rows 1, 2, 4 and 5 are still run;
    four runs succeed, one fails, five are reported. *)
Example run_timeseries_row_3_of_5 :
  let out := run_timeseries_rows model_raises_on_4 table5 "in.csv" 1 None
               (St_init (world_of table5 None)) in
  map o_status (results (fst out)) = [Success; Success; Failed; Success; Success] /\
  successful_runs (fst out) = 4 /\ failed_runs (fst out) = 1 /\
  calls (snd out) = [(2, "in.csv"); (3, "in.csv"); (4, "in.csv"); (5, "in.csv");
                     (6, "in.csv")].
Proof. vm_compute. repeat split. Qed.

(** ** Schema validation (C2) *)

Section Schema.

Context {X : Type}.
Variable SEBALcode : Z -> string -> World X -> result pyobj * World X.

Lemma run_timeseries_processing_missing (csv_file : string) (df : DataFrame)
  (start_row : Z) (end_row : option Z) (st : St X) :
  files (world st) csv_file = Ok df ->
  ~ required_columns ⊆ columns df ->
  run_timeseries_processing SEBALcode csv_file start_row end_row st =
    (Ok false,
     print (MissingColumns (filter (fun col => col ∉ columns df) required_columns))
           (print (InputFile csv_file) st)).
Proof.
  intros Hf Hmiss. unfold run_timeseries_processing.
  destruct (validate_csv_input_missing csv_file df (print (InputFile csv_file) st))
    as [_ ->]; done.
Qed.

(** C2: when the file lacks a required column, [run_timeseries_processing]
    stops at the validation, which comes before the loop: it prints the
    error with the list of the missing columns (exactly the required
    columns that the header lacks), returns [False] without having called
    the model or touched the world, and [main] exits with status 1. *)
Theorem C2_schema_checked_before_any_run (csv_file : string) (df : DataFrame)
  (start_row : Z) (end_row : option Z) (st : St X) :
  files (world st) csv_file = Ok df ->
  ~ required_columns ⊆ columns df ->
  let missing_columns := filter (fun col => col ∉ columns df) required_columns in
  let out := run_timeseries_processing SEBALcode csv_file start_row end_row st in
  missing_columns <> [] /\
  (forall col, col ∈ missing_columns <-> col ∈ required_columns /\ col ∉ columns df) /\
  fst out = Ok false /\
  stdout (snd out)
    = stdout st ++ [InputFile csv_file; MissingColumns missing_columns] /\
  calls (snd out) = calls st /\
  world (snd out) = world st /\
  (forall argv, argv !! 1%nat = Some csv_file ->
     fst (main SEBALcode argv st) = 1 /\
     calls (snd (main SEBALcode argv st)) = calls st).
Proof.
  intros Hf Hmiss missing_columns out.
  pose proof (run_timeseries_processing_missing csv_file df) as Hrun.
  subst out. rewrite Hrun by done. fold missing_columns.
  split; [by apply (validate_csv_input_missing csv_file df st) |].
  split; [intros col; subst missing_columns; rewrite list_elem_of_filter; tauto |].
  split; [done |].
  split; [cbn [snd print stdout]; by rewrite <- app_assoc |].
  split; [done |]. split; [done |].
  intros argv Hargv. unfold main. rewrite Hargv.
  destruct (path_exists (world st) csv_file); [| done].
  cbn [negb].
  destruct (start_row_arg argv) as [s |]; [| done].
  destruct (end_row_arg argv) as [e |]; [| done].
  by rewrite Hrun.
Qed.

End Schema.

Lemma table_no_output_missing : ~ required_columns ⊆ columns table_no_output.
Proof.
  intros H. specialize (H "output_folder").
  assert ("output_folder" ∈ required_columns) as Hreq by (vm_compute; set_solver).
  apply H in Hreq. cbn in Hreq.
  repeat (apply elem_of_cons in Hreq as [Hreq | Hreq]; [discriminate |]).
  by apply not_elem_of_nil in Hreq.
Qed.

(** A file without the column [output_folder], and a model that would
    raise if it were called. *)
Lemma C2_schema_checked_before_any_run_witness :
  let st := St_init (world_of table_no_output None) in
  let out := run_timeseries_processing model_raises "in.csv" 1 None st in
  fst out = Ok false /\
  stdout (snd out) = [InputFile "in.csv"; MissingColumns ["output_folder"]] /\
  calls (snd out) = [].
Proof.
  pose proof (C2_schema_checked_before_any_run model_raises "in.csv"
                table_no_output 1 None (St_init (world_of table_no_output None))
                eq_refl table_no_output_missing)
    as (_ & _ & Hret & Hout & Hcalls & _).
  split; [exact Hret |]. split; [exact Hout | exact Hcalls].
Defined.

(** ** The range of the batch (C3) *)

Lemma map_succ_py_range (a b : Z) :
  map (fun i => i + 1) (py_range (a - 1) b) = py_range a (b + 1).
Proof.
  unfold py_range. rewrite map_map.
  replace (Z.to_nat (b + 1 - a)) with (Z.to_nat (b - (a - 1))) by lia.
  apply map_ext. intros k. lia.
Qed.

Section Range.

Context {X : Type}.
Variable SEBALcode : Z -> string -> World X -> result pyobj * World X.

Lemma run_timeseries_row_calls (df : DataFrame) (csv_file : string)
  (l : Locals) (st : St X) (i : Z) :
  0 <= i < len_df df ->
  calls (snd (run_timeseries_row SEBALcode df csv_file (len_df df) (l, st) i))
    = calls st ++ [(i + 2, csv_file)].
Proof.
  intros Hi. destruct (iloc_in_table df i Hi) as (r & _ & Hr).
  unfold run_timeseries_row. rewrite Hr.
  unfold call_SEBALcode. cbn [print world calls stdout].
  by destruct (SEBALcode (i + 2) csv_file (world st)) as [[res | e] w].
Qed.

Lemma fold_rows_calls (df : DataFrame) (csv_file : string) (L : list Z)
  (l : Locals) (st : St X) :
  (forall i, i ∈ L -> 0 <= i < len_df df) ->
  calls (snd (fold_left (run_timeseries_row SEBALcode df csv_file (len_df df))
                        L (l, st)))
    = calls st ++ map (fun i => (i + 2, csv_file)) L.
Proof.
  revert l st. induction L as [| i L IH]; intros l st HL; cbn [fold_left map].
  - by rewrite app_nil_r.
  - pose proof (run_timeseries_row_calls df csv_file l st i) as Hc.
    destruct (run_timeseries_row _ _ _ _ (l, st) i) as [l' st'].
    rewrite IH by (intros j Hj; apply HL; by apply list_elem_of_further).
    cbn [snd] in Hc. rewrite Hc by (apply HL; apply list_elem_of_here).
    by rewrite <- app_assoc.
Qed.

Lemma started_rows_print (m : msg) (st : St X) :
  started_rows (stdout (print m st)) = started_rows (stdout st) ++ started_rows [m].
Proof. unfold started_rows. cbn [print stdout]. apply omap_app. Qed.

Lemma started_rows_wrapper (row_number : Z) (csv_file_path : string) (st : St X) :
  started_rows (stdout (snd (SEBALcode_CSV_wrapper SEBALcode row_number
                               csv_file_path st)))
    = started_rows (stdout st).
Proof.
  destruct (files (world st) csv_file_path) as [df | e] eqn:Hf.
  - destruct (SEBALcode_CSV_wrapper_loaded SEBALcode row_number csv_file_path st df Hf)
      as (w & l & _ & _ & ->).
    cbn [snd stdout]. unfold started_rows. rewrite omap_app. cbn.
    by rewrite app_nil_r.
  - rewrite (SEBALcode_CSV_wrapper_not_loaded SEBALcode row_number csv_file_path st e Hf).
    cbn [snd]. rewrite !started_rows_print. cbn. by rewrite !app_nil_r.
Qed.

Lemma started_rows_CSV_row (csv_handler : CSVInputHandler) (csv_file_path : string)
  (total_rows : Z) (c : Z * Z) (st : St X) (row_num : Z) :
  started_rows (stdout (snd (run_timeseries_CSV_row SEBALcode csv_handler
                               csv_file_path total_rows (c, st) row_num)))
    = started_rows (stdout st) ++ [row_num + 1].
Proof.
  unfold run_timeseries_CSV_row. destruct c as [s f].
  destruct (run_info_returns csv_handler row_num) as (d & im & ->).
  match goal with
  | |- context [SEBALcode_CSV_wrapper _ _ _ ?s0] =>
      pose proof (started_rows_wrapper row_num csv_file_path s0) as Hw;
      destruct (SEBALcode_CSV_wrapper SEBALcode row_num csv_file_path s0)
        as [[res | e] st']
  end; cbn [snd] in *; rewrite started_rows_print, Hw, !started_rows_print;
    cbn; by rewrite !app_nil_r.
Qed.

Lemma started_rows_CSV_fold (csv_handler : CSVInputHandler) (csv_file_path : string)
  (total_rows : Z) (L : list Z) (c : Z * Z) (st : St X) :
  started_rows (stdout (snd (fold_left (run_timeseries_CSV_row SEBALcode csv_handler
                                          csv_file_path total_rows) L (c, st))))
    = started_rows (stdout st) ++ map (fun i => i + 1) L.
Proof.
  revert c st. induction L as [| i L IH]; intros c st; cbn [fold_left map].
  - by rewrite app_nil_r.
  - pose proof (started_rows_CSV_row csv_handler csv_file_path total_rows c st i)
      as Hrow.
    destruct (run_timeseries_CSV_row _ _ _ _ (c, st) i) as [c' st'].
    cbn [snd] in Hrow. by rewrite IH, Hrow, <- app_assoc.
Qed.

Lemma load_failures_print (m : msg) (st : St X) :
  load_failures (stdout (print m st))
  = (load_failures (stdout st)
     + match m with CouldNotLoadCSV => 1 | _ => 0 end)%nat.
Proof.
  unfold load_failures. cbn [print stdout]. rewrite omap_app, length_app.
  by destruct m.
Qed.

(** What a call of the wrapper leaves behind: a call of the model with
    [row_number + 1] when the file can be read, one line that says that
    it could not be loaded when it cannot. *)
Lemma SEBALcode_CSV_wrapper_attempt (row_number : Z) (csv_file_path : string)
  (st : St X) :
  let st' := snd (SEBALcode_CSV_wrapper SEBALcode row_number csv_file_path st) in
  (readable csv_file_path (world st) /\
   calls st' = calls st ++ [(row_number + 1, csv_file_path)] /\
   load_failures (stdout st') = load_failures (stdout st) /\
   ((forall r w, readable csv_file_path w ->
                 readable csv_file_path (snd (SEBALcode r csv_file_path w))) ->
    readable csv_file_path (world st'))) \/
  (~ readable csv_file_path (world st) /\
   calls st' = calls st /\
   load_failures (stdout st') = S (load_failures (stdout st))).
Proof.
  destruct (files (world st) csv_file_path) as [df | e] eqn:Hf.
  - left. split; [by exists df |].
    unfold SEBALcode_CSV_wrapper, CSVInputHandler_init. rewrite Hf.
    cbv [data print world calls stdout set_world set_heap set_load_workbook
         heap load_workbook files path_exists ext call_SEBALcode].
    fold (world st). fold (calls st). fold (stdout st).
    fold (heap (world st)). fold (files (world st)).
    fold (path_exists (world st)). fold (ext (world st)).
    fold (load_workbook (world st)).
    match goal with
    | |- context [SEBALcode (row_number + 1) csv_file_path ?w0] =>
        set (w := w0);
        assert (readable csv_file_path w) as Hw by (by exists df)
    end.
    destruct (SEBALcode (row_number + 1) csv_file_path w) as [res w'] eqn:E.
    assert (load_failures (stdout st ++ [LoadedCSV (len_df df)])
            = load_failures (stdout st)) as Hlf.
    { unfold load_failures. rewrite omap_app, length_app. cbn. lia. }
    assert ((forall r w0, readable csv_file_path w0 ->
                          readable csv_file_path (snd (SEBALcode r csv_file_path w0))) ->
            readable csv_file_path w') as Hkeep.
    { intros H. specialize (H (row_number + 1) w Hw). by rewrite E in H. }
    destruct (load_workbook (world st)) as [original |]; [| done].
    destruct (truthy original); [| done].
    cbn [snd world calls stdout]. split; [done |]. split; [done |].
    intros H. destruct (Hkeep H) as [df' Hdf']. by exists df'.
  - right. split; [intros [df Hdf]; congruence |].
    rewrite (SEBALcode_CSV_wrapper_not_loaded SEBALcode row_number csv_file_path st e Hf).
    cbn [snd print calls stdout]. split; [done |].
    unfold load_failures. rewrite <- !app_assoc, omap_app, length_app. cbn. lia.
Qed.

(** One turn of the loop of [run_timeseries_CSV] goes through the
    wrapper. *)
Lemma run_timeseries_CSV_row_attempt (csv_handler : CSVInputHandler)
  (csv_file_path : string) (total_rows : Z) (c : Z * Z) (st : St X) (row_num : Z) :
  let st' := snd (run_timeseries_CSV_row SEBALcode csv_handler csv_file_path
                    total_rows (c, st) row_num) in
  (readable csv_file_path (world st) /\
   calls st' = calls st ++ [(row_num + 1, csv_file_path)] /\
   load_failures (stdout st') = load_failures (stdout st) /\
   ((forall r w, readable csv_file_path w ->
                 readable csv_file_path (snd (SEBALcode r csv_file_path w))) ->
    readable csv_file_path (world st'))) \/
  (~ readable csv_file_path (world st) /\
   calls st' = calls st /\
   load_failures (stdout st') = S (load_failures (stdout st))).
Proof.
  unfold run_timeseries_CSV_row. destruct c as [s f].
  destruct (run_info_returns csv_handler row_num) as (d & im & ->).
  match goal with
  | |- context [SEBALcode_CSV_wrapper _ _ _ ?s0] =>
      pose proof (SEBALcode_CSV_wrapper_attempt row_num csv_file_path s0) as Hw;
      destruct (SEBALcode_CSV_wrapper SEBALcode row_num csv_file_path s0)
        as [[res | e] st']
  end; cbv zeta in Hw; cbn [snd] in Hw |- *;
    rewrite !load_failures_print in Hw; rewrite load_failures_print;
    cbn [print world calls] in Hw |- *;
    (destruct Hw as [(Hr & Hc & Hl & Hk) | (Hr & Hc & Hl)];
     [left | right]; repeat split; first [done | lia]).
Qed.

(** The loop of [run_timeseries_CSV] over the indices [L]: the calls of
    the model are those of a part of [L], in order, each with its index
    plus one, and every index that was not called printed the failure to
    load once; with a model that leaves the file readable every index is
    called. *)
Lemma run_timeseries_CSV_fold_attempts (csv_handler : CSVInputHandler)
  (csv_file_path : string) (total_rows : Z) (L : list Z) (c : Z * Z) (st : St X) :
  let st' := snd (fold_left (run_timeseries_CSV_row SEBALcode csv_handler
                               csv_file_path total_rows) L (c, st)) in
  (exists called,
     sublist called L /\
     calls st' = calls st ++ map (fun i => (i + 1, csv_file_path)) called /\
     (length called + load_failures (stdout st')
      = length L + load_failures (stdout st))%nat) /\
  ((forall r w, readable csv_file_path w ->
                readable csv_file_path (snd (SEBALcode r csv_file_path w))) ->
   readable csv_file_path (world st) ->
   calls st' = calls st ++ map (fun i => (i + 1, csv_file_path)) L /\
   readable csv_file_path (world st')).
Proof.
  revert c st. induction L as [| i L IH]; intros c st; cbn [fold_left].
  { split.
    - exists []. cbn. rewrite app_nil_r. split; [constructor | done].
    - intros _ Hr. cbn. by rewrite app_nil_r. }
  pose proof (run_timeseries_CSV_row_attempt csv_handler csv_file_path total_rows
                c st i) as Hrow.
  destruct (run_timeseries_CSV_row SEBALcode csv_handler csv_file_path total_rows
              (c, st) i) as [c1 st1].
  cbn [snd] in Hrow.
  destruct (IH c1 st1) as [(called & Hsub & Hcalls & Hlen) Hall].
  cbv zeta. split.
  - destruct Hrow as [(_ & Hc & Hl & _) | (_ & Hc & Hl)].
    + exists (i :: called). split; [by constructor |].
      rewrite Hcalls, Hc, <- app_assoc. split; [done |]. cbn [length]. lia.
    + exists called. split; [by constructor |].
      rewrite Hcalls, Hc. split; [done |]. cbn [length]. lia.
  - intros Hkeep Hr.
    destruct Hrow as [(_ & Hc & _ & Hk) | (Hn & _)]; [| done].
    destruct (Hall Hkeep (Hk Hkeep)) as [Hcalls' Hr'].
    split; [| done]. by rewrite Hcalls', Hc, <- app_assoc.
Qed.

(** C3: [run_timeseries_processing] clamps the end of the range to the
    number of rows and records one run for each row from [start_row] to
    [min end_row n], in ascending order; for a range that starts at row 1
    or later the model is called once per row, in that order, with the
    row's display row.  On a table of five rows, [start_row = 2] and
    [end_row = 10] give the four runs 2, 3, 4, 5.  [run_timeseries_CSV]
    announces the same rows and hands every one of them to the wrapper:
    the model is called for rows of the range only, in ascending order
    and with the row's number, and a row without a call is a row for
    which the wrapper printed that it could not load the file again;
    when the model leaves the file readable, every row of the range is
    called. *)
Theorem C3_range_is_clamped :
  (forall df csv_file start_row end_row (st : St X),
     let out := run_timeseries_rows SEBALcode df csv_file start_row
                  (Some end_row) st in
     map o_run_number (results (fst out))
       = py_range start_row (Z.min end_row (len_df df) + 1) /\
     (1 <= start_row ->
      calls (snd out)
        = calls st ++ map (fun r => (r + 1, csv_file))
                          (py_range start_row (Z.min end_row (len_df df) + 1)))) /\
  (forall df csv_file (st : St X),
     length (rows df) = 5%nat ->
     let out := run_timeseries_rows SEBALcode df csv_file 2 (Some 10) st in
     map o_run_number (results (fst out)) = [2; 3; 4; 5] /\
     calls (snd out)
       = calls st ++ [(3, csv_file); (4, csv_file); (5, csv_file); (6, csv_file)]) /\
  (forall df csv_file_path start_row end_row (st : St X),
     files (world st) csv_file_path = Ok df ->
     let out := snd (run_timeseries_CSV SEBALcode csv_file_path start_row
                       (Some end_row) st) in
     let range := py_range start_row (Z.min end_row (len_df df) + 1) in
     started_rows (stdout out) = started_rows (stdout st) ++ range /\
     (exists called,
        sublist called range /\
        calls out = calls st ++ map (fun r => (r, csv_file_path)) called /\
        (length called + load_failures (stdout out)
         = length range + load_failures (stdout st))%nat) /\
     ((forall r w, readable csv_file_path w ->
                   readable csv_file_path (snd (SEBALcode r csv_file_path w))) ->
      calls out = calls st ++ map (fun r => (r, csv_file_path)) range)).
Proof.
  assert (forall df csv_file start_row end_row (st : St X),
     let out := run_timeseries_rows SEBALcode df csv_file start_row
                  (Some end_row) st in
     map o_run_number (results (fst out))
       = py_range start_row (Z.min end_row (len_df df) + 1) /\
     (1 <= start_row ->
      calls (snd out)
        = calls st ++ map (fun r => (r + 1, csv_file))
                          (py_range start_row (Z.min end_row (len_df df) + 1))))
    as Hgen.
  { intros df csv_file start_row end_row st out. split.
    - subst out.
      rewrite (proj1 (run_timeseries_rows_report SEBALcode df csv_file start_row
                        (Some end_row) st)).
      cbn [clamp_end_row]. apply map_succ_py_range.
    - intros Hstart. subst out. unfold run_timeseries_rows. cbv zeta.
      rewrite fold_rows_calls.
      + cbn [print calls clamp_end_row]. f_equal.
        rewrite <- map_succ_py_range, map_map. apply map_ext. intros i.
        f_equal. lia.
      + intros i Hi. apply elem_of_py_range in Hi. cbn [clamp_end_row] in Hi. lia. }
  split; [exact Hgen |]. split.
  - intros df csv_file st Hlen out.
    destruct (Hgen df csv_file 2 10 st) as [Hnum Hcalls]. fold out in Hnum, Hcalls.
    rewrite Hnum, Hcalls by lia. unfold len_df. rewrite Hlen. done.
  - intros df csv_file_path start_row end_row st Hf out range.
    subst out range.
    unfold run_timeseries_CSV, CSVInputHandler_init. rewrite Hf.
    cbn [data get_row_count].
    rewrite <- map_succ_py_range.
    match goal with
    | |- context [fold_left ?f ?L (?c, ?s0)] =>
        pose proof (started_rows_CSV_fold
                      {| csv_file_path := csv_file_path; data := Some df |}
                      csv_file_path (len_df df) L c s0) as Hfold;
        pose proof (run_timeseries_CSV_fold_attempts
                      {| csv_file_path := csv_file_path; data := Some df |}
                      csv_file_path (len_df df) L c s0)
          as [(called & Hsub & Hcalls & Hlen) Hall];
        destruct (fold_left f L (c, s0)) as [[s f'] st']
    end.
    cbv zeta in Hlen, Hcalls, Hall. cbn [snd] in *.
    rewrite !load_failures_print in Hlen.
    cbn [print world calls] in Hcalls, Hall |- *.
    split; [| split].
    + rewrite !started_rows_print, Hfold, !started_rows_print.
      cbn. by rewrite !app_nil_r.
    + exists (map (fun i => i + 1) called). split; [by apply fmap_sublist |].
      rewrite Hcalls, map_map. split; [done |].
      rewrite !load_failures_print. rewrite !length_map. lia.
    + intros Hkeep. rewrite (proj1 (Hall Hkeep ltac:(by exists df))).
      by rewrite map_map.
Qed.

End Range.

(** The sample table of five rows, rows 2 to 10 requested, with both
    drivers. *)
Lemma C3_range_is_clamped_witness :
  let out := run_timeseries_rows model_ok table5 "in.csv" 2 (Some 10)
               (St_init (world_of table5 None)) in
  let out' := snd (run_timeseries_CSV model_ok "in.csv" 2 (Some 10)
                     (St_init (world_of table5 None))) in
  (map o_run_number (results (fst out)) = [2; 3; 4; 5] /\
   calls (snd out)
     = [(3, "in.csv"); (4, "in.csv"); (5, "in.csv"); (6, "in.csv")]) /\
  started_rows (stdout out') = [2; 3; 4; 5] /\
  calls out' = [(2, "in.csv"); (3, "in.csv"); (4, "in.csv"); (5, "in.csv")].
Proof.
  split.
  - apply (proj1 (proj2 (C3_range_is_clamped model_ok)) table5 "in.csv"
             (St_init (world_of table5 None))).
    reflexivity.
  - destruct (proj2 (proj2 (C3_range_is_clamped model_ok)) table5 "in.csv" 2 10
                (St_init (world_of table5 None)) eq_refl)
      as (Hstarted & _ & Hcalls).
    split; [exact Hstarted |].
    apply Hcalls. intros r w Hw. exact Hw.
Defined.

(** ** Empty ranges (C4) and the exit status (C5) *)

Section Exit.

Context {X : Type}.
Variable SEBALcode : Z -> string -> World X -> result pyobj * World X.

Lemma run_timeseries_rows_empty (df : DataFrame) (csv_file : string)
  (start_row : Z) (end_row : option Z) (st : St X) :
  clamp_end_row (len_df df) end_row <= start_row - 1 ->
  run_timeseries_rows SEBALcode df csv_file start_row end_row st =
    (Locals_init,
     print (ProcessingRange start_row (clamp_end_row (len_df df) end_row)
              (clamp_end_row (len_df df) end_row - (start_row - 1))) st).
Proof.
  intros H. unfold run_timeseries_rows. cbv zeta. by rewrite py_range_nil.
Qed.

(** C4 fails on [run_timeseries_processing]: with a valid table and a
    range that is empty after clamping, the loop runs no row and calls
    the model not once, and then the success rate of the summary divides
    zero by zero: the function raises [ZeroDivisionError] and [main] ends
    with status 1.  [run_timeseries_CSV], which prints no rate, returns
    with both counters at zero. *)
Theorem C4_empty_range_raises (csv_file : string) (df : DataFrame)
  (start_row : Z) (end_row : option Z) (st : St X) :
  files (world st) csv_file = Ok df ->
  required_columns ⊆ columns df ->
  clamp_end_row (len_df df) end_row <= start_row - 1 ->
  let out := run_timeseries_processing SEBALcode csv_file start_row end_row st in
  results (fst (run_timeseries_rows SEBALcode df csv_file start_row end_row
                  (validated csv_file df st))) = [] /\
  fst out = Raise ZeroDivisionError /\
  calls (snd out) = calls st /\
  fst (run_timeseries_CSV SEBALcode csv_file start_row end_row st) = (0, 0) /\
  calls (snd (run_timeseries_CSV SEBALcode csv_file start_row end_row st))
    = calls st.
Proof.
  intros Hf Hall Hempty out. subst out.
  rewrite (run_timeseries_processing_valid SEBALcode csv_file df) by done.
  rewrite run_timeseries_rows_empty by done. cbn [fst snd Locals_init results].
  split; [done |]. split; [done |]. split; [done |].
  unfold run_timeseries_CSV, CSVInputHandler_init. rewrite Hf.
  cbn [data get_row_count].
  rewrite py_range_nil; [done |].
  unfold clamp_end_row in Hempty. destruct end_row; lia.
Qed.

Lemma status_cases (o : RunOutcome) : o_status o = Success \/ o_status o = Failed.
Proof. destruct (o_status o); auto. Qed.

(** C5 (amended): [main] exits with 0 or 1.  It exits with 1 when the
    file does not exist, cannot be read or lacks a required column.  On a
    valid file with well-formed arguments and a range that holds at least
    one row it exits with 0 exactly when at least one run succeeded,
    failed rows or not, and with 1 exactly when every run failed. *)
Theorem C5_exit_status (argv : list string) (csv_file : string) (st : St X) :
  argv !! 1%nat = Some csv_file ->
  let code := fst (main SEBALcode argv st) in
  (code = 0 \/ code = 1) /\
  (path_exists (world st) csv_file = false -> code = 1) /\
  (forall e, files (world st) csv_file = Raise e -> code = 1) /\
  (forall df, files (world st) csv_file = Ok df ->
     ~ required_columns ⊆ columns df -> code = 1) /\
  (forall df start_row end_row,
     path_exists (world st) csv_file = true ->
     files (world st) csv_file = Ok df ->
     required_columns ⊆ columns df ->
     start_row_arg argv = Some start_row ->
     end_row_arg argv = Some end_row ->
     start_row - 1 < clamp_end_row (len_df df) end_row ->
     let l := fst (run_timeseries_rows SEBALcode df csv_file start_row end_row
                     (validated csv_file df st)) in
     (code = 0 <-> exists o, o ∈ results l /\ o_status o = Success) /\
     (code = 1 <-> forall o, o ∈ results l -> o_status o = Failed)).
Proof.
  intros Hargv code. subst code. unfold main. rewrite Hargv.
  split; [| split; [| split; [| split]]].
  - destruct (path_exists (world st) csv_file); cbn [negb]; [| auto].
    destruct (start_row_arg argv); [| auto].
    destruct (end_row_arg argv); [| auto].
    destruct (run_timeseries_processing _ _ _ _ _) as [[[] | e] st']; auto.
  - intros ->. done.
  - intros e Hf.
    destruct (path_exists (world st) csv_file); cbn [negb]; [| done].
    destruct (start_row_arg argv); [| done].
    destruct (end_row_arg argv); [| done].
    unfold run_timeseries_processing, validate_csv_input.
    cbn [print world]. by rewrite Hf.
  - intros df Hf Hmiss.
    destruct (path_exists (world st) csv_file); cbn [negb]; [| done].
    destruct (start_row_arg argv); [| done].
    destruct (end_row_arg argv); [| done].
    by rewrite (run_timeseries_processing_missing SEBALcode csv_file df).
  - intros df start_row end_row -> Hf Hall -> -> Hrange. cbn [negb].
    rewrite (run_timeseries_processing_valid SEBALcode csv_file df) by done.
    set (l := fst (run_timeseries_rows SEBALcode df csv_file start_row end_row
                     (validated csv_file df st))).
    pose proof (run_timeseries_rows_report SEBALcode df csv_file start_row end_row
                  (validated csv_file df st)) as (Hnum & Hs & Hfl).
    fold l in Hnum, Hs, Hfl.
    pose proof (count_status_total (results l)) as Htot.
    assert (length (results l) <> 0%nat) as Hlen.
    { rewrite <- (length_map o_run_number), Hnum, length_map, py_range_length. lia. }
    destruct (run_timeseries_summary_returns l
                (snd (run_timeseries_rows SEBALcode df csv_file start_row end_row
                        (validated csv_file df st)))) as [Hret _]; [lia |].
    destruct (run_timeseries_summary l _) as [r st'] eqn:E. cbn [fst] in Hret.
    subst r.
    destruct (Z.ltb_spec 0 (successful_runs l)) as [Hpos | Hzero]; cbn [fst].
    + split; split; try done.
      * intros _. apply count_status_pos. lia.
      * intros Hallf. exfalso.
        destruct (count_status_pos Success (results l)) as (o & Ho & Hso); [lia |].
        specialize (Hallf o Ho). congruence.
    + split; split; try done.
      * intros (o & Ho & Hso).
        pose proof (count_status_elem_of Success (results l) o Ho Hso). lia.
      * intros _ o Ho. destruct (status_cases o) as [Hso | Hfo]; [| done].
        pose proof (count_status_elem_of Success (results l) o Ho Hso). lia.
Qed.

End Exit.

(** The sample table of five rows with rows 4 to 2 requested. *)
Lemma C4_empty_range_raises_witness :
  let st := St_init (world_of table5 None) in
  fst (run_timeseries_processing model_ok "in.csv" 4 (Some 2) st)
    = Raise ZeroDivisionError /\
  calls (snd (run_timeseries_processing model_ok "in.csv" 4 (Some 2) st)) = [] /\
  fst (run_timeseries_CSV model_ok "in.csv" 4 (Some 2) st) = (0, 0).
Proof.
  pose proof (C4_empty_range_raises model_ok "in.csv" table5 4 (Some 2)
                (St_init (world_of table5 None)) eq_refl sample_columns_required)
    as H.
  destruct H as (_ & Hraise & Hcalls & Hcsv & _); [vm_compute; discriminate |].
  split; [exact Hraise |]. split; [exact Hcalls | exact Hcsv].
Defined.

(** C5, as stated, fails: the file exists, passes validation, the batch
    over its two rows completes and returns, every run has failed, and
    the exit status is 1. *)
Lemma C5_counterexample :
  let st := St_init (world_of table2 None) in
  path_exists (world st) "in.csv" = true /\
  fst (fst (validate_csv_input "in.csv" st)) = true /\
  fst (run_timeseries_processing model_raises "in.csv" 1 None st) = Ok false /\
  fst (main model_raises ["run_timeseries.py"; "in.csv"] st) = 1.
Proof. vm_compute. repeat split. Qed.

(** The sample table of five rows, the model failing on the third: the
    exit status is 0. *)
Lemma C5_exit_status_witness :
  fst (main model_raises_on_4 ["run_timeseries.py"; "in.csv"]
            (St_init (world_of table5 None))) = 0.
Proof.
  pose proof (C5_exit_status model_raises_on_4 ["run_timeseries.py"; "in.csv"]
                "in.csv" (St_init (world_of table5 None)) eq_refl)
    as (_ & _ & _ & _ & H).
  apply (H table5 1 None eq_refl eq_refl sample_columns_required eq_refl eq_refl).
  - vm_compute. reflexivity.
  - exists {| o_run_number := 1; o_date := VStr "2025-01-01";
              o_image := VStr "LC08_A"; o_output_folder := VStr "/data/out";
              o_status := Success; o_error := None |}.
    split; [vm_compute; apply list_elem_of_here | reflexivity].
Defined.

(** ** The display row handed to the model (C6) *)

Section DisplayRow.

Context {X : Type}.
Variable SEBALcode : Z -> string -> World X -> result pyobj * World X.

(** C6 holds in [run_timeseries_processing] and fails in
    [run_timeseries_CSV]: for the 0-based index [i] of a row of the table
    the first calls the model with display row [i + 2]; the second hands
    the 0-based index to [SEBALcode_CSV_wrapper], which adds 1 to it as
    if it were 1-based, and the model is called with [i + 1]. *)
Theorem C6_display_row_argument :
  (forall df csv_file l (st : St X) i,
     0 <= i < len_df df ->
     calls (snd (run_timeseries_row SEBALcode df csv_file (len_df df) (l, st) i))
       = calls st ++ [(i + 2, csv_file)]) /\
  (forall csv_handler csv_file_path total_rows c (st : St X) row_num df,
     files (world st) csv_file_path = Ok df ->
     calls (snd (run_timeseries_CSV_row SEBALcode csv_handler csv_file_path
                   total_rows (c, st) row_num))
       = calls st ++ [(row_num + 1, csv_file_path)]).
Proof.
  split.
  - apply run_timeseries_row_calls.
  - intros csv_handler csv_file_path total_rows [s f] st row_num df Hf.
    unfold run_timeseries_CSV_row.
    destruct (run_info_returns csv_handler row_num) as (d & im & ->).
    match goal with
    | |- context [SEBALcode_CSV_wrapper _ _ _ ?s0] =>
        destruct (SEBALcode_CSV_wrapper_loaded SEBALcode row_num csv_file_path s0 df)
          as (w & l & _ & _ & ->); [done |]
    end.
    by destruct (fst (SEBALcode (row_num + 1) csv_file_path w)).
Qed.

End DisplayRow.

(** The first data row of the sample table (index 0, display row 2):
    [run_timeseries_CSV] calls the model with display row 1, the row of
    the header. *)
Lemma C6_display_row_argument_witness :
  calls (snd (run_timeseries_CSV_row model_ok
                {| csv_file_path := "in.csv"; data := Some table2 |} "in.csv" 2
                ((0, 0), St_init (world_of table2 None)) 0))
    = [(1, "in.csv")].
Proof.
  apply (proj2 (C6_display_row_argument model_ok)
           {| csv_file_path := "in.csv"; data := Some table2 |} "in.csv" 2 (0, 0)
           (St_init (world_of table2 None)) 0 table2).
  reflexivity.
Defined.

(** The whole of [run_timeseries_CSV] on the first row of the sample
    table, and [run_timeseries_processing] on the same input. *)
Example run_timeseries_CSV_first_row :
  calls (snd (run_timeseries_CSV model_ok "in.csv" 1 (Some 1)
                (St_init (world_of table2 None)))) = [(1, "in.csv")] /\
  calls (snd (run_timeseries_processing model_ok "in.csv" 1 (Some 1)
                (St_init (world_of table2 None)))) = [(2, "in.csv")].
Proof. vm_compute. split; reflexivity. Qed.

(** ** The mock spreadsheet (C9) and the module attribute (C10) *)

Lemma MockWorkbook_getitem_updated (csv_handler : CSVInputHandler)
  (row_number : Z) (sheet_name : string) :
  let sheet := MockWorkbook_getitem
                 (update_row_indexes row_number (MockWorkbook_init csv_handler))
                 sheet_name in
  ws_sheet_name sheet = sheet_name /\ ws_csv_handler sheet = csv_handler.
Proof.
  unfold MockWorkbook_getitem, update_row_indexes, MockWorkbook_init.
  cbn [sheets wb_csv_handler list_to_map foldr uncurry fst snd].
  rewrite lookup_fmap.
  destruct (decide (sheet_name = "General_Input")) as [-> | H1];
    [by rewrite lookup_insert_eq |].
  rewrite lookup_insert_ne by done.
  destruct (decide (sheet_name = "Meteo_Input")) as [-> | H2];
    [by rewrite lookup_insert_eq |].
  rewrite lookup_insert_ne by done.
  destruct (decide (sheet_name = "Landsat_Input")) as [-> | H3];
    [by rewrite lookup_insert_eq |].
  rewrite lookup_insert_ne by done.
  destruct (decide (sheet_name = "Soil_Input")) as [-> | H4];
    [by rewrite lookup_insert_eq |].
  rewrite lookup_insert_ne by done.
  by rewrite lookup_empty.
Qed.

Section Adapter.

Context {X : Type}.
Variable SEBALcode : Z -> string -> World X -> result pyobj * World X.

(** C9 fails: [SEBALcode_CSV_wrapper] writes the row of the run on the
    worksheets, but a [MockCell] never reads it and keeps the row 2 it
    is built with.  So every cell of the workbook of every run holds the
    value of the first data row, and that workbook is the one the model
    gets from [load_workbook] during the run.  Through the wrapper, the
    run of the second row of the sample table (display row 3) reads the
    input folder of the first row. *)
Theorem C9_cells_read_display_row_2 :
  (forall csv_handler row_number sheet_name cell_ref,
     workbook_cell_value
       (update_row_indexes row_number (MockWorkbook_init csv_handler))
       sheet_name cell_ref
     = get_value csv_handler sheet_name cell_ref 2) /\
  (forall row_number csv_file_path (st : St X) df,
     files (world st) csv_file_path = Ok df ->
     exists w l wb,
       load_workbook w = Some (PyMockLoader l) /\
       heap w !! l = Some wb /\
       fst (SEBALcode_CSV_wrapper SEBALcode row_number csv_file_path st)
         = fst (SEBALcode (row_number + 1) csv_file_path w) /\
       forall sheet_name cell_ref,
         workbook_cell_value wb sheet_name cell_ref
         = get_value {| csv_file_path := csv_file_path; data := Some df |}
                     sheet_name cell_ref 2) /\
  get_value {| csv_file_path := "in.csv"; data := Some table2 |}
            "General_Input" "B3" 3 = Ok (Some (VStr "/data/in2")) /\
  fst (SEBALcode_CSV_wrapper model_reads_B 2 "in.csv"
         (St_init (world_of table2 None))) = Ok (PyVal (VStr "/data/in")) /\
  fst (SEBALcode_CSV_wrapper model_reads_B 1 "in.csv"
         (St_init (world_of table2 None))) = Ok (PyVal (VStr "/data/in")).
Proof.
  assert (forall csv_handler row_number sheet_name ref,
     workbook_cell_value
       (update_row_indexes row_number (MockWorkbook_init csv_handler))
       sheet_name ref
     = get_value csv_handler sheet_name ref 2) as Hcell.
  { intros csv_handler row_number sheet_name ref.
    unfold workbook_cell_value.
    destruct (MockWorkbook_getitem_updated csv_handler row_number sheet_name)
      as [Hname Hhandler].
    unfold MockWorksheet_getitem, MockCell_init, MockCell_value.
    cbn [_value cell_csv_handler cell_sheet_name cell_ref row_index].
    rewrite Hname, Hhandler.
    by destruct (get_value csv_handler sheet_name ref 2). }
  split; [exact Hcell |]. split; [| by vm_compute].
  intros row_number csv_file_path st df Hf.
  destruct (SEBALcode_CSV_wrapper_loaded SEBALcode row_number csv_file_path st df Hf)
    as (w & l & Hattr & Hheap & ->).
  eexists w, l, _. split; [exact Hattr |]. split; [exact Hheap |].
  split; [done |]. intros sheet_name ref. apply Hcell.
Qed.

End Adapter.

Section Restore.

Context {X : Type}.
Variable SEBALcode : Z -> string -> World X -> result pyobj * World X.

(** C10 (amended): if the module has a [load_workbook] attribute whose
    value is truthy, as every function is, then after the wrapper, whether
    the model returned or raised and whether the file could be read or
    not, the attribute holds that value again. *)
Theorem C10_load_workbook_restored (row_number : Z) (csv_file_path : string)
  (st : St X) (original : pyobj) :
  load_workbook (world st) = Some original ->
  truthy original = true ->
  load_workbook (world (snd (SEBALcode_CSV_wrapper SEBALcode row_number
                               csv_file_path st))) = Some original.
Proof.
  intros Hattr Htruthy.
  destruct (files (world st) csv_file_path) as [df | e] eqn:Hf.
  - destruct (SEBALcode_CSV_wrapper_loaded SEBALcode row_number csv_file_path st df Hf)
      as (w & l & _ & _ & ->).
    cbn [snd world]. by rewrite Hattr, Htruthy.
  - by rewrite (SEBALcode_CSV_wrapper_not_loaded SEBALcode row_number
                  csv_file_path st e Hf).
Qed.

End Restore.

(** C10, as stated, fails: the module has the attribute, with the value
    [None]; after the wrapper the attribute is the mock loader. *)
Lemma C10_counterexample :
  let st := St_init (world_of table2 (Some PyNone)) in
  load_workbook (world st) = Some PyNone /\
  load_workbook (world (snd (SEBALcode_CSV_wrapper model_ok 1 "in.csv" st)))
    = Some (PyMockLoader 0%nat).
Proof. vm_compute. split; reflexivity. Qed.

(** The attribute is the function of openpyxl, and the model raises. *)
Lemma C10_load_workbook_restored_witness :
  let f := PyFunction "openpyxl.load_workbook" in
  fst (SEBALcode_CSV_wrapper model_raises 1 "in.csv"
         (St_init (world_of table2 (Some f))))
    = Raise (Exn "RuntimeError" "no thermal band") /\
  load_workbook (world (snd (SEBALcode_CSV_wrapper model_raises 1 "in.csv"
                               (St_init (world_of table2 (Some f))))))
    = Some f.
Proof.
  split; [by vm_compute |].
  apply (C10_load_workbook_restored model_raises 1 "in.csv"
           (St_init (world_of table2 (Some (PyFunction "openpyxl.load_workbook"))))
           (PyFunction "openpyxl.load_workbook")); reflexivity.
Defined.

(** * Further properties of the sources *)

(** ** [CSVInputHandler.get_value]: rows, columns and failures *)

Lemma read_cell_out_of_range (df : DataFrame) (name : string) (row_index : Z) :
  row_index < 2 \/ len_df df + 2 <= row_index ->
  read_cell df name row_index = None.
Proof.
  intros Hrow. unfold read_cell.
  destruct (in_columns name df); [| done]. cbv zeta.
  replace ((0 <=? row_index - 2) && (row_index - 2 <? len_df df)) with false;
    [done |].
  symmetry. apply andb_false_iff.
  destruct Hrow; [left; apply Z.leb_gt | right; apply Z.ltb_ge]; lia.
Qed.

Lemma read_cell_missing_column (df : DataFrame) (name : string) (row_index : Z) :
  name ∉ columns df -> read_cell df name row_index = None.
Proof.
  intros Hn. unfold read_cell, in_columns. by rewrite bool_decide_eq_false_2.
Qed.

(** X1: display row [r] reads data row [r - 2].  For a reference whose
    letter resolves to a column, a display row from 2 to [n + 1] gives the
    cell of the row at 0-based index [r - 2] ([None] if the cell is
    empty); in particular row 2 is the first data row and row [n + 1] the
    last.  The cell comes as the row [Series] holds it: unchanged, except
    that an integer of a frame whose columns mix integers and floats, and
    nothing else, comes as a float. *)
Theorem get_value_reads_row (self : CSVInputHandler) (df : DataFrame)
  (sheet_name : string) (c : ascii) (rest col_name : string) (row_index : Z)
  (r : list value) (v : value) :
  data self = Some df ->
  column_name df sheet_name c = Ok (Some col_name) ->
  2 <= row_index ->
  rows df !! Z.to_nat (row_index - 2) = Some r ->
  series_lookup (columns df) r col_name = Some v ->
  row_index <= len_df df + 1 /\
  get_value self sheet_name (String c rest) row_index
    = Ok (let w := astype (find_common_type (dtypes df)) v in
          if notna w then Some w else None) /\
  (find_common_type (dtypes df) <> float64 \/ (forall z, v <> VInt z) ->
   get_value self sheet_name (String c rest) row_index
     = Ok (if notna v then Some v else None)).
Proof.
  intros Hdata Hcol Hrow Hr Hv.
  assert (get_value self sheet_name (String c rest) row_index
          = Ok (let w := astype (find_common_type (dtypes df)) v in
                if notna w then Some w else None)) as Hget.
  { unfold get_value. rewrite Hdata, Hcol.
    by rewrite (read_cell_at df col_name row_index r v). }
  split; [| split; [exact Hget |]].
  - apply lookup_lt_Some in Hr. unfold len_df. lia.
  - intros Hsame. rewrite Hget. cbv zeta.
    replace (astype (find_common_type (dtypes df)) v) with v; [done |].
    destruct (find_common_type (dtypes df)), v; try done;
      destruct Hsame as [Hd | Hz]; [done | by destruct (Hz z)].
Qed.

Lemma get_value_reads_row_witness :
  get_value {| csv_file_path := "in.csv"; data := Some table5 |}
            "General_Input" "F6" 6 = Ok (Some (VStr "LC08_E")).
Proof.
  apply (proj2 (proj2 (get_value_reads_row
           {| csv_file_path := "in.csv"; data := Some table5 |} table5
           "General_Input" "F" "6" "Name_Landsat_Image" 6
           (sample_row "2025-03-06" "LC08_E" "/data/in5") (VStr "LC08_E")
           eq_refl eq_refl ltac:(lia) eq_refl eq_refl))).
  right. discriminate.
Defined.

(** In the table of numbers the integer of the first row, [2^53 + 1],
    is read as the float [2^53]. *)
Example get_value_numeric_frame :
  get_value {| csv_file_path := "in.csv"; data := Some table_numeric |}
            "General_Input" "G2" 2
    = Ok (Some (VFloat (float_lit 9007199254740992))).
Proof. by vm_compute. Qed.

(** X2: what is not there is [None], not an error.  For a reference
    whose letter resolves to a column name, a display row below 2 or
    above [n + 1], or a column name that the file does not have, gives
    [None]. *)
Theorem get_value_absent (self : CSVInputHandler) (df : DataFrame)
  (sheet_name : string) (c : ascii) (rest col_name : string) (row_index : Z) :
  data self = Some df ->
  column_name df sheet_name c = Ok (Some col_name) ->
  row_index < 2 \/ len_df df + 2 <= row_index \/ col_name ∉ columns df ->
  get_value self sheet_name (String c rest) row_index = Ok None.
Proof.
  intros Hdata Hcol Habs. unfold get_value. rewrite Hdata, Hcol. f_equal.
  destruct Habs as [H | [H | H]].
  - apply read_cell_out_of_range. by left.
  - apply read_cell_out_of_range. by right.
  - by apply read_cell_missing_column.
Qed.

Lemma get_value_absent_witness :
  get_value {| csv_file_path := "in.csv"; data := Some table5 |}
            "General_Input" "F7" 7 = Ok None /\
  get_value {| csv_file_path := "in.csv"; data := Some table5 |}
            "General_Input" "G2" 2 = Ok None.
Proof.
  split.
  - apply (get_value_absent _ table5 "General_Input" "F" "7" "Name_Landsat_Image" 7);
      [reflexivity | reflexivity |].
    right. left. vm_compute. discriminate.
  - apply (get_value_absent _ table5 "General_Input" "G" "2" "Landsat_nr" 2);
      [reflexivity | reflexivity |].
    right. right. unfold table5, sample_columns. cbn [columns]. intros Hin.
    repeat (apply elem_of_cons in Hin as [Hin | Hin]; [discriminate |]).
    by apply not_elem_of_nil in Hin.
Defined.

Lemma py_index_None {A : Type} (l : list A) (i : Z) :
  py_index l i = None <-> i < - Z.of_nat (length l) \/ Z.of_nat (length l) <= i.
Proof.
  unfold py_index. cbv zeta.
  destruct (Z.leb_spec 0 i) as [H0 | H0];
    destruct (Z.ltb_spec i (Z.of_nat (length l))) as [Hn | Hn]; cbn [andb].
  - rewrite lookup_ge_None. lia.
  - destruct (Z.leb_spec (- Z.of_nat (length l)) i);
      destruct (Z.ltb_spec i 0); cbn [andb]; try lia.
    all: split; [intros _; lia | done].
  - destruct (Z.leb_spec (- Z.of_nat (length l)) i);
      destruct (Z.ltb_spec i 0); cbn [andb]; try lia.
    + rewrite lookup_ge_None. lia.
    + split; [intros _; lia | done].
  - lia.
Qed.

(** X3: when [get_value] raises.  It raises exactly when the data is
    loaded and the reference is the empty string ([IndexError] of
    [cell_ref[0]]), or its first character is the sharp s, which [upper]
    turns into two letters ([TypeError] of [ord]), or its first character
    stands before ['A'] by more than the number of columns ([IndexError]
    of [self.data.columns[col_index]], with the index and the size in its
    text).  All three happen before the [try]. *)
Theorem get_value_raises_iff (self : CSVInputHandler) (sheet_name cell_ref : string)
  (row_index : Z) (e : exn) :
  get_value self sheet_name cell_ref row_index = Raise e <->
  exists df,
    data self = Some df /\
    ((cell_ref = "" /\ e = IndexError "string index out of range") \/
     (exists c rest,
        cell_ref = String c rest /\
        ((c = sharp_s /\
          e = TypeError "ord() expected a character, but string of length 2 found") \/
         (ord c - ord "A" < - Z.of_nat (length (columns df)) /\
          e = IndexError ("index " +:+ pretty (ord c - ord "A")
                          +:+ " is out of bounds for axis 0 with size "
                          +:+ pretty (length (columns df))))))).
Proof.
  unfold get_value. destruct (data self) as [df |].
  2: { split; [discriminate | intros (df & [=] & _)]. }
  destruct cell_ref as [| c rest].
  { split.
    - intros [= <-]. exists df. split; [done |]. by left.
    - intros (df' & _ & [[_ ->] | (c & rest & [=] & _)]). done. }
  assert (ord sharp_s = 223) as Hsharp by reflexivity.
  assert (ord "A" = 65) as HA by reflexivity.
  assert (ord "P" = 80) as HP by reflexivity.
  unfold column_name.
  destruct (sheet_mapping sheet_name !! String c EmptyString) as [name |] eqn:Hmap.
  { apply sheet_mapping_capital in Hmap. split; [discriminate |].
    intros (df' & _ & [[[=] _] | (c' & rest' & [= <- <-] & [[-> _] | [Hneg _]])]);
      lia. }
  destruct (Z.lt_ge_cases (ord c) (ord "A")) as [Hlow | Hhigh].
  - rewrite (ord_str_upper_below_A c Hlow). cbv zeta.
    destruct (Z.ltb_spec (ord c - ord "A") (Z.of_nat (length (columns df))))
      as [Hlt | Hge]; [| lia].
    destruct (py_index (columns df) (ord c - ord "A")) as [name |] eqn:Hidx.
    + split; [discriminate |].
      intros (df' & [= <-] & [[[=] _] | (c' & rest' & [= <- <-] & [[-> _] | [Hneg _]])]);
        [lia |].
      assert (py_index (columns df) (ord c - ord "A") = None) as Hnone
        by (apply py_index_None; lia).
      congruence.
    + apply py_index_None in Hidx. split.
      * intros [= <-]. exists df. split; [done |]. right.
        exists c, rest. split; [done |]. right. split; [lia | done].
      * intros (df' & [= <-] & [[[=] _] | (c' & rest' & [= <- <-] & [[-> _] | [_ ->]])]);
          [lia | done].
  - destruct (ord_str_upper_from_A c Hhigh) as [[-> ->] | (Hc & n & -> & Hn)].
    + split.
      * intros [= <-]. exists df. split; [done |]. right.
        exists sharp_s, rest. split; [done |]. by left.
      * intros (df' & [= <-] & [[[=] _] | (c' & rest' & [= <- <-] & [[_ ->] | [Hneg _]])]);
          [done | lia].
    + cbv zeta. split.
      * destruct (Z.ltb_spec (n - ord "A") (Z.of_nat (length (columns df))))
          as [Hlt | Hge]; [| discriminate].
        rewrite py_index_nonneg by lia.
        destruct (columns df !! Z.to_nat (n - ord "A")) as [name |] eqn:E;
          [discriminate |].
        apply lookup_ge_None in E. lia.
      * intros (df' & [= <-] & [[[=] _] | (c' & rest' & [= <- <-] & [[Heq _] | [Hneg _]])]);
          [done | lia].
Qed.

(** On the sample table of seven columns: the sharp s, and the digit 5,
    which stands twelve places before ["A"]. *)
Example get_value_raises_sample :
  get_value {| csv_file_path := "in.csv"; data := Some table2 |}
            "General_Input" (String sharp_s "2") 2
    = Raise (TypeError "ord() expected a character, but string of length 2 found") /\
  get_value {| csv_file_path := "in.csv"; data := Some table2 |}
            "General_Input" "52" 2
    = Raise (IndexError "index -12 is out of bounds for axis 0 with size 7").
Proof. split; reflexivity. Qed.

(** X4: a first character before ['A'] counts columns from the end.  Such
    a character is in no table; if its distance [k] below ['A'] is at most
    the number of columns, the reference resolves to the column at
    position [n - k] of the file, silently, and its cell is read. *)
Theorem get_value_negative_position (self : CSVInputHandler) (df : DataFrame)
  (sheet_name : string) (c : ascii) (rest : string) (row_index : Z) :
  data self = Some df ->
  - Z.of_nat (length (columns df)) <= ord c - ord "A" < 0 ->
  exists col_name,
    columns df !! Z.to_nat (Z.of_nat (length (columns df)) + (ord c - ord "A"))
      = Some col_name /\
    get_value self sheet_name (String c rest) row_index
      = Ok (read_cell df col_name row_index).
Proof.
  intros Hdata Hk. unfold get_value, column_name. rewrite Hdata.
  destruct (sheet_mapping sheet_name !! String c EmptyString) as [name |] eqn:Hmap.
  { apply sheet_mapping_capital in Hmap. lia. }
  rewrite ord_str_upper_below_A by lia. cbv zeta.
  replace (ord c - ord "A" <? Z.of_nat (length (columns df))) with true
    by (symmetry; apply Z.ltb_lt; lia).
  unfold py_index. cbv zeta.
  replace (0 <=? ord c - ord "A") with false
    by (symmetry; apply Z.leb_gt; lia).
  replace (- Z.of_nat (length (columns df)) <=? ord c - ord "A") with true
    by (symmetry; apply Z.leb_le; lia).
  replace (ord c - ord "A" <? 0) with true
    by (symmetry; apply Z.ltb_lt; lia).
  cbn [andb].
  destruct (columns df !! Z.to_nat (Z.of_nat (length (columns df))
                                     + (ord c - ord "A")))
    as [name |] eqn:E.
  - exists name. done.
  - apply lookup_ge_None in E. lia.
Qed.

(** The character [">"] stands three places before ["A"]: on the sample
    table of seven columns it reads the fifth, [DEM_fileName]. *)
Lemma get_value_negative_position_witness :
  exists col_name,
    columns table2 !! Z.to_nat (Z.of_nat (length (columns table2))
                                + (ord ">" - ord "A")) = Some col_name /\
    get_value {| csv_file_path := "in.csv"; data := Some table2 |}
              "General_Input" ">2" 2 = Ok (read_cell table2 col_name 2).
Proof.
  apply (get_value_negative_position _ table2 "General_Input" ">" "2" 2);
    [reflexivity |].
  vm_compute. split; [discriminate | reflexivity].
Defined.

(** X5: the sheet name matters only for ['Meteo_Input'].  Two sheet
    names other than that one give the same value for every reference
    and row: [Landsat_Input], [Soil_Input] and any unknown sheet read the
    columns of [General_Input]. *)
Theorem get_value_sheet_name (self : CSVInputHandler) (sheet1 sheet2 cell_ref : string)
  (row_index : Z) :
  sheet1 <> "Meteo_Input" ->
  sheet2 <> "Meteo_Input" ->
  get_value self sheet1 cell_ref row_index = get_value self sheet2 cell_ref row_index.
Proof.
  intros H1 H2. unfold get_value, column_name.
  by rewrite !sheet_mapping_general.
Qed.

Lemma get_value_sheet_name_witness :
  get_value {| csv_file_path := "in.csv"; data := Some table2 |}
            "Landsat_Input" "B2" 2
  = get_value {| csv_file_path := "in.csv"; data := Some table2 |}
              "General_Input" "B2" 2.
Proof. apply get_value_sheet_name; discriminate. Defined.

Lemma sheet_mapping_lower (sheet_name : string) (c : ascii) :
  is_lower c = true -> sheet_mapping sheet_name !! String c EmptyString = None.
Proof.
  unfold sheet_mapping.
  destruct (decide (sheet_name = "Meteo_Input")) as [_ | _];
    destruct c as [[] [] [] [] [] [] [] []]; vm_compute;
    first [discriminate | reflexivity].
Qed.

Lemma is_lower_letter (c : ascii) : is_lower c = true -> is_letter c = true.
Proof.
  unfold is_lower, is_letter. cbv zeta. intros ->. apply orb_true_r.
Qed.

(** X6: the alias tables know capital letters only.  A reference that
    starts with a lowercase letter is never looked up in a table: under
    every sheet it reads the column at the letter's position in the file
    (a = first column), or gives [None] past the last column. *)
Theorem get_value_lowercase (self : CSVInputHandler) (df : DataFrame)
  (sheet_name : string) (c : ascii) (rest : string) (row_index : Z) :
  data self = Some df ->
  is_lower c = true ->
  get_value self sheet_name (String c rest) row_index =
    match columns df !! letter_position c with
    | Some col_name => Ok (read_cell df col_name row_index)
    | None => Ok None
    end.
Proof.
  intros Hdata Hc. unfold get_value. rewrite Hdata.
  rewrite column_name_positional
    by (by apply is_lower_letter || by apply sheet_mapping_lower).
  by destruct (columns df !! letter_position c).
Qed.

(** Under [Meteo_Input] the capital [B] is [Temp_inst]; the lowercase [b]
    is the second column of the file, [input_folder]. *)
Lemma get_value_lowercase_witness :
  get_value {| csv_file_path := "in.csv"; data := Some table2 |}
            "Meteo_Input" "b3" 3 = Ok (Some (VStr "/data/in2")).
Proof.
  rewrite (get_value_lowercase {| csv_file_path := "in.csv"; data := Some table2 |}
             table2 "Meteo_Input" "b" "3" 3 eq_refl eq_refl).
  reflexivity.
Defined.

(** ** [MockCell]: the row index and the cache *)

(** X7: [set_row_index] works on a cell that has not been read, and only
    there.  A fresh cell whose row index is set reads its value at that
    row; a cell that holds a cached value (any earlier read that found
    one) returns it whatever row index is set afterwards. *)
Theorem MockCell_row_index_and_cache :
  (forall sheet_name cell_ref csv_handler row_index,
     fst (MockCell_value (set_row_index
                            (MockCell_init sheet_name cell_ref csv_handler)
                            row_index))
     = get_value csv_handler sheet_name cell_ref row_index) /\
  (forall cell v row_index,
     fst (MockCell_value cell) = Ok (Some v) ->
     fst (MockCell_value (set_row_index (snd (MockCell_value cell)) row_index))
     = Ok (Some v)).
Proof.
  split.
  - intros sheet_name ref csv_handler row.
    unfold MockCell_value, set_row_index, MockCell_init.
    cbn [_value cell_csv_handler cell_sheet_name cell_ref row_index].
    by destruct (get_value csv_handler sheet_name ref row).
  - intros cell v row. unfold MockCell_value at 1 3.
    destruct (_value cell) as [w |] eqn:Hcache.
    + cbn [fst snd]. intros [= <-].
      unfold MockCell_value, set_row_index. cbn [_value]. by rewrite Hcache.
    + destruct (get_value _ _ _ _) as [[w |] | e]; cbn [fst snd];
        intros [= <-].
      unfold MockCell_value, set_row_index. by cbn [_value].
Qed.

(** The cell [B] of the sample table, read at row 2 and then set to
    row 3: the value of row 2 stays. *)
Lemma MockCell_row_index_and_cache_witness :
  let cell := MockCell_init "General_Input" "B"
                {| csv_file_path := "in.csv"; data := Some table2 |} in
  fst (MockCell_value (set_row_index (snd (MockCell_value cell)) 3))
  = Ok (Some (VStr "/data/in")).
Proof.
  apply (proj2 MockCell_row_index_and_cache). reflexivity.
Defined.

(** ** [run_timeseries_processing]: counters and rows outside the table *)

Section Batch.

Context {X : Type}.
Variable SEBALcode : Z -> string -> World X -> result pyobj * World X.

(** X8: the counters agree with the report.  After the loop
    [successful_runs] and [failed_runs] are the numbers of [Success] and
    [Failed] entries of [results], their sum is the number of entries,
    and that is the size of the range, [max 0 (min end_row n - start_row + 1)]. *)
Theorem run_timeseries_counts (df : DataFrame) (csv_file : string)
  (start_row : Z) (end_row : option Z) (st : St X) :
  let l := fst (run_timeseries_rows SEBALcode df csv_file start_row end_row st) in
  successful_runs l = count_status Success (results l) /\
  failed_runs l = count_status Failed (results l) /\
  successful_runs l + failed_runs l = Z.of_nat (length (results l)) /\
  Z.of_nat (length (results l))
    = Z.max 0 (clamp_end_row (len_df df) end_row - start_row + 1).
Proof.
  intros l.
  pose proof (run_timeseries_rows_report SEBALcode df csv_file start_row end_row st)
    as (Hnum & Hs & Hf).
  fold l in Hnum, Hs, Hf.
  pose proof (count_status_total (results l)) as Htot.
  repeat split; [done | done | lia |].
  rewrite <- (length_map o_run_number), Hnum, length_map, py_range_length. lia.
Qed.

Lemma iloc_negative (df : DataFrame) (i : Z) :
  - len_df df <= i < 0 ->
  exists r, rows df !! Z.to_nat (len_df df + i) = Some r /\
            iloc df i = Ok (row_series df r).
Proof.
  intros Hi. unfold iloc, py_index, len_df in *. cbv zeta.
  replace (0 <=? i) with false by (symmetry; apply Z.leb_gt; lia).
  replace (- Z.of_nat (length (rows df)) <=? i) with true
    by (symmetry; apply Z.leb_le; lia).
  replace (i <? 0) with true by (symmetry; apply Z.ltb_lt; lia).
  cbn [andb].
  destruct (rows df !! Z.to_nat (Z.of_nat (length (rows df)) + i)) as [r |] eqn:E;
    [eauto |].
  apply lookup_ge_None in E. lia.
Qed.

Lemma iloc_below (df : DataFrame) (i : Z) :
  i < - len_df df ->
  iloc df i = Raise (IndexError "single positional indexer is out-of-bounds").
Proof.
  intros Hi. unfold iloc.
  replace (py_index (rows df) i) with (@None (list value)); [done |].
  symmetry. apply py_index_None. unfold len_df in Hi. lia.
Qed.

(** X9: a start row of 0 or less is not refused, and an index from [-n]
    to [-1] counts rows from the end.  The turn for such an index [i]
    reads the row at position [n + i], records it under the run number
    [i + 1] (0 or less) and calls the model with display row [i + 2]. *)
Theorem run_timeseries_row_wraps (df : DataFrame) (csv_file : string)
  (l : Locals) (st : St X) (i : Z) :
  - len_df df <= i < 0 ->
  let out := run_timeseries_row SEBALcode df csv_file (len_df df) (l, st) i in
  exists r o,
    rows df !! Z.to_nat (len_df df + i) = Some r /\
    results (fst out) = results l ++ [o] /\
    o_run_number o = i + 1 /\
    o_date o = series_get (row_series df r) "Date_Acquired" (VStr "Unknown") /\
    o_image o = series_get (row_series df r) "Name_Landsat_Image" (VStr "Unknown") /\
    calls (snd out) = calls st ++ [(i + 2, csv_file)].
Proof.
  intros Hi out. destruct (iloc_negative df i Hi) as (r & Hr & Hiloc).
  exists r. subst out. unfold run_timeseries_row. rewrite Hiloc.
  unfold call_SEBALcode. cbn [print world calls stdout].
  destruct (SEBALcode (i + 2) csv_file (world st)) as [[res | e] w];
    eexists; cbn; repeat split; done.
Qed.

Lemma run_timeseries_row_below (df : DataFrame) (csv_file : string)
  (l : Locals) (st : St X) (j : Z) :
  j < - len_df df ->
  run_timeseries_row SEBALcode df csv_file (len_df df) (l, st) j
  = run_failed (j + 1) (IndexError "single positional indexer is out-of-bounds") l st.
Proof. intros Hj. unfold run_timeseries_row. by rewrite iloc_below. Qed.

Lemma fold_rows_below (df : DataFrame) (csv_file : string) (L : list Z)
  (l : Locals) (st : St X) :
  (forall j, j ∈ L -> j < - len_df df) ->
  date_acquired (fst (fold_left (run_timeseries_row SEBALcode df csv_file (len_df df))
                                L (l, st))) = date_acquired l /\
  image_name (fst (fold_left (run_timeseries_row SEBALcode df csv_file (len_df df))
                             L (l, st))) = image_name l /\
  output_folder (fst (fold_left (run_timeseries_row SEBALcode df csv_file (len_df df))
                                L (l, st))) = output_folder l /\
  calls (snd (fold_left (run_timeseries_row SEBALcode df csv_file (len_df df))
                        L (l, st))) = calls st.
Proof.
  revert l st. induction L as [| j L IH]; intros l st HL; cbn [fold_left]; [done |].
  rewrite run_timeseries_row_below by (apply HL; apply list_elem_of_here).
  unfold run_failed. cbv zeta.
  match goal with
  | |- context [fold_left _ L (?l', ?st')] =>
      destruct (IH l' st') as (H1 & H2 & H3 & H4);
        [intros k Hk; apply HL; by apply list_elem_of_further |]
  end.
  rewrite H1, H2, H3, H4. done.
Qed.

(** X10: below the table.  An index of the range under [-n] reads no row:
    its entry, in its place in the report, is [Failed] with the text of
    the [IndexError] of [df.iloc] and ['Unknown'] for date, image and
    output folder (no name is bound yet, lower indices come first), and
    the model is not called for it. *)
Theorem run_timeseries_below_table (df : DataFrame) (csv_file : string)
  (start_row : Z) (end_row : option Z) (st : St X) (i : Z) :
  start_row - 1 <= i < clamp_end_row (len_df df) end_row ->
  i < - len_df df ->
  results (fst (run_timeseries_rows SEBALcode df csv_file start_row end_row st))
    !! Z.to_nat (i - (start_row - 1))
  = Some {| o_run_number := i + 1;
            o_date := VStr "Unknown";
            o_image := VStr "Unknown";
            o_output_folder := VStr "Unknown";
            o_status := Failed;
            o_error := Some "single positional indexer is out-of-bounds" |} /\
  (forall l' st', calls (snd (run_timeseries_row SEBALcode df csv_file (len_df df)
                                (l', st') i)) = calls st').
Proof.
  intros Hi Hbelow. split.
  2: { intros l' st'. by rewrite run_timeseries_row_below. }
  unfold run_timeseries_rows. cbv zeta.
  rewrite (py_range_split (start_row - 1) (clamp_end_row (len_df df) end_row) i)
    by done.
  rewrite fold_left_app. cbn [fold_left].
  match goal with
  | |- context [fold_left ?f (py_range (start_row - 1) i) (Locals_init, ?s0)] =>
      pose proof (fold_rows_results SEBALcode df csv_file
                    (py_range (start_row - 1) i) Locals_init s0)
        as (t1 & Ht1 & Hn1 & _);
      pose proof (fold_rows_below df csv_file (py_range (start_row - 1) i)
                    Locals_init s0) as Hb;
      destruct (fold_left f (py_range (start_row - 1) i) (Locals_init, s0))
        as [l1 st1] eqn:E1
  end.
  destruct Hb as (Hd & Him & Ho & _);
    [intros j Hj; apply elem_of_py_range in Hj; lia |].
  cbn [fst snd Locals_init results app date_acquired image_name output_folder]
    in Ht1, Hd, Him, Ho.
  rewrite run_timeseries_row_below by done.
  unfold run_failed. cbv zeta.
  match goal with
  | |- context [fold_left _ (py_range (i + 1) ?e) (?l2, ?st2)] =>
      destruct (fold_rows_results SEBALcode df csv_file (py_range (i + 1) e) l2 st2)
        as (tail & Htail & _)
  end.
  rewrite Htail. cbn [results]. rewrite Ht1, Hd, Him, Ho, <- app_assoc.
  cbn [app default].
  apply list_lookup_middle.
  rewrite <- (length_map o_run_number t1), Hn1, length_map, py_range_length.
  f_equal; lia.
Qed.

(** X11: only an exception is a failure.  Whatever object the model
    returns for a row of the table, [False] included, the run is recorded
    as [Success] with no error and counted among the successful runs. *)
Theorem run_timeseries_return_value_ignored (df : DataFrame) (csv_file : string)
  (l : Locals) (st : St X) (i : Z) (v : pyobj) :
  0 <= i < len_df df ->
  fst (SEBALcode (i + 2) csv_file (world st)) = Ok v ->
  let out := run_timeseries_row SEBALcode df csv_file (len_df df) (l, st) i in
  exists o,
    results (fst out) = results l ++ [o] /\
    o_run_number o = i + 1 /\ o_status o = Success /\ o_error o = None /\
    successful_runs (fst out) = successful_runs l + 1 /\
    failed_runs (fst out) = failed_runs l.
Proof.
  intros Hi Hv out. destruct (iloc_in_table df i Hi) as (r & _ & Hr).
  subst out. unfold run_timeseries_row. rewrite Hr.
  unfold call_SEBALcode. cbn [print world calls stdout].
  destruct (SEBALcode (i + 2) csv_file (world st)) as [res w].
  cbn [fst] in Hv. subst res. eexists. cbn. repeat split; done.
Qed.

(** X12: [run_timeseries_CSV] counts a run as successful when the
    wrapper cannot read the file.  The wrapper then returns [False]
    without calling the model, the loop ignores the returned value, and
    the row goes to [successful_runs]. *)
Theorem run_timeseries_CSV_unreadable_is_success (csv_handler : CSVInputHandler)
  (csv_file_path : string) (total_rows s f : Z) (st : St X) (row_num : Z) (e : exn) :
  files (world st) csv_file_path = Raise e ->
  let out := run_timeseries_CSV_row SEBALcode csv_handler csv_file_path total_rows
               ((s, f), st) row_num in
  fst out = (s + 1, f) /\
  calls (snd out) = calls st /\
  world (snd out) = world st.
Proof.
  intros Hf out. subst out. unfold run_timeseries_CSV_row.
  destruct (run_info_returns csv_handler row_num) as (d & im & ->).
  match goal with
  | |- context [SEBALcode_CSV_wrapper _ _ _ ?s0] =>
      rewrite (SEBALcode_CSV_wrapper_not_loaded SEBALcode row_num csv_file_path s0 e)
        by done
  end.
  done.
Qed.

(** X13: exit status 0 is earned.  If [main] exits with 0 then the file
    named on the command line exists, was read, has every required
    column, the row arguments were integers, and at least one run of the
    batch is recorded as [Success]. *)
Theorem main_exit_0 (argv : list string) (st : St X) :
  fst (main SEBALcode argv st) = 0 ->
  exists csv_file df start_row end_row,
    argv !! 1%nat = Some csv_file /\
    path_exists (world st) csv_file = true /\
    files (world st) csv_file = Ok df /\
    required_columns ⊆ columns df /\
    start_row_arg argv = Some start_row /\
    end_row_arg argv = Some end_row /\
    exists o,
      o ∈ results (fst (run_timeseries_rows SEBALcode df csv_file start_row end_row
                          (validated csv_file df st))) /\
      o_status o = Success.
Proof.
  unfold main.
  destruct (argv !! 1%nat) as [csv_file |]; [| discriminate].
  destruct (path_exists (world st) csv_file) eqn:Hp; cbn [negb]; [| discriminate].
  destruct (start_row_arg argv) as [start_row |]; [| discriminate].
  destruct (end_row_arg argv) as [end_row |]; [| discriminate].
  destruct (files (world st) csv_file) as [df | e] eqn:Hf.
  2: { unfold run_timeseries_processing, validate_csv_input.
       cbn [print world]. rewrite Hf. discriminate. }
  destruct (decide (required_columns ⊆ columns df)) as [Hall | Hmiss].
  2: { rewrite (run_timeseries_processing_missing SEBALcode csv_file df) by done.
       discriminate. }
  rewrite (run_timeseries_processing_valid SEBALcode csv_file df) by done.
  set (l := fst (run_timeseries_rows SEBALcode df csv_file start_row end_row
                   (validated csv_file df st))).
  intros Hexit. exists csv_file, df, start_row, end_row.
  repeat (split; [done |]).
  pose proof (run_timeseries_rows_report SEBALcode df csv_file start_row end_row
                (validated csv_file df st)) as (_ & Hs & _).
  fold l in Hs |- *. apply count_status_pos. rewrite <- Hs.
  unfold run_timeseries_summary in Hexit.
  destruct (successful_runs l + failed_runs l =? 0); [discriminate |].
  cbn [fst snd] in Hexit.
  destruct (Z.ltb_spec 0 (successful_runs l)); [done | discriminate].
Qed.

End Batch.

(** Start row 0 on the sample table of two rows: the first turn has
    index -1 and reads the last row. *)
Lemma run_timeseries_row_wraps_witness :
  let out := run_timeseries_row model_ok table2 "in.csv" (len_df table2)
               (Locals_init, St_init (world_of table2 None)) (-1) in
  exists r o,
    rows table2 !! Z.to_nat (len_df table2 + -1) = Some r /\
    results (fst out) = results Locals_init ++ [o] /\
    o_run_number o = -1 + 1 /\
    o_date o = series_get (row_series table2 r) "Date_Acquired" (VStr "Unknown") /\
    o_image o = series_get (row_series table2 r) "Name_Landsat_Image"
                           (VStr "Unknown") /\
    calls (snd out) = calls (St_init (world_of table2 None)) ++ [(-1 + 2, "in.csv")].
Proof.
  apply (run_timeseries_row_wraps model_ok table2 "in.csv" Locals_init
           (St_init (world_of table2 None)) (-1)).
  vm_compute. split; [discriminate | reflexivity].
Defined.

(** Start row -3 on the sample table of two rows: the first index, -4,
    is below the table. *)
Lemma run_timeseries_below_table_witness :
  results (fst (run_timeseries_rows model_ok table2 "in.csv" (-3) None
                  (St_init (world_of table2 None)))) !! 0%nat
  = Some {| o_run_number := -3;
            o_date := VStr "Unknown";
            o_image := VStr "Unknown";
            o_output_folder := VStr "Unknown";
            o_status := Failed;
            o_error := Some "single positional indexer is out-of-bounds" |}.
Proof.
  apply (proj1 (run_timeseries_below_table model_ok table2 "in.csv" (-3) None
                  (St_init (world_of table2 None)) (-4)
                  ltac:(vm_compute; split; [discriminate | reflexivity])
                  ltac:(vm_compute; reflexivity))).
Defined.

Lemma run_timeseries_return_value_ignored_witness :
  let out := run_timeseries_row model_returns_False table2 "in.csv" (len_df table2)
               (Locals_init, St_init (world_of table2 None)) 0 in
  exists o,
    results (fst out) = results Locals_init ++ [o] /\
    o_run_number o = 0 + 1 /\ o_status o = Success /\ o_error o = None /\
    successful_runs (fst out) = successful_runs Locals_init + 1 /\
    failed_runs (fst out) = failed_runs Locals_init.
Proof.
  apply (run_timeseries_return_value_ignored model_returns_False table2 "in.csv"
           Locals_init (St_init (world_of table2 None)) 0 (PyVal (VBool false))).
  - vm_compute. split; [discriminate | reflexivity].
  - reflexivity.
Defined.

(** The handler was loaded from the sample table; by the time of the run
    the file cannot be read. *)
Lemma run_timeseries_CSV_unreadable_is_success_witness :
  let out := run_timeseries_CSV_row model_raises
               {| csv_file_path := "in.csv"; data := Some table2 |} "in.csv" 2
               ((0, 0), St_init world_unreadable) 0 in
  fst out = (0 + 1, 0) /\
  calls (snd out) = calls (St_init world_unreadable) /\
  world (snd out) = world (St_init world_unreadable).
Proof.
  apply (run_timeseries_CSV_unreadable_is_success model_raises
           {| csv_file_path := "in.csv"; data := Some table2 |} "in.csv" 2 0 0
           (St_init world_unreadable) 0
           (Exn "FileNotFoundError" "No such file or directory")).
  reflexivity.
Defined.

Lemma main_exit_0_witness :
  exists csv_file df start_row end_row,
    ["run_timeseries.py"; "in.csv"] !! 1%nat = Some csv_file /\
    path_exists (world (St_init (world_of table5 None))) csv_file = true /\
    files (world (St_init (world_of table5 None))) csv_file = Ok df /\
    required_columns ⊆ columns df /\
    start_row_arg ["run_timeseries.py"; "in.csv"] = Some start_row /\
    end_row_arg ["run_timeseries.py"; "in.csv"] = Some end_row /\
    exists o,
      o ∈ results (fst (run_timeseries_rows model_raises_on_4 df csv_file start_row
                          end_row
                          (validated csv_file df (St_init (world_of table5 None))))) /\
      o_status o = Success.
Proof.
  apply (main_exit_0 model_raises_on_4 ["run_timeseries.py"; "in.csv"]
           (St_init (world_of table5 None))).
  vm_compute. reflexivity.
Defined.

(** ** pysebal_csv.py: dictionaries, the date filter and the runs *)

Lemma list_to_map_zip_lookup (index : list string) (vals : list value)
  (key : string) :
  (list_to_map (zip index vals) : gmap string value) !! key
  = series_lookup index vals key.
Proof.
  revert vals. induction index as [| k index IH]; intros [| v vals];
    cbn [zip zip_with list_to_map foldr series_lookup]; try apply lookup_empty.
  cbn [uncurry fst snd]. rewrite lookup_insert.
  destruct (decide (k = key)); [done | apply IH].
Qed.

Lemma elem_of_fst_zip (index : list string) (vals : list value) (k : string) :
  k ∈ (zip index vals).*1 -> k ∈ index.
Proof.
  revert vals. induction index as [| k' index IH]; intros [| v vals];
    cbn [zip zip_with fmap list_fmap fst]; try (intros H; by apply not_elem_of_nil in H).
  intros [-> | H]%elem_of_cons; [apply list_elem_of_here |].
  apply list_elem_of_further. eauto.
Qed.

Lemma NoDup_fst_zip (index : list string) (vals : list value) :
  NoDup index -> NoDup (zip index vals).*1.
Proof.
  intros Hnd. revert vals. induction Hnd as [| k index Hk Hnd IH]; intros [| v vals];
    cbn [zip zip_with fmap list_fmap fst]; try apply NoDup_nil_2.
  apply NoDup_cons. split; [| apply IH].
  intros Hin. apply Hk. by eapply elem_of_fst_zip.
Qed.

Lemma forallb_false_elem_of {A : Type} (f : A -> bool) (l : list A) :
  forallb f l = false -> exists x, x ∈ l /\ f x = false.
Proof.
  induction l as [| a l IH]; [discriminate |]. cbn [forallb].
  destruct (f a) eqn:Ha; cbn [andb].
  - intros (x & Hx & Hf)%IH. exists x. split; [by apply list_elem_of_further | done].
  - intros _. exists a. split; [apply list_elem_of_here | done].
Qed.

Lemma forallb_Forall {A : Type} (f : A -> bool) (l : list A) :
  forallb f l = true <-> Forall (fun x => f x = true) l.
Proof.
  rewrite forallb_forall, Forall_forall.
  split; intros H x Hx; apply H; by apply list_elem_of_In.
Qed.

(** A row is a row of floats exactly when every column is int64 or
    float64 and one of them is float64. *)
Lemma find_common_type_float64 (ds : list dtype) :
  find_common_type ds = float64 <->
  Forall (fun d => is_numeric d = true) ds /\ float64 ∈ ds.
Proof.
  destruct ds as [| d ds]; cbn [find_common_type].
  { split; [discriminate | intros [_ H]; by apply not_elem_of_nil in H]. }
  destruct (forallb (fun d' => bool_decide (d' = d)) ds) eqn:Hall.
  - apply forallb_Forall in Hall. split.
    + intros ->. split; [| apply list_elem_of_here].
      apply Forall_cons. split; [done |].
      eapply Forall_impl; [exact Hall |]. cbn. intros d' Hd'.
      by apply bool_decide_eq_true in Hd' as ->.
    + intros [_ [-> | Hin]%elem_of_cons]; [done |].
      rewrite Forall_forall in Hall. by apply Hall, bool_decide_eq_true in Hin.
  - destruct (forallb is_numeric (d :: ds)) eqn:Hnum.
    + apply forallb_Forall in Hnum. split; [intros _ | done].
      split; [done |].
      apply forallb_false_elem_of in Hall as (d' & Hin & Hne).
      apply bool_decide_eq_false in Hne.
      pose proof (Forall_inv Hnum) as Hd.
      assert (is_numeric d' = true) as Hd'.
      { apply Forall_inv_tail in Hnum. rewrite Forall_forall in Hnum. by apply Hnum. }
      destruct d; try discriminate; [| apply list_elem_of_here].
      destruct d'; try discriminate; [done |].
      by apply list_elem_of_further.
    + split; [discriminate |]. intros [H _].
      apply forallb_Forall in H. congruence.
Qed.

(** With no label twice, the dictionary of a row gives for a label what
    the row gives. *)
Lemma to_dict_lookup (s : Series) (key : string) :
  NoDup (s_index s) ->
  to_dict s !! key = series_lookup (s_index s) (s_values s) key.
Proof.
  intros Hnd. unfold to_dict. rewrite <- list_to_map_zip_lookup. f_equal.
  symmetry. apply list_to_map_proper.
  - by apply NoDup_fst_zip.
  - apply Permutation_rev.
Qed.

Lemma filter_all {A : Type} (P : A -> Prop) `{!forall x, Decision (P x)}
  (l : list A) :
  (forall x, x ∈ l -> P x) -> filter P l = l.
Proof.
  induction l as [| a l IH]; intros Hall; [done |].
  rewrite filter_cons, decide_True by (apply Hall; apply list_elem_of_here).
  f_equal. apply IH. intros x Hx. apply Hall. by apply list_elem_of_further.
Qed.

Section Pysebal_csv.

Context {X : Type}.
Variable SEBALcode_CSV : gmap string value -> World X -> result pyobj * World X.

(** X14: [read_csv_input] keeps the rows, in the dtype of a row.  For a
    readable file whose header has no repeated name it returns one
    dictionary per data row, in file order; it prints nothing and changes
    nothing.  The dictionary of a row maps each column name to the row's
    cell brought to the common dtype of the columns (no key for a name
    that is not in the header): when every column is int64 or float64
    and one is float64, an integer cell arrives as the nearest float;
    in every other frame the cells arrive unchanged. *)
Theorem read_csv_input_rows (csv_file_path : string) (df : DataFrame) (st : St X) :
  files (world st) csv_file_path = Ok df ->
  NoDup (columns df) ->
  exists runs_data,
    read_csv_input csv_file_path st = (Some runs_data, st) /\
    length runs_data = length (rows df) /\
    forall (i : nat) r,
      rows df !! i = Some r ->
      exists run_data,
        runs_data !! i = Some run_data /\
        (forall key,
           run_data !! key
           = astype (find_common_type (dtypes df))
               <$> series_lookup (columns df) r key) /\
        (Forall (fun d => is_numeric d = true) (dtypes df) ->
         float64 ∈ dtypes df ->
         forall key z,
           series_lookup (columns df) r key = Some (VInt z) ->
           run_data !! key = Some (VFloat (float_lit z))) /\
        (~ (Forall (fun d => is_numeric d = true) (dtypes df) /\
            float64 ∈ dtypes df) ->
         forall key, run_data !! key = series_lookup (columns df) r key).
Proof.
  intros Hf Hnd. exists (runs_data_of df). unfold read_csv_input. rewrite Hf.
  split; [done |]. unfold runs_data_of, iterrows.
  split; [by rewrite !length_map |].
  intros i r Hr. exists (to_dict (row_series df r)).
  split; [by rewrite !list_lookup_fmap, Hr |].
  assert (forall key,
            to_dict (row_series df r) !! key
            = astype (find_common_type (dtypes df))
                <$> series_lookup (columns df) r key) as Hkey.
  { intros key. rewrite to_dict_lookup by exact Hnd.
    unfold row_series. cbn [s_index s_values]. apply series_lookup_map. }
  split; [exact Hkey | split].
  - intros Hnum Hfloat key z Hz. rewrite Hkey, Hz.
    by rewrite (proj2 (find_common_type_float64 (dtypes df))).
  - intros Hnot key. rewrite Hkey.
    destruct (series_lookup (columns df) r key) as [v |]; [| done].
    cbn. f_equal.
    destruct (find_common_type (dtypes df)) eqn:Hd; try by destruct v.
    destruct Hnot. by apply find_common_type_float64.
Qed.

(** The loop of [process_timeseries_CSV]: one entry per run dictionary,
    numbered from [i] on, with the identity of its dictionary; an entry
    with an error text has [success = False]. *)
Lemma process_runs_results (total : Z) (runs_data : list (gmap string value))
  (i : Z) (results : list RunResult) (st : St X) :
  let out := process_runs SEBALcode_CSV total runs_data i (results, st) in
  exists tail,
    fst out = results ++ tail /\
    map r_run_number tail = py_range i (i + Z.of_nat (length runs_data)) /\
    map r_identity tail = map identity_of runs_data /\
    Forall (fun r => r_error r <> None -> r_success r = PyVal (VBool false)) tail.
Proof.
  revert i results st. induction runs_data as [| d runs IH]; intros i results st.
  - exists []. cbn. rewrite app_nil_r, py_range_nil by lia. done.
  - cbn [process_runs]. cbv zeta.
    destruct (SEBALcode_CSV d _) as [[res | e] w];
      match goal with
      | |- context [process_runs _ _ _ _ (?rs, ?s0)] =>
          destruct (IH (i + 1) rs s0) as (tail & Hout & Hnum & Hid & Herr)
      end;
      eexists (_ :: tail); rewrite Hout, <- app_assoc;
      (split; [reflexivity |]);
      cbn [map r_run_number r_identity r_date r_image r_output_folder length];
      rewrite Hnum, Hid, (py_range_cons i) by lia;
      (split; [f_equal; f_equal; lia |]); (split; [reflexivity |]);
      constructor; cbn; done.
Qed.

(** X15: without a date filter every row is run once.  For a readable
    file and no effective dates ([None] or the empty string), whatever
    [SEBALcode_CSV] does, [process_timeseries_CSV] returns a list with one
    entry per data row, numbered 1 to [n] in file order, each with the
    date, image and output folder of its row; an entry that carries an
    error text has [success = False]. *)
Theorem process_timeseries_CSV_all_rows (csv_file_path : string) (df : DataFrame)
  (start_date end_date : option string) (st : St X) :
  files (world st) csv_file_path = Ok df ->
  date_given start_date = None ->
  date_given end_date = None ->
  exists results,
    fst (process_timeseries_CSV SEBALcode_CSV csv_file_path start_date end_date st)
      = Ok (Some results) /\
    map r_run_number results = py_range 1 (Z.of_nat (length (rows df)) + 1) /\
    map r_identity results = map identity_of (runs_data_of df) /\
    Forall (fun r => r_error r <> None -> r_success r = PyVal (VBool false)) results.
Proof.
  intros Hf Hs He. unfold process_timeseries_CSV, read_csv_input.
  rewrite Hf, Hs, He.
  match goal with
  | |- context [process_runs _ ?t ?rs ?i (?r0, ?s0)] =>
      destruct (process_runs_results t rs i r0 s0) as (tail & Hout & Hnum & Hid & Herr);
      destruct (process_runs SEBALcode_CSV t rs i (r0, s0)) as [results st']
  end.
  cbn [fst app] in *. subst results. exists tail.
  split; [done |]. split; [| done].
  rewrite Hnum. unfold runs_data_of, iterrows. rewrite !length_map. f_equal. lia.
Qed.

Lemma filter_by_date_text (start_date end_date : option string)
  (runs_data : list (gmap string value)) :
  (forall d, d ∈ runs_data -> exists s, date_of d = VStr s) ->
  filter_by_date start_date end_date runs_data
  = Ok (filter (fun d => in_dates start_date end_date d = true) runs_data).
Proof.
  induction runs_data as [| d runs IH]; intros Htext; [done |].
  cbn [filter_by_date]. cbv zeta.
  rewrite IH by (intros d' Hd'; apply Htext; by apply list_elem_of_further).
  destruct (Htext d (list_elem_of_here _ _)) as [s Hs].
  rewrite filter_cons. unfold in_dates. unfold date_of in Hs. unfold date_of.
  rewrite Hs. unfold value_lt_str, value_gt_str.
  destruct (date_given start_date) as [b |], (date_given end_date) as [b' |];
    repeat match goal with
           | |- context [String.ltb ?x ?y] => destruct (String.ltb x y)
           end;
    cbn [negb andb]; by repeat case_decide.
Qed.

(** X16: the date filter.  When every row has a text in [Date_Acquired],
    [process_timeseries_CSV] runs exactly the rows whose date is not
    before [start_date] and not after [end_date] in the order of strings
    (bounds included, a bound that is [None] or empty does not count), in
    file order, and numbers their entries from 1 again. *)
Theorem process_timeseries_CSV_filtered (csv_file_path : string) (df : DataFrame)
  (start_date end_date : option string) (st : St X) :
  files (world st) csv_file_path = Ok df ->
  (forall d, d ∈ runs_data_of df -> exists s, date_of d = VStr s) ->
  let kept := filter (fun d => in_dates start_date end_date d = true)
                     (runs_data_of df) in
  exists results,
    fst (process_timeseries_CSV SEBALcode_CSV csv_file_path start_date end_date st)
      = Ok (Some results) /\
    map r_identity results = map identity_of kept /\
    map r_run_number results = py_range 1 (Z.of_nat (length kept) + 1).
Proof.
  intros Hf Htext kept. unfold process_timeseries_CSV, read_csv_input.
  rewrite Hf.
  assert (match date_given start_date, date_given end_date with
          | None, None => Ok (runs_data_of df)
          | _, _ => filter_by_date start_date end_date (runs_data_of df)
          end = Ok kept) as ->.
  { pose proof (filter_by_date_text start_date end_date (runs_data_of df) Htext)
      as Hfilter.
    destruct (date_given start_date) eqn:Hs, (date_given end_date) eqn:He;
      try exact Hfilter.
    f_equal. subst kept. symmetry. apply filter_all.
    intros d Hd. destruct (Htext d Hd) as [s Hds].
    unfold in_dates. by rewrite Hds, Hs, He. }
  match goal with
  | |- context [process_runs _ ?t ?rs ?i (?r0, ?s0)] =>
      destruct (process_runs_results t rs i r0 s0) as (tail & Hout & Hnum & Hid & _);
      destruct (process_runs SEBALcode_CSV t rs i (r0, s0)) as [results st']
  end.
  cbn [fst app] in *. subst results. exists tail.
  split; [done |]. split; [done |].
  rewrite Hnum. f_equal. lia.
Qed.

Lemma filter_by_date_not_text (start_date end_date : option string)
  (runs_data : list (gmap string value)) :
  date_given start_date <> None \/ date_given end_date <> None ->
  (exists d, d ∈ runs_data /\ forall s, date_of d <> VStr s) ->
  exists e, filter_by_date start_date end_date runs_data = Raise e /\
            exn_class e = "TypeError".
Proof.
  intros Hgiven. induction runs_data as [| d runs IH]; intros (d' & Hd' & Hnot).
  { by apply not_elem_of_nil in Hd'. }
  cbn [filter_by_date]. cbv zeta. fold (date_of d).
  destruct (date_of d) as [s | z | f | b] eqn:Hdate.
  - assert (exists d0, d0 ∈ runs /\ forall s0, date_of d0 <> VStr s0) as Hrest.
    { apply elem_of_cons in Hd' as [-> | Hd']; [| eauto].
      exfalso. by apply (Hnot s). }
    destruct (IH Hrest) as (e & -> & He).
    unfold value_lt_str, value_gt_str.
    destruct (date_given start_date), (date_given end_date);
      repeat match goal with
             | |- context [String.ltb ?x ?y] => destruct (String.ltb x y)
             end; eauto.
  - unfold value_lt_str, value_gt_str.
    destruct (date_given start_date), (date_given end_date); eauto.
    destruct Hgiven; done.
  - unfold value_lt_str, value_gt_str.
    destruct (date_given start_date), (date_given end_date); eauto.
    destruct Hgiven; done.
  - unfold value_lt_str, value_gt_str.
    destruct (date_given start_date), (date_given end_date); eauto.
    destruct Hgiven; done.
Qed.

(** X17: an empty date breaks the filter.  With a start or an end date
    given, a single row whose [Date_Acquired] is not text (an empty cell,
    a number) makes the comparison raise a [TypeError] that
    [process_timeseries_CSV] does not catch: the call raises before any
    run, with the state as it was. *)
Theorem process_timeseries_CSV_date_type_error (csv_file_path : string)
  (df : DataFrame) (start_date end_date : option string) (st : St X) :
  files (world st) csv_file_path = Ok df ->
  date_given start_date <> None \/ date_given end_date <> None ->
  (exists d, d ∈ runs_data_of df /\ forall s, date_of d <> VStr s) ->
  exists e,
    process_timeseries_CSV SEBALcode_CSV csv_file_path start_date end_date st
      = (Raise e, st) /\
    exn_class e = "TypeError".
Proof.
  intros Hf Hgiven Hbad. unfold process_timeseries_CSV, read_csv_input.
  rewrite Hf.
  destruct (filter_by_date_not_text start_date end_date (runs_data_of df)
              Hgiven Hbad) as (e & Hraise & Hclass).
  exists e. split; [| done].
  destruct (date_given start_date), (date_given end_date);
    try (by rewrite Hraise).
  destruct Hgiven; done.
Qed.

End Pysebal_csv.

Lemma table2_dates_text :
  forall d, d ∈ runs_data_of table2 -> exists s, date_of d = VStr s.
Proof.
  unfold runs_data_of, table2. cbn [map rows]. intros d Hd.
  repeat (apply elem_of_cons in Hd as [-> | Hd]; [eexists; by vm_compute |]).
  by apply not_elem_of_nil in Hd.
Qed.

(** The table of numbers: its first row arrives with [2^53] for the
    integer [2^53 + 1]. *)
Lemma read_csv_input_rows_witness :
  exists runs_data run_data,
    read_csv_input "in.csv" (St_init (world_of table_numeric None))
      = (Some runs_data, St_init (world_of table_numeric None)) /\
    length runs_data = 2%nat /\
    runs_data !! 0%nat = Some run_data /\
    run_data !! "Landsat_nr" = Some (VFloat (float_lit 9007199254740992)) /\
    run_data !! "Temp_inst" = Some (VFloat (float_lit 25)).
Proof.
  assert (NoDup (columns table_numeric)) as Hnd
    by (apply (bool_decide_unpack _); by vm_compute).
  destruct (read_csv_input_rows "in.csv" table_numeric
              (St_init (world_of table_numeric None)) eq_refl Hnd)
    as (runs_data & Hread & Hlen & Hrows).
  destruct (Hrows 0%nat [VInt 9007199254740993; VFloat (float_lit 25)] eq_refl)
    as (run_data & Hrow & Hkey & Hint & _).
  exists runs_data, run_data.
  split; [exact Hread |]. split; [exact Hlen |]. split; [exact Hrow |]. split.
  - rewrite (Hint ltac:(apply (bool_decide_unpack _); by vm_compute)
                  ltac:(apply (bool_decide_unpack _); by vm_compute)
                  "Landsat_nr" 9007199254740993 eq_refl).
    by vm_compute.
  - apply (Hkey "Temp_inst").
Defined.

Lemma process_timeseries_CSV_all_rows_witness :
  exists results,
    fst (process_timeseries_CSV csv_model_ok "in.csv" None (Some "")
           (St_init (world_of table2 None))) = Ok (Some results) /\
    map r_run_number results = py_range 1 (Z.of_nat (length (rows table2)) + 1) /\
    map r_identity results = map identity_of (runs_data_of table2) /\
    Forall (fun r => r_error r <> None -> r_success r = PyVal (VBool false)) results.
Proof.
  apply (process_timeseries_CSV_all_rows csv_model_ok "in.csv" table2 None (Some "")
           (St_init (world_of table2 None))); reflexivity.
Defined.

(** From 10 January 2025 on: of the two rows of the sample table the
    second is kept, and its entry has the number 1. *)
Lemma process_timeseries_CSV_filtered_witness :
  exists results,
    fst (process_timeseries_CSV csv_model_ok "in.csv" (Some "2025-01-10") None
           (St_init (world_of table2 None))) = Ok (Some results) /\
    map r_identity results
      = [(VStr "2025-01-17", VStr "LC08_B", VStr "/data/out")] /\
    map r_run_number results = [1].
Proof.
  apply (process_timeseries_CSV_filtered csv_model_ok "in.csv" table2
           (Some "2025-01-10") None (St_init (world_of table2 None)) eq_refl
           table2_dates_text).
Defined.

Lemma process_timeseries_CSV_date_type_error_witness :
  exists e,
    process_timeseries_CSV csv_model_ok "in.csv" (Some "2025-01-10") None
      (St_init (world_of table_empty_date None))
      = (Raise e, St_init (world_of table_empty_date None)) /\
    exn_class e = "TypeError".
Proof.
  apply (process_timeseries_CSV_date_type_error csv_model_ok "in.csv"
           table_empty_date (Some "2025-01-10") None
           (St_init (world_of table_empty_date None)) eq_refl).
  - left. discriminate.
  - eexists. split.
    + unfold runs_data_of, table_empty_date. cbn [map rows].
      apply list_elem_of_further, list_elem_of_here.
    + intros s. by vm_compute.
Defined.

(** ** [SEBALcode_CSV]: constant, map name or default *)

Section MetInputCases.

Variable float_of_str : string -> option spec_float.
Variable str_of_float : spec_float -> string.

(** X18: how a meteorological field is classified.  A column that the
    file does not have gives the default as a constant; a text that
    [float] reads gives that constant; a text that [float] refuses gives
    a map name, which is the text itself; a float and a bool give a
    constant, and so does an integer unless it is too large for a float.
    So a map name is a refused text, or the digits of an integer that is
    too large for a float, and nothing else. *)
Theorem read_met_input_cases (csv_run_data : gmap string value) (key : string)
  (dflt : spec_float) :
  let m := read_met_input float_of_str str_of_float csv_run_data key dflt in
  (csv_run_data !! key = None -> m = Constant dflt) /\
  (forall s x, csv_run_data !! key = Some (VStr s) -> float_of_str s = Some x ->
               m = Constant x) /\
  (forall s, csv_run_data !! key = Some (VStr s) -> float_of_str s = None ->
             m = MapName s) /\
  (forall f, csv_run_data !! key = Some (VFloat f) -> m = Constant f) /\
  (forall b, csv_run_data !! key = Some (VBool b) ->
             m = Constant (float_lit (if b then 1 else 0))) /\
  (forall z, csv_run_data !! key = Some (VInt z) ->
             (forall sign, float_lit z <> S754_infinity sign) ->
             m = Constant (float_lit z)) /\
  (forall name, m = MapName name ->
     (csv_run_data !! key = Some (VStr name) /\ float_of_str name = None) \/
     (exists z sign,
        csv_run_data !! key = Some (VInt z) /\
        float_lit z = S754_infinity sign /\
        name = pretty z)).
Proof.
  intros m. subst m. unfold read_met_input, dict_get, py_float, py_str.
  split; [| split; [| split; [| split; [| split; [| split]]]]].
  - by intros ->.
  - intros s x -> Hx. simpl. by rewrite Hx.
  - intros s -> Hs. simpl. by rewrite Hs.
  - by intros f ->.
  - by intros b ->.
  - intros z -> Hfin. simpl.
    destruct (float_lit z) as [sign | sign | | sign mant ex] eqn:E; try done.
    by destruct (Hfin sign).
  - intros name. destruct (csv_run_data !! key) as [[s | z | f | b] |];
      simpl; try discriminate.
    + destruct (float_of_str s) eqn:Hs; [discriminate |]. intros [= <-]. by left.
    + destruct (float_lit z) as [sign | sign | | sign mant ex] eqn:E;
        try discriminate.
      intros [= <-]. right. by exists z, sign.
Qed.

(** An integer cell, as [read_csv] gives for a column of whole numbers,
    is a constant: 25 is [25.0], whatever [float] and [str] do on text. *)
Example Temp_inst_of_integer :
  Temp_inst float_of_str str_of_float {["Temp_inst" := VInt 25]}
  = Constant (float_lit 25).
Proof. reflexivity. Qed.

End MetInputCases.

(** ** The scripts Run_py3.py and Run_CSV.py *)

Section ScriptFacts.

Context {X : Type}.
Variable SEBALcode : Z -> string -> World X -> result pyobj * World X.

(** X19: Run_py3.py hands the model the numbers of the user as they are.
    It calls [SEBALcode(number, inputCSV)] once for each number from [st]
    to [en], in order, whether earlier calls raised or not, and not at
    all when [en < st]; the number is the display row itself. *)
Theorem Run_py3_calls (inputCSV : string) (st en : Z) (state : St X) :
  calls (Run_py3 SEBALcode inputCSV st en state)
  = calls state ++ map (fun number => (number, inputCSV)) (py_range st (en + 1)).
Proof.
  unfold Run_py3. generalize (py_range st (en + 1)) as L. intros L.
  revert state. induction L as [| n L IH]; intros state; cbn [fold_left map].
  - by rewrite app_nil_r.
  - rewrite IH. unfold Run_py3_line, call_SEBALcode.
    destruct (SEBALcode n inputCSV (world state)) as [r w].
    cbn [snd calls]. by rewrite <- app_assoc.
Qed.

(** X20: the exit status of Run_CSV.py.  It is 0 exactly when a file is
    named, exists, and the row arguments, if any, are integers: also when
    pandas cannot read the file and when every run failed.  Otherwise it
    is 1. *)
Theorem Run_CSV_main_exit (argv : list string) (st : St X) :
  let code := fst (Run_CSV_main SEBALcode argv st) in
  (code = 0 \/ code = 1) /\
  (code = 0 <->
   exists csv_file,
     argv !! 1%nat = Some csv_file /\
     path_exists (world st) csv_file = true /\
     start_row_arg argv <> None /\
     end_row_arg argv <> None).
Proof.
  intros code. subst code. unfold Run_CSV_main.
  destruct (argv !! 1%nat) as [csv_file |].
  2: { split; [by right |]. split; [discriminate | intros (c & [=] & _)]. }
  destruct (path_exists (world st) csv_file) eqn:Hp; cbn [negb].
  2: { split; [by right |]. split; [discriminate |].
       intros (c & [= <-] & Hc & _). congruence. }
  destruct (start_row_arg argv) as [start_row |].
  2: { split; [by right |]. split; [discriminate |].
       intros (c & _ & _ & Hs & _). done. }
  destruct (end_row_arg argv) as [end_row |].
  2: { split; [by right |]. split; [discriminate |].
       intros (c & _ & _ & _ & He). done. }
  split; [by left |]. split; [| done].
  intros _. exists csv_file. repeat split; done.
Qed.

Lemma run_timeseries_CSV_row_counts (csv_handler : CSVInputHandler)
  (csv_file_path : string) (total_rows s f : Z) (st : St X) (row_num : Z) :
  let c := fst (run_timeseries_CSV_row SEBALcode csv_handler csv_file_path
                  total_rows ((s, f), st) row_num) in
  c = (s + 1, f) \/ c = (s, f + 1).
Proof.
  cbv zeta. unfold run_timeseries_CSV_row.
  destruct (run_info_returns csv_handler row_num) as (d & im & ->).
  destruct (SEBALcode_CSV_wrapper _ _ _ _) as [[res | e] st']; auto.
Qed.

Lemma run_timeseries_CSV_fold_counts (csv_handler : CSVInputHandler)
  (csv_file_path : string) (total_rows : Z) (L : list Z) (s f : Z) (st : St X) :
  let c := fst (fold_left (run_timeseries_CSV_row SEBALcode csv_handler
                             csv_file_path total_rows) L ((s, f), st)) in
  s <= fst c /\ f <= snd c /\ fst c + snd c = s + f + Z.of_nat (length L).
Proof.
  cbv zeta. revert s f st. induction L as [| i L IH]; intros s f st;
    cbn [fold_left length]; [cbn; lia |].
  pose proof (run_timeseries_CSV_row_counts csv_handler csv_file_path total_rows
                s f st i) as Hrow. cbv zeta in Hrow.
  destruct (run_timeseries_CSV_row _ _ _ _ _ i) as [[s' f'] st'].
  cbn [fst] in Hrow. specialize (IH s' f' st').
  destruct Hrow as [[= -> ->] | [= -> ->]]; lia.
Qed.

(** X21: [run_timeseries_CSV] counts every row of the range once.  For
    a readable file of [n] rows, [successful_runs] and [failed_runs] are
    not negative and add up to the size of the range,
    [max 0 (min end_row n - start_row + 1)], with [n] for a missing
    [end_row]. *)
Theorem run_timeseries_CSV_counts (csv_file_path : string) (start_row : Z)
  (end_row : option Z) (st : St X) (df : DataFrame) :
  files (world st) csv_file_path = Ok df ->
  let c := fst (run_timeseries_CSV SEBALcode csv_file_path start_row end_row st) in
  0 <= fst c /\ 0 <= snd c /\
  fst c + snd c = Z.max 0 (clamp_end_row (len_df df) end_row - start_row + 1).
Proof.
  intros Hf c. subst c. unfold run_timeseries_CSV, CSVInputHandler_init.
  rewrite Hf. cbn [data get_row_count].
  match goal with
  | |- context [fold_left ?g ?L ((0, 0), ?s0)] =>
      pose proof (run_timeseries_CSV_fold_counts
                    {| csv_file_path := csv_file_path; data := Some df |}
                    csv_file_path (len_df df) L 0 0 s0) as Hfold;
      cbv zeta in Hfold;
      destruct (fold_left g L ((0, 0), s0)) as [[s f] st']
  end.
  cbn [fst snd] in *. rewrite py_range_length in Hfold.
  unfold clamp_end_row. destruct end_row as [e |];
    [| rewrite Z.min_id in Hfold]; lia.
Qed.

(** X22: without an attribute to put back the patch stays.  If the
    module has no [load_workbook], or one whose value is falsy, and the
    model leaves the attribute alone, then after a call of the wrapper
    on a readable file the attribute is the mock loader. *)
Theorem SEBALcode_CSV_wrapper_patch_stays (row_number : Z) (csv_file_path : string)
  (st : St X) (df : DataFrame) :
  files (world st) csv_file_path = Ok df ->
  (forall original, load_workbook (world st) = Some original ->
                    truthy original = false) ->
  (forall row path w, load_workbook (snd (SEBALcode row path w)) = load_workbook w) ->
  exists l,
    load_workbook (world (snd (SEBALcode_CSV_wrapper SEBALcode row_number
                                 csv_file_path st)))
    = Some (PyMockLoader l).
Proof.
  intros Hf Hfalsy Hkeeps.
  destruct (SEBALcode_CSV_wrapper_loaded SEBALcode row_number csv_file_path st df Hf)
    as (w & l & Hattr & _ & ->).
  exists l. cbn [snd world].
  destruct (load_workbook (world st)) as [original |] eqn:Ho.
  - rewrite (Hfalsy original eq_refl). by rewrite Hkeeps.
  - by rewrite Hkeeps.
Qed.

End ScriptFacts.

Lemma run_timeseries_CSV_counts_witness :
  let c := fst (run_timeseries_CSV model_raises_on_4 "in.csv" 2 (Some 10)
                  (St_init (world_of table5 None))) in
  0 <= fst c /\ 0 <= snd c /\
  fst c + snd c = Z.max 0 (clamp_end_row (len_df table5) (Some 10) - 2 + 1).
Proof.
  apply (run_timeseries_CSV_counts model_raises_on_4 "in.csv" 2 (Some 10)
           (St_init (world_of table5 None)) table5).
  reflexivity.
Defined.

Lemma SEBALcode_CSV_wrapper_patch_stays_witness :
  exists l,
    load_workbook (world (snd (SEBALcode_CSV_wrapper model_ok 1 "in.csv"
                                 (St_init (world_of table2 None)))))
    = Some (PyMockLoader l).
Proof.
  apply (SEBALcode_CSV_wrapper_patch_stays model_ok 1 "in.csv"
           (St_init (world_of table2 None)) table2).
  - reflexivity.
  - discriminate.
  - reflexivity.
Defined.
